(** * SlicerTools: a shallow embedding of the tool adapter facade

    The Python class [SlicerTools] (src/SlicerTools.py) forwards each of its
    operations to a remote 3D Slicer session through an rpyc connection.  The
    facade itself is embedded line by line in a state-and-exception monad;
    the remote session is embedded as an explicit scene on which every remote
    method call acts, together with a schedule of the faults that remote
    calls meet, a trace of the remote calls made, the wall clock and the
    log. *)

From Stdlib Require Import String Ascii List ZArith Lia Bool Arith.
From Stdlib Require Import Decimal DecimalString.
From Stdlib Require Import Floats.SpecFloat.
From Stdlib Require DecimalPos DecimalN.
Import ListNotations.
Open Scope list_scope.
Open Scope string_scope.

(** ** Python values *)

(** A Python [float] is an IEEE 754 binary64 number. *)
Definition float : Set := spec_float.
Definition prec : Z := 53.
Definition emax : Z := 1024.

(** [toc - tic] *)
Definition float_sub (x y : float) : float := SFsub prec emax x y.

Definition is_finite (x : float) : bool :=
  match x with
  | S754_zero _ | S754_finite _ _ _ => true
  | S754_infinity _ | S754_nan => false
  end.

(** [str(n)] for a non-negative [int]. *)
Definition str_nat (n : nat) : string := NilZero.string_of_uint (Nat.to_uint n).

(** [sep.join(parts)] *)
Definition join (sep : string) (parts : list string) : string :=
  String.concat sep parts.

Definition LF : string := String "010" EmptyString.

(** *** The format specification [:.Nf]

    A finite binary64 number is [m * 2^e] exactly; [format(x, '.Nf')] prints
    the decimal with [N] fractional digits nearest to that exact value, ties
    going to the even last digit, and keeps the sign of the float (also for
    a negative zero and for a negative value that rounds to zero). *)

Definition digit (d : Z) : ascii := ascii_of_nat (48 + Z.to_nat d).

Fixpoint fraction_digits (p : nat) (n : Z) (acc : string) : string :=
  match p with
  | O => acc
  | S p' => fraction_digits p' (n / 10) (String (digit (n mod 10)) acc)
  end.

Definition decimal (n : Z) : string :=
  NilZero.string_of_uint (N.to_uint (Z.to_N n)).

Definition round_half_even (num den : Z) : Z :=
  let q := (num / den)%Z in
  let r := (num mod den)%Z in
  match (2 * r ?= den)%Z with
  | Lt => q
  | Gt => (q + 1)%Z
  | Eq => if Z.even q then q else (q + 1)%Z
  end.

(** [round(m * 2^e * 10^p)] *)
Definition scaled (p : nat) (m : positive) (e : Z) : Z :=
  if (0 <=? e)%Z
  then (Zpos m * 2 ^ e * 10 ^ Z.of_nat p)%Z
  else round_half_even (Zpos m * 10 ^ Z.of_nat p) (2 ^ (- e)).

Definition fixed_point (p : nat) (n : Z) : string :=
  decimal (n / 10 ^ Z.of_nat p) ++
  match p with
  | O => ""
  | S _ => "." ++ fraction_digits p (n mod 10 ^ Z.of_nat p) ""
  end.

Definition sign_prefix (s : bool) : string := if s then "-" else "".

Definition format_f (p : nat) (x : float) : string :=
  match x with
  | S754_nan => "nan"
  | S754_infinity s => sign_prefix s ++ "inf"
  | S754_zero s => sign_prefix s ++ fixed_point p 0
  | S754_finite s m e => sign_prefix s ++ fixed_point p (scaled p m e)
  end.

(** *** Exceptions

    The errors the facade raises itself, the [AttributeError] of a method
    call on [None] and what the rpyc layer raises for a failed remote call
    ([RemoteError] stands for these) are instances of subclasses of Python's
    [Exception].  [KeyboardInterrupt], [SystemExit] and [GeneratorExit]
    derive from [BaseException] only: a statement [except Exception] does
    not catch them.  [str(e)] is the message. *)

Inductive exn_class : Set :=
| ValueError
| TypeError
| AttributeError
| RemoteError
| KeyboardInterrupt
| SystemExit
| GeneratorExit.

Record exn : Set := mk_exn { exn_kind : exn_class; exn_msg : string }.

Definition str_exn (e : exn) : string := exn_msg e.

(** [isinstance(e, Exception)] *)
Definition is_Exception (e : exn) : bool :=
  match exn_kind e with
  | KeyboardInterrupt | SystemExit | GeneratorExit => false
  | ValueError | TypeError | AttributeError | RemoteError => true
  end.

Inductive result (A : Type) : Type :=
| Ok (a : A)
| Raise (e : exn).
Arguments Ok {A} a.
Arguments Raise {A} e.

(** ** The remote session *)

Record Segment : Set := mk_segment {
  seg_id : string;
  seg_name : string;
  seg_color : float * float * float;
  seg_visible : bool
}.

(** The modification bracket of a MRML node: while [DisableModifiedEvent] is
    set, [Modified()] only counts; [EndModify] delivers one event for all of
    them. *)
Record DisplayNode : Set := mk_display {
  DisableModifiedEvent : bool;
  ModifiedEventPending : nat;
  ModifiedEvents : nat
}.

Record Node : Set := mk_node {
  node_id : string;
  node_name : string;
  node_classes : list string;          (* the class of the node, then its bases *)
  node_segments : option (list Segment);
  node_display : option DisplayNode
}.

Record LayoutManager : Set := mk_layout {
  has_threeDWidget : bool;
  slice_widgets : list string;
  focal_resets : nat;
  fitted : list string
}.

Record Scene : Set := mk_scene {
  nodes : list Node;
  layout : option LayoutManager
}.

(** Remote object references (rpyc netrefs). *)
Definition NodeRef : Set := nat.
Definition DisplayRef : Set := nat.          (* the display node of that node *)
Definition SegmentationRef : Set := nat.     (* the segmentation of that node *)
Definition SegmentRef : Set := (nat * string)%type.

Inductive Call : Set :=
| call_slicer_util_getNodesByClass (class_name : string)
| call_slicer_util_getNode (pattern : string)
| call_slicer_mrmlScene_GetNodesByName (name : string)
| call_GetNumberOfItems (coll : list NodeRef)
| call_GetItemAsObject (coll : list NodeRef) (i : nat)
| call_IsA (n : NodeRef) (cls : string)
| call_GetClassName (n : NodeRef)
| call_GetDisplayNode (n : NodeRef)
| call_GetVisibleSegmentIDs (d : DisplayRef)
| call_GetSegmentation (n : NodeRef)
| call_GetSegment (sg : SegmentationRef) (id : string)
| call_GetName (sg : SegmentRef)
| call_GetSegmentColor (d : DisplayRef) (id : string)
| call_StartModify (d : DisplayRef)
| call_SetAllSegmentsVisibility (d : DisplayRef) (visible : bool)
| call_EndModify (d : DisplayRef) (wasModified : bool)
| call_GetSegmentIdBySegmentName (sg : SegmentationRef) (name : string)
| call_SetSegmentVisibility (d : DisplayRef) (id : string) (visible : bool)
| call_slicer_app_layoutManager
| call_threeDWidget (i : nat)
| call_threeDView
| call_resetFocalPoint
| call_sliceWidget (name : string)
| call_sliceController (name : string)
| call_fitSliceToBackground (name : string).

Record Event : Set := mk_event { ev_call : Call; ev_raised : option exn }.

Inductive Level : Set := INFO.
Record LogRecord : Set := mk_log { log_level : Level; log_msg : string }.

(** A fault that a remote call meets: the exception raised in the client,
    and whether the session had carried the call out when it was raised (a
    reply that is lost, a timeout or an interrupt while waiting for the
    answer) or had not (a request that never arrived). *)
Record Fault : Set := mk_fault { fault_exn : exn; fault_applied : bool }.

(** The state every operation runs in.  [w_faults] is the schedule of
    faults: each remote call consumes its head, and raises when that head
    holds a fault. *)
Record World : Type := mk_world {
  w_scene : Scene;
  w_faults : list (option Fault);
  w_trace : list Event;
  w_clock : nat -> float;
  w_ticks : nat;
  w_log : list LogRecord
}.

(** ** The monad of the facade: state, and exceptions that keep the state *)

Definition M (A : Type) : Type := World -> result A * World.

Definition ret {A} (a : A) : M A := fun w => (Ok a, w).

Definition raise {A} (e : exn) : M A := fun w => (Raise e, w).

Definition bind {A B} (m : M A) (f : A -> M B) : M B :=
  fun w =>
    match m w with
    | (Ok a, w') => f a w'
    | (Raise e, w') => (Raise e, w')
    end.

Notation "x <- m ;; k" := (bind m (fun x => k))
  (at level 61, m at next level, right associativity).
Notation "m ;;; k" := (bind m (fun _ => k))
  (at level 61, right associativity).

(** [try: body / except Exception as e: handler(e)]: an exception that is
    no instance of [Exception] passes through. *)
Definition try_except {A} (body : M A) (handler : exn -> M A) : M A :=
  fun w =>
    match body w with
    | (Ok a, w') => (Ok a, w')
    | (Raise e, w') =>
        if is_Exception e then handler e w' else (Raise e, w')
    end.

(** [for x in xs: acc = body(acc, x)] *)
Fixpoint for_each {A B} (xs : list A) (acc : B) (body : B -> A -> M B) : M B :=
  match xs with
  | [] => ret acc
  | x :: xs' => acc' <- body acc x ;; for_each xs' acc' body
  end.

(** [time.time()] reads the wall clock; each reading is a new one. *)
Definition tick (w : World) : World :=
  mk_world (w_scene w) (w_faults w) (w_trace w) (w_clock w) (S (w_ticks w)) (w_log w).

Definition time_time : M float :=
  fun w => (Ok (w_clock w (w_ticks w)), tick w).

(** [logging.info(msg)] *)
Definition logged (msg : string) (w : World) : World :=
  mk_world (w_scene w) (w_faults w) (w_trace w) (w_clock w) (w_ticks w)
           (w_log w ++ [mk_log INFO msg]).

Definition logging_info (msg : string) : M unit :=
  fun w => (Ok tt, logged msg w).

(** A method call on a local value that may be [None]. *)
Definition attr {A} (name : string) (o : option A) : M A :=
  match o with
  | Some a => ret a
  | None =>
      raise (mk_exn AttributeError
                    ("'NoneType' object has no attribute '" ++ name ++ "'"))
  end.

Definition raised {A} (r : result A) : option exn :=
  match r with Ok _ => None | Raise e => Some e end.

(** The world after a remote call: the head of the fault schedule is
    consumed and the call is appended to the trace with its outcome. *)
Definition after_call (c : Call) (outcome : option exn) (sc : Scene) (w : World)
  : World :=
  mk_world sc (tl (w_faults w)) (w_trace w ++ [mk_event c outcome])
           (w_clock w) (w_ticks w) (w_log w).

(** One remote method call.  Without a fault the session answers by
    [sem].  A scheduled fault raises its exception in the client; the
    session is as before when the call never reached it, and as [sem] leaves
    it when the call was carried out and only the answer did not arrive. *)
Definition remote {A} (c : Call) (sem : Scene -> result A * Scene) : M A :=
  fun w =>
    match w_faults w with
    | Some f :: _ =>
        (Raise (fault_exn f),
         after_call c (Some (fault_exn f))
                    (if fault_applied f then snd (sem (w_scene w)) else w_scene w)
                    w)
    | _ => let (r, sc) := sem (w_scene w) in (r, after_call c (raised r) sc w)
    end.

(** The next [k] remote calls meet no fault. *)
Fixpoint quiet (k : nat) (faults : list (option Fault)) : bool :=
  match k, faults with
  | O, _ => true
  | S _, [] => true
  | S k', None :: faults' => quiet k' faults'
  | S _, Some _ :: _ => false
  end.

(** ** What the remote session does on each call

    The scene is what 3D Slicer's MRML classes keep: named nodes, the
    segments of a segmentation node with their display properties, the
    modification bracket of its display node, and the layout manager with
    its view widgets. *)

Definition stale {A} : result A :=
  Raise (mk_exn RemoteError "stale remote object reference").

Definition no_attribute {A} (name : string) : result A :=
  Raise (mk_exn AttributeError ("object has no attribute '" ++ name ++ "'")).

Definition is_a (cls : string) (n : Node) : bool :=
  existsb (String.eqb cls) (node_classes n).

Definition named (name : string) (n : Node) : bool :=
  String.eqb (node_name n) name.

Definition matches (pattern : string) (n : Node) : bool :=
  String.eqb (node_id n) pattern || String.eqb (node_name n) pattern.

(** The references of the nodes that satisfy [p], in scene order. *)
Fixpoint refs_from (base : nat) (p : Node -> bool) (l : list Node) : list NodeRef :=
  match l with
  | [] => []
  | n :: l' =>
      if p n then base :: refs_from (S base) p l' else refs_from (S base) p l'
  end.

Definition refs_where (p : Node -> bool) (sc : Scene) : list NodeRef :=
  refs_from 0 p (nodes sc).

Fixpoint replace_nth {A} (i : nat) (x : A) (l : list A) : list A :=
  match l, i with
  | [], _ => []
  | _ :: l', O => x :: l'
  | y :: l', S i' => y :: replace_nth i' x l'
  end.

Definition set_node (h : NodeRef) (n : Node) (sc : Scene) : Scene :=
  mk_scene (replace_nth h n (nodes sc)) (layout sc).

Definition set_segments (segs : list Segment) (n : Node) : Node :=
  mk_node (node_id n) (node_name n) (node_classes n) (Some segs) (node_display n).

Definition set_display (d : DisplayNode) (n : Node) : Node :=
  mk_node (node_id n) (node_name n) (node_classes n) (node_segments n) (Some d).

Definition set_layout (lm : LayoutManager) (sc : Scene) : Scene :=
  mk_scene (nodes sc) (Some lm).

(** The node behind a reference, read-only. *)
Definition on_node {A} (h : NodeRef) (f : Node -> result A)
  : Scene -> result A * Scene :=
  fun sc =>
    match nth_error (nodes sc) h with
    | Some n => (f n, sc)
    | None => (stale, sc)
    end.

(** A segmentation node with its display node, read and written. *)
Definition on_display {A} (attr_name : string) (d : DisplayRef)
           (f : list Segment -> DisplayNode -> A * list Segment * DisplayNode)
  : Scene -> result A * Scene :=
  fun sc =>
    match nth_error (nodes sc) d with
    | Some n =>
        match node_display n, node_segments n with
        | Some dn, Some segs =>
            let '(a, segs', dn') := f segs dn in
            (Ok a, set_node d (set_display dn' (set_segments segs' n)) sc)
        | Some _, None => (no_attribute attr_name, sc)
        | None, _ => (stale, sc)
        end
    | None => (stale, sc)
    end.

Definition on_layout {A} (f : LayoutManager -> A * LayoutManager)
  : Scene -> result A * Scene :=
  fun sc =>
    match layout sc with
    | Some lm => let (a, lm') := f lm in (Ok a, set_layout lm' sc)
    | None => (stale, sc)
    end.

Definition find_segment (id : string) (segs : list Segment) : option Segment :=
  find (fun s => String.eqb (seg_id s) id) segs.

Definition with_visible (v : bool) (s : Segment) : Segment :=
  mk_segment (seg_id s) (seg_name s) (seg_color s) v.

Definition set_visibility (id : string) (v : bool) (segs : list Segment)
  : list Segment :=
  map (fun s => if String.eqb (seg_id s) id then with_visible v s else s) segs.

Definition set_all_visibility (v : bool) (segs : list Segment) : list Segment :=
  map (with_visible v) segs.

(** Does writing [v] change the visibility of a segment selected by [sel]? *)
Definition changes (sel : Segment -> bool) (v : bool) (segs : list Segment) : bool :=
  existsb (fun s => sel s && negb (Bool.eqb (seg_visible s) v)) segs.

(** [vtkMRMLNode::Modified()] *)
Definition Modified (dn : DisplayNode) : DisplayNode :=
  if DisableModifiedEvent dn
  then mk_display true (S (ModifiedEventPending dn)) (ModifiedEvents dn)
  else mk_display false (ModifiedEventPending dn) (S (ModifiedEvents dn)).

Definition modified_if (b : bool) (dn : DisplayNode) : DisplayNode :=
  if b then Modified dn else dn.

(** [vtkMRMLNode::EndModify(previous)] *)
Definition end_modify (previous : bool) (dn : DisplayNode) : DisplayNode :=
  if previous
  then mk_display true (ModifiedEventPending dn) (ModifiedEvents dn)
  else
    match ModifiedEventPending dn with
    | O => mk_display false O (ModifiedEvents dn)
    | S _ => mk_display false O (S (ModifiedEvents dn))
    end.

(** ** The remote methods the facade calls *)

Definition slicer_util_getNodesByClass (class_name : string) : M (list string) :=
  remote (call_slicer_util_getNodesByClass class_name)
         (fun sc => (Ok (map node_name (filter (is_a class_name) (nodes sc))), sc)).

Definition slicer_util_getNode (pattern : string) : M NodeRef :=
  remote (call_slicer_util_getNode pattern)
         (fun sc =>
            match refs_where (matches pattern) sc with
            | h :: _ => (Ok h, sc)
            | [] =>
                (Raise (mk_exn RemoteError
                   ("could not find nodes in the scene by name or id '"
                      ++ pattern ++ "'")), sc)
            end).

Definition slicer_mrmlScene_GetNodesByName (name : string) : M (list NodeRef) :=
  remote (call_slicer_mrmlScene_GetNodesByName name)
         (fun sc => (Ok (refs_where (named name) sc), sc)).

Definition GetNumberOfItems (coll : list NodeRef) : M nat :=
  remote (call_GetNumberOfItems coll) (fun sc => (Ok (length coll), sc)).

Definition GetItemAsObject (coll : list NodeRef) (i : nat) : M (option NodeRef) :=
  remote (call_GetItemAsObject coll i) (fun sc => (Ok (nth_error coll i), sc)).

Definition IsA (n : NodeRef) (cls : string) : M bool :=
  remote (call_IsA n cls) (on_node n (fun nd => Ok (is_a cls nd))).

Definition GetClassName (n : NodeRef) : M string :=
  remote (call_GetClassName n) (on_node n (fun nd => Ok (hd "" (node_classes nd)))).

Definition GetDisplayNode (n : NodeRef) : M (option DisplayRef) :=
  remote (call_GetDisplayNode n)
         (on_node n (fun nd =>
            Ok match node_display nd with Some _ => Some n | None => None end)).

Definition GetVisibleSegmentIDs (d : DisplayRef) : M (list string) :=
  remote (call_GetVisibleSegmentIDs d)
         (on_display "GetVisibleSegmentIDs" d (fun segs dn =>
            (map seg_id (filter seg_visible segs), segs, dn))).

Definition GetSegmentation (n : NodeRef) : M SegmentationRef :=
  remote (call_GetSegmentation n)
         (on_node n (fun nd =>
            match node_segments nd with
            | Some _ => Ok n
            | None => no_attribute "GetSegmentation"
            end)).

Definition GetSegment (sg : SegmentationRef) (id : string) : M (option SegmentRef) :=
  remote (call_GetSegment sg id)
         (on_node sg (fun nd =>
            match node_segments nd with
            | Some segs =>
                Ok match find_segment id segs with
                   | Some _ => Some (sg, id)
                   | None => None
                   end
            | None => stale
            end)).

Definition GetName (s : SegmentRef) : M string :=
  remote (call_GetName s)
         (on_node (fst s) (fun nd =>
            match node_segments nd with
            | Some segs =>
                match find_segment (snd s) segs with
                | Some sg => Ok (seg_name sg)
                | None => stale
                end
            | None => stale
            end)).

(** [GetSegmentColor(segmentId, color)] writes into the caller's buffer; the
    buffer after the call is the value. *)
Definition GetSegmentColor (d : DisplayRef) (id : string)
           (color : float * float * float) : M (float * float * float) :=
  remote (call_GetSegmentColor d id)
         (on_display "GetSegmentColor" d (fun segs dn =>
            (match find_segment id segs with
             | Some sg => seg_color sg
             | None => color
             end, segs, dn))).

Definition StartModify (d : DisplayRef) : M bool :=
  remote (call_StartModify d)
         (on_display "StartModify" d (fun segs dn =>
            (DisableModifiedEvent dn, segs,
             mk_display true (ModifiedEventPending dn) (ModifiedEvents dn)))).

Definition EndModify (d : DisplayRef) (wasModified : bool) : M unit :=
  remote (call_EndModify d wasModified)
         (on_display "EndModify" d (fun segs dn =>
            (tt, segs, end_modify wasModified dn))).

Definition SetAllSegmentsVisibility (d : DisplayRef) (visible : bool) : M unit :=
  remote (call_SetAllSegmentsVisibility d visible)
         (on_display "SetAllSegmentsVisibility" d (fun segs dn =>
            (tt, set_all_visibility visible segs,
             modified_if (changes (fun _ => true) visible segs) dn))).

Definition GetSegmentIdBySegmentName (sg : SegmentationRef) (name : string)
  : M string :=
  remote (call_GetSegmentIdBySegmentName sg name)
         (on_node sg (fun nd =>
            match node_segments nd with
            | Some segs =>
                Ok match find (fun s => String.eqb (seg_name s) name) segs with
                   | Some s => seg_id s
                   | None => ""
                   end
            | None => stale
            end)).

Definition SetSegmentVisibility (d : DisplayRef) (id : string) (visible : bool)
  : M unit :=
  remote (call_SetSegmentVisibility d id visible)
         (on_display "SetSegmentVisibility" d (fun segs dn =>
            (tt, set_visibility id visible segs,
             modified_if
               (changes (fun s => String.eqb (seg_id s) id) visible segs) dn))).

Definition slicer_app_layoutManager : M (option unit) :=
  remote call_slicer_app_layoutManager
         (fun sc =>
            (Ok match layout sc with Some _ => Some tt | None => None end, sc)).

Definition threeDWidget (i : nat) : M (option unit) :=
  remote (call_threeDWidget i)
         (on_layout (fun lm =>
            (if has_threeDWidget lm && Nat.eqb i 0 then Some tt else None, lm))).

Definition threeDView : M unit :=
  remote call_threeDView (on_layout (fun lm => (tt, lm))).

Definition resetFocalPoint : M unit :=
  remote call_resetFocalPoint
         (on_layout (fun lm =>
            (tt, mk_layout (has_threeDWidget lm) (slice_widgets lm)
                           (S (focal_resets lm)) (fitted lm)))).

Definition sliceWidget (name : string) : M (option string) :=
  remote (call_sliceWidget name)
         (on_layout (fun lm =>
            (if existsb (String.eqb name) (slice_widgets lm)
             then Some name else None, lm))).

Definition sliceController (name : string) : M string :=
  remote (call_sliceController name) (on_layout (fun lm => (name, lm))).

Definition fitSliceToBackground (name : string) : M unit :=
  remote (call_fitSliceToBackground name)
         (on_layout (fun lm =>
            (tt, mk_layout (has_threeDWidget lm) (slice_widgets lm)
                           (focal_resets lm) (fitted lm ++ [name])))).

(** ** The facade: class [SlicerTools] *)

(** [info.append(x)] *)
Definition append {A} (info : list A) (x : A) : list A := (info ++ [x])%list.

Definition executed_in (name : string) (tic toc : float) : string :=
  name ++ " executed in " ++ format_f 4 (float_sub toc tic) ++ " seconds".

Definition get_node_by_class (class_name : string) : M string :=
  tic <- time_time ;;
  let info := [] in
  nodes <- slicer_util_getNodesByClass class_name ;;
  let info :=
    match nodes with
    | _ :: _ =>
        let info := append info (class_name ++ " nodes:") in
        fold_left (fun info node => append info ("- " ++ node)) nodes info
    | [] => append info ("No " ++ class_name ++ " nodes found in scene")
    end in
  toc <- time_time ;;
  logging_info (executed_in "get_node_by_class" tic toc) ;;;
  ret (join LF info).

Definition segment_entry (name : string) (color : float * float * float) : string :=
  let '(c0, c1, c2) := color in
  name ++ " (Color: RGB(" ++ format_f 2 c0 ++ ", " ++ format_f 2 c1 ++ ", "
       ++ format_f 2 c2 ++ ")".

Definition zero : float := S754_zero false.

Definition get_visible_segments (segmentation_node : string) : M string :=
  tic <- time_time ;;
  let info := [] in
  segmentationNode <- slicer_util_getNode segmentation_node ;;
  segmentationDisplayNode <- GetDisplayNode segmentationNode ;;
  displayNode <- attr "GetVisibleSegmentIDs" segmentationDisplayNode ;;
  visible_segment_ids <- GetVisibleSegmentIDs displayNode ;;
  info <- for_each visible_segment_ids info (fun info segmentId =>
    segmentation <- GetSegmentation segmentationNode ;;
    segment <- GetSegment segmentation segmentId ;;
    let color := (zero, zero, zero) in
    color <- GetSegmentColor displayNode segmentId color ;;
    segment <- attr "GetName" segment ;;
    name <- GetName segment ;;
    ret (append info (segment_entry name color))) ;;
  let info :=
    "The segmentation node " ++ segmentation_node
      ++ " contains the following visible segments: " ++ join "," info in
  toc <- time_time ;;
  logging_info (executed_in "get_visible_segments" tic toc) ;;;
  ret info.

Definition _get_segmentation_and_display_node (segmentation_node_name : string)
  : M (NodeRef * DisplayRef) :=
  nodes <- slicer_mrmlScene_GetNodesByName segmentation_node_name ;;
  n <- GetNumberOfItems nodes ;;
  if negb (Nat.eqb n 1) then
    n <- GetNumberOfItems nodes ;;
    raise (mk_exn ValueError
             ("Expected exactly one node named '" ++ segmentation_node_name
                ++ "', found " ++ str_nat n))
  else
    segmentationNode <- GetItemAsObject nodes 0 ;;
    segmentationNode <- attr "IsA" segmentationNode ;;
    is_segmentation <- IsA segmentationNode "vtkMRMLSegmentationNode" ;;
    if negb is_segmentation then
      cls <- GetClassName segmentationNode ;;
      raise (mk_exn TypeError
               ("Node '" ++ segmentation_node_name
                  ++ "' is not a segmentation node. Found: " ++ cls))
    else
      displayNode <- GetDisplayNode segmentationNode ;;
      match displayNode with
      | None =>
          raise (mk_exn ValueError
                   ("Segmentation node '" ++ segmentation_node_name
                      ++ "' has no display node"))
      | Some displayNode => ret (segmentationNode, displayNode)
      end.

Definition visible_or_hidden (visible : bool) : string :=
  if visible then "visible" else "hidden".

Definition set_all_segments_visibility
           (segmentation_node_name : string) (visible : bool) : M string :=
  tic <- time_time ;;
  nd <- _get_segmentation_and_display_node segmentation_node_name ;;
  let '(segmentationNode, displayNode) := nd in
  wasModified <- StartModify displayNode ;;
  SetAllSegmentsVisibility displayNode visible ;;;
  EndModify displayNode wasModified ;;;
  toc <- time_time ;;
  logging_info (executed_in "set_all_segments_visibility" tic toc) ;;;
  ret ("All segments in " ++ segmentation_node_name ++ " are now "
         ++ visible_or_hidden visible).

(** The body of the [try] statement of [center_view]. *)
Definition center_view_try (tic : float) : M string :=
  layoutManager <- slicer_app_layoutManager ;;
  attr "threeDWidget" layoutManager ;;;
  threeDWidget <- threeDWidget 0 ;;
  match threeDWidget with
  | Some _ => threeDView ;;; resetFocalPoint
  | None => ret tt
  end ;;;
  for_each ["Red"; "Yellow"; "Green"] tt (fun _ name =>
    sliceWidget <- sliceWidget name ;;
    match sliceWidget with
    | Some w => c <- sliceController w ;; fitSliceToBackground c
    | None => ret tt
    end) ;;;
  toc <- time_time ;;
  logging_info (executed_in "center_view" tic toc) ;;;
  ret "Successfully centered all views".

Definition center_view : M string :=
  tic <- time_time ;;
  try_except (center_view_try tic)
             (fun e => ret ("Error centering views: " ++ str_exn e)).

Definition set_segments_visibility
           (segmentation_node_name : string) (segment_names : list string)
           (visible : bool) : M string :=
  tic <- time_time ;;
  nd <- _get_segmentation_and_display_node segmentation_node_name ;;
  let '(segmentationNode, displayNode) := nd in
  segmentation <- GetSegmentation segmentationNode ;;
  wasModified <- StartModify displayNode ;;
  for_each segment_names tt (fun _ segment_name =>
    segment_id <- GetSegmentIdBySegmentName segmentation segment_name ;;
    SetSegmentVisibility displayNode segment_id visible) ;;;
  EndModify displayNode wasModified ;;;
  center_view ;;;
  toc <- time_time ;;
  logging_info (executed_in "set_segments_visibility" tic toc) ;;;
  ret ("Segments " ++ join ", " segment_names ++ " in " ++ segmentation_node_name
         ++ " are now " ++ visible_or_hidden visible).

(** The tools registered in [__init__], and their dispatch by name. *)
Inductive Operation : Set :=
| tool_get_node_by_class (class_name : string)
| tool_get_visible_segments (segmentation_node : string)
| tool_set_all_segments_visibility (segmentation_node_name : string) (visible : bool)
| tool_set_segments_visibility (segmentation_node_name : string)
                               (segment_names : list string) (visible : bool)
| tool_center_view.


Definition invoke (op : Operation) : M string :=
  match op with
  | tool_get_node_by_class c => get_node_by_class c
  | tool_get_visible_segments n => get_visible_segments n
  | tool_set_all_segments_visibility n v => set_all_segments_visibility n v
  | tool_set_segments_visibility n l v => set_segments_visibility n l v
  | tool_center_view => center_view
  end.

(** [s.split("\n")] *)
Fixpoint split_lines (s : string) : list string :=
  match s with
  | EmptyString => [""]
  | String c s' =>
      if Ascii.eqb c "010" then "" :: split_lines s'
      else
        match split_lines s' with
        | l :: ls => String c l :: ls
        | [] => [String c ""]
        end
  end.

Fixpoint has_newline (s : string) : bool :=
  match s with
  | EmptyString => false
  | String c s' => Ascii.eqb c "010" || has_newline s'
  end.

(** ** Sample sessions *)

Definition seconds (quarters : nat) : float :=
  binary_normalize prec emax (Z.of_nat quarters) (-2) false.

Definition half : float := S754_finite false 4503599627370496 (-53).
Definition one : float := S754_finite false 4503599627370496 (-52).

Definition sample_segments : list Segment :=
  [ mk_segment "Segment_1" "liver" (one, zero, zero) true;
    mk_segment "Segment_2" "spleen" (zero, half, zero) false;
    mk_segment "Segment_3" "tumor" (half, half, one) true ].

Definition segmentation_classes : list string :=
  ["vtkMRMLSegmentationNode"; "vtkMRMLDisplayableNode"; "vtkMRMLNode"].

Definition volume_classes : list string :=
  ["vtkMRMLScalarVolumeNode"; "vtkMRMLVolumeNode"; "vtkMRMLDisplayableNode";
   "vtkMRMLNode"].

Definition sample_nodes : list Node :=
  [ mk_node "vtkMRMLScalarVolumeNode1" "CT" volume_classes None
            (Some (mk_display false 0 0));
    mk_node "vtkMRMLSegmentationNode1" "Segmentation" segmentation_classes
            (Some sample_segments) (Some (mk_display false 0 0));
    mk_node "vtkMRMLSegmentationNode2" "Twin" segmentation_classes
            (Some []) (Some (mk_display false 0 0));
    mk_node "vtkMRMLSegmentationNode3" "Twin" segmentation_classes
            (Some []) None ].

Definition sample_layout : LayoutManager :=
  mk_layout true ["Red"; "Yellow"; "Green"] 0 [].

Definition session (sc : Scene) (faults : list (option Fault)) : World :=
  mk_world sc faults [] seconds 0 [].

Definition sample_world : World :=
  session (mk_scene sample_nodes (Some sample_layout)) [].

Definition connection_lost : exn :=
  mk_exn RemoteError "connection closed by peer".

Definition keyboard_interrupt : exn := mk_exn KeyboardInterrupt "".

(** The call did not reach the session. *)
Definition request_lost (e : exn) : Fault := mk_fault e false.

(** The session carried the call out; its answer did not arrive. *)
Definition reply_lost (e : exn) : Fault := mk_fault e true.

(** The same scene in a session whose connection drops at the eleventh
    remote call, after the session has carried that call out. *)
Definition faulty_world : World :=
  session (mk_scene sample_nodes (Some sample_layout))
          (repeat None 9 ++ [None; Some (reply_lost connection_lost)]).

(** The same scene in a session whose user interrupts the client while it
    waits for the answer to the fourth remote call. *)
Definition interrupted_world : World :=
  session (mk_scene sample_nodes (Some sample_layout))
          [None; None; None; Some (reply_lost keyboard_interrupt)].

(** The same scene in a session without a main window. *)
Definition headless_world : World :=
  session (mk_scene sample_nodes None) [].

(** ** Vocabulary of the properties *)

(** The world after the five remote calls of a successful resolution. *)
Definition resolved (name : string) (h : NodeRef) (w : World) : World :=
  let sc := w_scene w in
  after_call (call_GetDisplayNode h) None sc
    (after_call (call_IsA h "vtkMRMLSegmentationNode") None sc
       (after_call (call_GetItemAsObject [h] 0) None sc
          (after_call (call_GetNumberOfItems [h]) None sc
             (after_call (call_slicer_mrmlScene_GetNodesByName name) None sc w)))).

(** [part] occurs in [whole]. *)
Definition contains (part whole : string) : Prop :=
  exists before after, whole = before ++ part ++ after.

(** The scene in which node [h] holds the segments [segs] and the display
    node [dn]. *)
Definition put (h : NodeRef) (segs : list Segment) (dn : DisplayNode)
           (n : Node) (sc : Scene) : Scene :=
  set_node h (set_display dn (set_segments segs n)) sc.

(** The display node after [StartModify]. *)
Definition started (dn : DisplayNode) : DisplayNode :=
  mk_display true (ModifiedEventPending dn) (ModifiedEvents dn).

(** The display node after the bracket of operation (d). *)
Definition display_after_all (visible : bool) (segs : list Segment)
           (dn : DisplayNode) : DisplayNode :=
  end_modify (DisableModifiedEvent dn)
             (modified_if (changes (fun _ => true) visible segs) (started dn)).

(** The world after a run of operation (d) that met no fault. *)
Definition after_set_all (name : string) (h : NodeRef) (visible : bool)
           (segs : list Segment) (dn : DisplayNode) (n : Node) (w : World)
  : World :=
  let sc := w_scene w in
  let segs' := set_all_visibility visible segs in
  let dn' := modified_if (changes (fun _ => true) visible segs) (started dn) in
  logged (executed_in "set_all_segments_visibility"
                      (w_clock w (w_ticks w)) (w_clock w (S (w_ticks w))))
    (tick
       (after_call (call_EndModify h (DisableModifiedEvent dn)) None
          (put h segs' (display_after_all visible segs dn) n sc)
          (after_call (call_SetAllSegmentsVisibility h visible) None
             (put h segs' dn' n sc)
             (after_call (call_StartModify h) None
                (put h segs (started dn) n sc)
                (resolved name h (tick w)))))).

Definition segments_of (h : NodeRef) (w : World) : option (list Segment) :=
  match nth_error (nodes (w_scene w)) h with
  | Some n => node_segments n
  | None => None
  end.

(** The visibility of every segment of node [h], by segment identifier. *)
Definition visibility_state (h : NodeRef) (w : World)
  : option (list (string * bool)) :=
  option_map (map (fun s => (seg_id s, seg_visible s))) (segments_of h w).

(** The same world with every segment of node [h] visible. *)
Definition all_visible_baseline (h : NodeRef) (w : World) : World :=
  match nth_error (nodes (w_scene w)) h with
  | Some n =>
      match node_segments n with
      | Some segs =>
          mk_world (set_node h (set_segments (set_all_visibility true segs) n)
                             (w_scene w))
                   (w_faults w) (w_trace w) (w_clock w) (w_ticks w) (w_log w)
      | None => w
      end
  | None => w
  end.

(** [emits P m]: a run of [m] appends events to the trace, each a call that
    satisfies [P], and a call that raised ends the run with that exception. *)
Definition emits {A} (P : Call -> Prop) (m : M A) : Prop :=
  forall (w : World) (r : result A) (w' : World),
    m w = (r, w') ->
    exists evs : list Event,
      w_trace w' = (w_trace w ++ evs)%list /\
      Forall (fun ev => P (ev_call ev)) evs /\
      (forall e, In (Some e) (map ev_raised evs) -> r = Raise e).

Definition success : string := "Successfully centered all views".

(** The run returned [s], unless an exception that is no [Exception] came
    through. *)
Definition returns_unless_interrupted (s : string) (r : result string) : Prop :=
  r = Ok s \/ exists e, r = Raise e /\ is_Exception e = false.

(** A stretch of a run that only touches the layout manager. *)
Definition layout_step (lm' : LayoutManager) (k : nat) (w w' : World) : Prop :=
  layout (w_scene w') = Some lm' /\
  nodes (w_scene w') = nodes (w_scene w) /\
  quiet k (w_faults w') = true /\
  w_clock w' = w_clock w /\ w_ticks w' = w_ticks w /\ w_log w' = w_log w.

Definition reset_view (lm : LayoutManager) : LayoutManager :=
  if has_threeDWidget lm
  then mk_layout true (slice_widgets lm) (S (focal_resets lm)) (fitted lm)
  else lm.

Definition fit_slice (name : string) (lm : LayoutManager) : LayoutManager :=
  if existsb (String.eqb name) (slice_widgets lm)
  then mk_layout (has_threeDWidget lm) (slice_widgets lm) (focal_resets lm)
                 (fitted lm ++ [name])
  else lm.

(** The layout manager after a successful [center_view]. *)
Definition centered (lm : LayoutManager) : LayoutManager :=
  fit_slice "Green" (fit_slice "Yellow" (fit_slice "Red" (reset_view lm))).

(** [yields Q m]: whenever [m] returns, the value satisfies [Q]. *)
Definition yields {A} (Q : A -> Prop) (m : M A) : Prop :=
  forall (w : World) (a : A) (w' : World), m w = (Ok a, w') -> Q a.

(** [silent m]: a run of [m] neither reads the clock nor writes to the log. *)
Definition silent {A} (m : M A) : Prop :=
  forall (w : World) (r : result A) (w' : World),
    m w = (r, w') ->
    w_log w' = w_log w /\ w_ticks w' = w_ticks w /\ w_clock w' = w_clock w.


Definition is_digit (c : ascii) : bool :=
  ((48 <=? nat_of_ascii c) && (nat_of_ascii c <=? 57))%nat.

Fixpoint all_digits (s : string) : bool :=
  match s with
  | EmptyString => true
  | String c s' => is_digit c && all_digits s'
  end.

(** An optional minus sign, at least one digit, a point, and exactly [p]
    digits. *)
Definition decimal_places (p : nat) (s : string) : Prop :=
  exists (sg : bool) (ip fp : string),
    s = sign_prefix sg ++ ip ++ "." ++ fp /\
    ip <> "" /\ all_digits ip = true /\ all_digits fp = true /\
    String.length fp = p.




(** [GetSegmentIdBySegmentName]: the identifier of the first segment of that
    name, the empty string when there is none. *)
Definition segment_id_of (segs : list Segment) (name : string) : string :=
  match find (fun s => String.eqb (seg_name s) name) segs with
  | Some s => seg_id s
  | None => ""
  end.

(** One [SetSegmentVisibility] on the segments and the display node. *)
Definition show_step (visible : bool) (st : list Segment * DisplayNode)
           (name : string) : list Segment * DisplayNode :=
  let id := segment_id_of (fst st) name in
  (set_visibility id visible (fst st),
   modified_if (changes (fun s => String.eqb (seg_id s) id) visible (fst st))
               (snd st)).

Definition show_steps (visible : bool) (names : list string)
           (st : list Segment * DisplayNode) : list Segment * DisplayNode :=
  fold_left (show_step visible) names st.

(** The two remote calls the loop makes for each name, all answered. *)
Fixpoint loop_events (h : NodeRef) (visible : bool) (segs : list Segment)
         (names : list string) : list Event :=
  match names with
  | [] => []
  | name :: rest =>
      let id := segment_id_of segs name in
      mk_event (call_GetSegmentIdBySegmentName h name) None
        :: mk_event (call_SetSegmentVisibility h id visible) None
        :: loop_events h visible (set_visibility id visible segs) rest
  end.

Definition after_loop (h : NodeRef) (n : Node) (sc : Scene) (visible : bool)
           (names : list string) (segs : list Segment) (dn : DisplayNode)
           (w : World) : World :=
  let st := show_steps visible names (segs, dn) in
  mk_world (put h (fst st) (snd st) n sc)
           (skipn (2 * length names) (w_faults w))
           (w_trace w ++ loop_events h visible segs names)
           (w_clock w) (w_ticks w) (w_log w).

Definition visibility_body (h : NodeRef) (visible : bool)
  : unit -> string -> M unit :=
  fun _ segment_name =>
    segment_id <- GetSegmentIdBySegmentName h segment_name ;;
    SetSegmentVisibility h segment_id visible.

(** The world in which the loop of operation (e) starts: the node is
    resolved, its segmentation fetched and the bracket opened. *)
Definition bracket_opened (name : string) (h : NodeRef)
           (segs : list Segment) (dn : DisplayNode) (n : Node) (w : World)
  : World :=
  after_call (call_StartModify h) None (put h segs (started dn) n (w_scene w))
    (after_call (call_GetSegmentation h) None (w_scene w)
       (resolved name h (tick w))).

Definition segments_sentence (name : string) (names : list string)
           (visible : bool) : string :=
  "Segments " ++ join ", " names ++ " in " ++ name ++ " are now "
    ++ visible_or_hidden visible.

(** The world in which operation (e) calls [center_view]: every requested
    name written, the bracket closed. *)
Definition before_center_view (name : string) (names : list string)
           (visible : bool) (h : NodeRef) (segs : list Segment)
           (dn : DisplayNode) (n : Node) (w : World) : World :=
  let st := show_steps visible names (segs, started dn) in
  after_call (call_EndModify h (DisableModifiedEvent dn)) None
    (put h (fst st) (end_modify (DisableModifiedEvent dn) (snd st)) n (w_scene w))
    (after_loop h n (w_scene w) visible names segs (started dn)
       (bracket_opened name h segs dn n w)).

Definition is_layoutManager_call (c : Call) : bool :=
  match c with
  | call_slicer_app_layoutManager => true
  | _ => false
  end.

(** How many times [center_view] was started: each start makes exactly one
    [slicer_app_layoutManager] call, and nothing else makes one. *)
Definition center_view_starts (evs : list Event) : nat :=
  length (filter (fun ev => is_layoutManager_call (ev_call ev)) evs).

Definition display_of (h : NodeRef) (w : World) : option DisplayNode :=
  match nth_error (nodes (w_scene w)) h with
  | Some n => node_display n
  | None => None
  end.

(** The calls of operation (e) before its loop, all answered. *)
Definition opening_events (name : string) (h : NodeRef) : list Event :=
  [ mk_event (call_slicer_mrmlScene_GetNodesByName name) None;
    mk_event (call_GetNumberOfItems [h]) None;
    mk_event (call_GetItemAsObject [h] 0) None;
    mk_event (call_IsA h "vtkMRMLSegmentationNode") None;
    mk_event (call_GetDisplayNode h) None;
    mk_event (call_GetSegmentation h) None;
    mk_event (call_StartModify h) None ].

Definition is_EndModify_call (c : Call) : bool :=
  match c with
  | call_EndModify _ _ => true
  | _ => false
  end.

Definition red (s : Segment) : float := fst (fst (seg_color s)).
Definition green (s : Segment) : float := snd (fst (seg_color s)).
Definition blue (s : Segment) : float := snd (seg_color s).

(** The entry of a segment, as the spec words it:
    [Name (Color: RGB(r.rr, g.gg, b.bb)]. *)
Definition rgb_entry (s : Segment) : string :=
  seg_name s ++ " (Color: RGB(" ++ format_f 2 (red s) ++ ", "
    ++ format_f 2 (green s) ++ ", " ++ format_f 2 (blue s) ++ ")".

Definition visible_sentence (node : string) (entries : list string) : string :=
  "The segmentation node " ++ node
    ++ " contains the following visible segments: " ++ join "," entries.

Definition entry_body (h : NodeRef) : list string -> string -> M (list string) :=
  fun info segmentId =>
    segmentation <- GetSegmentation h ;;
    segment <- GetSegment segmentation segmentId ;;
    let color := (zero, zero, zero) in
    color <- GetSegmentColor h segmentId color ;;
    segment <- attr "GetName" segment ;;
    name <- GetName segment ;;
    ret (append info (segment_entry name color)).

(** ** Vocabulary of the further properties *)

(** [keeps f m]: a run of [m], whatever its outcome, leaves the part [f] of
    the scene as it was. *)
Definition keeps {A X} (f : Scene -> X) (m : M A) : Prop :=
  forall (w : World) (r : result A) (w' : World),
    m w = (r, w') -> f (w_scene w') = f (w_scene w).

(** The calls made since the trace was [before]. *)
Definition calls_since (before : World) (after : World) : list Call :=
  map ev_call (skipn (length (w_trace before)) (w_trace after)).

(** A session whose only node is a segmentation node without display node. *)
Definition orphan_world : World :=
  session (mk_scene [mk_node "vtkMRMLSegmentationNode9" "Orphan"
                             segmentation_classes (Some sample_segments) None]
                    (Some sample_layout)) [].

(** What identifies the content of a scene apart from the visibility flags
    and the modification bracket: per node its identifier, name and classes,
    the identifier, name and color of each segment, and whether it has a
    display node. *)
Definition segment_identity (s : Segment)
  : string * string * (float * float * float) :=
  (seg_id s, seg_name s, seg_color s).

Definition node_identity (n : Node)
  : string * string * list string
    * option (list (string * string * (float * float * float))) * bool :=
  (node_id n, node_name n, node_classes n,
   option_map (map segment_identity) (node_segments n),
   match node_display n with Some _ => true | None => false end).

Definition skeleton (sc : Scene) :=
  map node_identity (nodes sc).

(** The remote calls that write to a display node. *)
Definition is_write_call (c : Call) : bool :=
  match c with
  | call_StartModify _ | call_EndModify _ _
  | call_SetAllSegmentsVisibility _ _ | call_SetSegmentVisibility _ _ _ => true
  | _ => false
  end.

(** The segment is the one that some requested name resolves to: the first
    segment of that name. *)
Definition requested (segs : list Segment) (names : list string) (s : Segment)
  : bool :=
  existsb (fun name => String.eqb (seg_id s) (segment_id_of segs name)) names.

(** The segments after the requested ones were given the visibility. *)
Definition shown (visible : bool) (segs : list Segment) (names : list string)
  : list Segment :=
  map (fun s => if requested segs names s then with_visible visible s else s)
      segs.

(** Some requested segment does not have the visibility yet. *)
Definition any_change (visible : bool) (segs : list Segment)
           (names : list string) : bool :=
  existsb (fun s => requested segs names s
                    && negb (Bool.eqb (seg_visible s) visible)) segs.

(** A segmentation in which two segments share a name. *)
Definition duplicate_segments : list Segment :=
  [ mk_segment "Segment_1" "lesion" (one, zero, zero) true;
    mk_segment "Segment_2" "lesion" (zero, one, zero) true;
    mk_segment "Segment_3" "organ" (zero, zero, one) true ].

Definition duplicate_world : World :=
  session (mk_scene [mk_node "vtkMRMLSegmentationNode5" "Dup"
                             segmentation_classes (Some duplicate_segments)
                             (Some (mk_display false 0 0))]
                    (Some sample_layout)) [].

(** A session without 3D widget and without Yellow slice view. *)
Definition partial_layout_world : World :=
  session (mk_scene sample_nodes
                    (Some (mk_layout false ["Green"; "Slice4"; "Red"] 0 [])))
          [].

(** The number a string of decimal digits denotes, read after [acc]. *)
Fixpoint digits_value (acc : Z) (s : string) : Z :=
  match s with
  | EmptyString => acc
  | String c s' =>
      digits_value (10 * acc + Z.of_nat (nat_of_ascii c - 48)) s'
  end.

(** The number that the integer part [ip] and the [p] fraction digits [fp]
    of a printed decimal denote, in units of [10^-p]. *)
Definition units (p : nat) (ip fp : string) : Z :=
  (digits_value 0 ip * 10 ^ Z.of_nat p + digits_value 0 fp)%Z.

(** Reading the answer of [get_node_by_class] back: the lines after the
    header, each without its leading dash and space. *)
Definition drop_dash (line : string) : string :=
  match line with
  | String _ (String _ rest) => rest
  | _ => ""
  end.

Definition listed_nodes (text : string) : list string :=
  map drop_dash (tl (split_lines text)).

(** A session whose connection drops at the seventh remote call, the
    [SetAllSegmentsVisibility] of operation (d), after the session has
    carried that call out. *)
Definition dropping_world : World :=
  session (mk_scene sample_nodes (Some sample_layout))
          (repeat None 6 ++ [Some (reply_lost connection_lost)]).


(** * Properties *)

(** ** Sample runs *)

Example format_half : format_f 2 (S754_finite false 4503599627370496 (-53)) = "0.50".
Proof. reflexivity. Qed.

Example format_eighth : format_f 2 (S754_finite false 1 (-3)) = "0.12".
Proof. reflexivity. Qed.

Example format_three_eighths : format_f 2 (S754_finite false 3 (-3)) = "0.38".
Proof. reflexivity. Qed.

Example format_minus_small : format_f 2 (S754_finite true 1 (-10)) = "-0.00".
Proof. reflexivity. Qed.

Example format_elapsed : format_f 4 (S754_finite false 5 (-2)) = "1.2500".
Proof. reflexivity. Qed.

Example format_not_a_number : format_f 2 S754_nan = "nan".
Proof. reflexivity. Qed.

Example center_view_sample :
  fst (center_view sample_world) = Ok "Successfully centered all views" /\
  layout (w_scene (snd (center_view sample_world)))
  = Some (mk_layout true ["Red"; "Yellow"; "Green"] 1 ["Red"; "Yellow"; "Green"]) /\
  w_log (snd (center_view sample_world))
  = [mk_log INFO "center_view executed in 0.2500 seconds"].
Proof. repeat split. Qed.

Example center_view_headless :
  fst (center_view headless_world)
  = Ok "Error centering views: 'NoneType' object has no attribute 'threeDWidget'".
Proof. reflexivity. Qed.

Example center_view_connection_lost :
  fst (center_view (session (mk_scene sample_nodes (Some sample_layout))
                            [None; None; Some (request_lost connection_lost)]))
  = Ok "Error centering views: connection closed by peer".
Proof. reflexivity. Qed.

Example helper_type_error :
  fst (_get_segmentation_and_display_node "CT" sample_world)
  = Raise (mk_exn TypeError
             "Node 'CT' is not a segmentation node. Found: vtkMRMLScalarVolumeNode").
Proof. reflexivity. Qed.

Example set_segments_visibility_sample :
  fst (set_segments_visibility "Segmentation" ["spleen"; "kidney"] true sample_world)
  = Ok "Segments spleen, kidney in Segmentation are now visible" /\
  visibility_state 1
    (snd (set_segments_visibility "Segmentation" ["spleen"; "kidney"] true
                                  sample_world))
  = Some [("Segment_1", true); ("Segment_2", true); ("Segment_3", true)] /\
  map log_msg
    (w_log (snd (set_segments_visibility "Segmentation" ["spleen"; "kidney"]
                                         true sample_world)))
  = ["center_view executed in 0.2500 seconds";
     "set_segments_visibility executed in 0.7500 seconds"].
Proof. repeat split. Qed.

(** ** Running the monad *)

Lemma bind_ok {A B} (m : M A) (f : A -> M B) (w w' : World) (a : A) :
  m w = (Ok a, w') -> bind m f w = f a w'.
Proof. intros H. unfold bind. now rewrite H. Qed.

Lemma bind_raise {A B} (m : M A) (f : A -> M B) (w w' : World) (e : exn) :
  m w = (Raise e, w') -> bind m f w = (Raise e, w').
Proof. intros H. unfold bind. now rewrite H. Qed.

Lemma bind_assoc {A B C} (m : M A) (f : A -> M B) (g : B -> M C) (w : World) :
  bind (bind m f) g w = bind m (fun a => bind (f a) g) w.
Proof. unfold bind. now destruct (m w) as [[a|e] w']. Qed.

Lemma bind_time (B : Type) (f : float -> M B) (w : World) :
  bind time_time f w = f (w_clock w (w_ticks w)) (tick w).
Proof. reflexivity. Qed.

Lemma bind_log (B : Type) (msg : string) (f : unit -> M B) (w : World) :
  bind (logging_info msg) f w = f tt (logged msg w).
Proof. reflexivity. Qed.

Lemma bind_ret {A B} (a : A) (f : A -> M B) (w : World) :
  bind (ret a) f w = f a w.
Proof. reflexivity. Qed.

(** ** Strings and lines *)

Lemma append_assoc (a b c : string) : (a ++ b) ++ c = a ++ b ++ c.
Proof. induction a as [|x a IH]; simpl; [reflexivity|now rewrite IH]. Qed.

Lemma append_empty_r (a : string) : a ++ "" = a.
Proof. induction a as [|x a IH]; simpl; [reflexivity|now rewrite IH]. Qed.

Lemma join_cons (sep x y : string) (l : list string) :
  join sep (x :: y :: l) = x ++ sep ++ join sep (y :: l).
Proof. reflexivity. Qed.

Lemma has_newline_app (a b : string) :
  has_newline (a ++ b) = has_newline a || has_newline b.
Proof.
  induction a as [|c a IH]; simpl; [reflexivity|].
  now rewrite IH, orb_assoc.
Qed.

Lemma split_lines_single (a : string) :
  has_newline a = false -> split_lines a = [a].
Proof.
  induction a as [|c a IH]; simpl; intros H; [reflexivity|].
  apply orb_false_iff in H as [Hc Ha].
  now rewrite Hc, (IH Ha).
Qed.

Lemma split_lines_app (a rest : string) :
  has_newline a = false ->
  split_lines (a ++ LF ++ rest) = a :: split_lines rest.
Proof.
  induction a as [|c a IH]; simpl; intros H; [reflexivity|].
  apply orb_false_iff in H as [Hc Ha].
  rewrite Hc. unfold LF in IH. simpl in IH. now rewrite (IH Ha).
Qed.

(** Joining newline-free parts and splitting again gives the parts back. *)
Lemma split_lines_join (x : string) (l : list string) :
  Forall (fun s => has_newline s = false) (x :: l) ->
  split_lines (join LF (x :: l)) = x :: l.
Proof.
  revert x; induction l as [|y l IH]; intros x H.
  - apply split_lines_single. now inversion H.
  - rewrite join_cons. inversion H; subst.
    rewrite split_lines_app by assumption. f_equal. now apply IH.
Qed.

Lemma fold_left_append {A} (f : A -> string) (l : list A) (acc : list string) :
  fold_left (fun info x => append info (f x)) l acc = (acc ++ map f l)%list.
Proof.
  revert acc; induction l as [|x l IH]; intros acc; simpl.
  - now rewrite app_nil_r.
  - rewrite IH. unfold append. now rewrite <- app_assoc.
Qed.

(** ** Operation (a): [get_node_by_class] *)

(** C5. When the remote service answers the class query with an empty
    collection, [get_node_by_class] returns the single line
    "No <class_name> nodes found in scene", with no header before it. *)
Theorem get_node_by_class_none_found (class_name : string) (w w1 : World) :
  slicer_util_getNodesByClass class_name (tick w) = (Ok [], w1) ->
  fst (get_node_by_class class_name w)
  = Ok ("No " ++ class_name ++ " nodes found in scene").
Proof.
  intros H. unfold get_node_by_class.
  rewrite bind_time, (bind_ok _ _ _ _ _ H), bind_time, bind_log.
  reflexivity.
Qed.

Lemma get_node_by_class_none_found_witness :
  fst (get_node_by_class "vtkMRMLTableNode" sample_world)
  = Ok "No vtkMRMLTableNode nodes found in scene".
Proof.
  apply (get_node_by_class_none_found "vtkMRMLTableNode" sample_world
           (snd (slicer_util_getNodesByClass "vtkMRMLTableNode"
                   (tick sample_world)))).
  reflexivity.
Defined.

(** C6. When the remote service answers the class query with N >= 1 nodes,
    [get_node_by_class] returns the header line "<class_name> nodes:"
    followed by one line "- <node>" per node, in the order of the answer;
    when neither the class name nor a node name holds a newline these are
    exactly N + 1 lines. *)
Theorem get_node_by_class_lists_nodes
        (class_name : string) (found : list string) (w w1 : World) :
  slicer_util_getNodesByClass class_name (tick w) = (Ok found, w1) ->
  found <> [] ->
  exists text,
    fst (get_node_by_class class_name w) = Ok text /\
    text = join LF ((class_name ++ " nodes:")
                      :: map (fun node => "- " ++ node) found) /\
    (Forall (fun s => has_newline s = false) (class_name :: found) ->
     split_lines text
     = (class_name ++ " nodes:") :: map (fun node => "- " ++ node) found /\
     length (split_lines text) = S (length found)).
Proof.
  intros H Hne.
  exists (join LF ((class_name ++ " nodes:")
                     :: map (fun node => "- " ++ node) found)).
  split; [|split].
  - unfold get_node_by_class.
    rewrite bind_time, (bind_ok _ _ _ _ _ H), bind_time, bind_log.
    destruct found as [|n0 found]; [contradiction|].
    rewrite fold_left_append. reflexivity.
  - reflexivity.
  - intros Hnl.
    assert (Hparts : Forall (fun s => has_newline s = false)
              ((class_name ++ " nodes:")
                 :: map (fun node => "- " ++ node) found)).
    { inversion Hnl as [|? ? Hc Hf]; subst. constructor.
      - rewrite has_newline_app, Hc. reflexivity.
      - apply Forall_map. eapply Forall_impl; [|exact Hf].
        intros a Ha. rewrite has_newline_app, Ha. reflexivity. }
    rewrite (split_lines_join _ _ Hparts). split; [reflexivity|].
    simpl. now rewrite length_map.
Qed.

Lemma get_node_by_class_lists_nodes_witness :
  exists text,
    fst (get_node_by_class "vtkMRMLSegmentationNode" sample_world) = Ok text /\
    text = join LF ["vtkMRMLSegmentationNode nodes:";
                    "- Segmentation"; "- Twin"; "- Twin"] /\
    (Forall (fun s => has_newline s = false)
            ["vtkMRMLSegmentationNode"; "Segmentation"; "Twin"; "Twin"] ->
     split_lines text
     = ["vtkMRMLSegmentationNode nodes:"; "- Segmentation"; "- Twin"; "- Twin"]
     /\ length (split_lines text) = 4).
Proof.
  apply (get_node_by_class_lists_nodes "vtkMRMLSegmentationNode"
           ["Segmentation"; "Twin"; "Twin"] sample_world
           (snd (slicer_util_getNodesByClass "vtkMRMLSegmentationNode"
                   (tick sample_world)))).
  - reflexivity.
  - discriminate.
Defined.

(** ** Remote calls in a quiet stretch of the fault schedule *)

Lemma quiet_S (k : nat) (fs : list (option Fault)) :
  quiet (S k) fs = true -> hd None fs = None /\ quiet k (tl fs) = true.
Proof.
  destruct fs as [|[e|] fs]; simpl; intros H.
  - split; [reflexivity|]. now destruct k.
  - discriminate.
  - now split.
Qed.

Lemma quiet_le (j k : nat) (fs : list (option Fault)) :
  j <= k -> quiet k fs = true -> quiet j fs = true.
Proof.
  revert k fs; induction j as [|j IH]; intros k fs Hle H; [reflexivity|].
  destruct k as [|k]; [lia|].
  destruct fs as [|[e|] fs]; simpl in *; try easy.
  apply (IH k); [lia|assumption].
Qed.

Lemma bind_remote {A B} (c : Call) (sem : Scene -> result A * Scene)
      (f : A -> M B) (w : World) :
  hd None (w_faults w) = None ->
  bind (remote c sem) f w
  = match sem (w_scene w) with
    | (Ok a, sc) => f a (after_call c None sc w)
    | (Raise e, sc) => (Raise e, after_call c (Some e) sc w)
    end.
Proof.
  intros H. unfold bind, remote.
  destruct (w_faults w) as [|[e|] fs]; simpl in H; try discriminate;
    destruct (sem (w_scene w)) as [[a|e] sc]; reflexivity.
Qed.

Lemma bind_remote_fault {A B} (c : Call) (sem : Scene -> result A * Scene)
      (f : A -> M B) (w : World) (ft : Fault) :
  hd None (w_faults w) = Some ft ->
  bind (remote c sem) f w
  = (Raise (fault_exn ft),
     after_call c (Some (fault_exn ft))
                (if fault_applied ft then snd (sem (w_scene w)) else w_scene w)
                w).
Proof.
  intros H. unfold bind, remote.
  destruct (w_faults w) as [|[ft'|] fs]; simpl in H; try discriminate.
  now injection H as ->.
Qed.

Ltac methods :=
  unfold slicer_util_getNodesByClass, slicer_util_getNode,
    slicer_mrmlScene_GetNodesByName, GetNumberOfItems, GetItemAsObject, IsA,
    GetClassName, GetDisplayNode, GetVisibleSegmentIDs, GetSegmentation,
    GetSegment, GetName, GetSegmentColor, StartModify, EndModify,
    SetAllSegmentsVisibility, GetSegmentIdBySegmentName, SetSegmentVisibility,
    slicer_app_layoutManager, threeDWidget, threeDView, resetFocalPoint,
    sliceWidget, sliceController, fitSliceToBackground.

(** One step of a run: the next remote call is not hit by a fault. *)
Ltac call Hq :=
  let Hh := fresh "Hh" in
  let Hq' := fresh "Hq" in
  destruct (quiet_S _ _ Hq) as [Hh Hq']; clear Hq;
  methods; rewrite ?bind_assoc; rewrite bind_remote by exact Hh; clear Hh;
  cbn [w_scene w_faults after_call tick]; rename Hq' into Hq.

(** ** Helper (c): [_get_segmentation_and_display_node] *)

Lemma helper_resolves (name : string) (h : NodeRef) (n : Node) (dn : DisplayNode)
      (w : World) :
  refs_where (named name) (w_scene w) = [h] ->
  nth_error (nodes (w_scene w)) h = Some n ->
  is_a "vtkMRMLSegmentationNode" n = true ->
  node_display n = Some dn ->
  quiet 5 (w_faults w) = true ->
  _get_segmentation_and_display_node name w = (Ok (h, h), resolved name h w).
Proof.
  intros Hrefs Hn Hisa Hdn Hq.
  unfold _get_segmentation_and_display_node.
  call Hq. rewrite Hrefs.
  call Hq. cbn [length Nat.eqb negb].
  call Hq. cbn [nth_error attr]. rewrite bind_ret.
  call Hq. unfold on_node. rewrite Hn, Hisa. cbn [negb].
  call Hq. unfold on_node. rewrite Hn, Hdn. reflexivity.
Qed.

(** C4. When the name lookup matches zero nodes or at least two, helper (c)
    raises a [ValueError] whose message holds the attempted name and the
    number of matches; the only remote calls it has made are the lookup and
    the two counts, so neither the type check nor the display-node check is
    reached. *)
Theorem helper_cardinality_error (name : string) (w : World) :
  quiet 3 (w_faults w) = true ->
  length (refs_where (named name) (w_scene w)) <> 1 ->
  exists (msg : string) (w' : World),
    _get_segmentation_and_display_node name w
    = (Raise (mk_exn ValueError msg), w') /\
    msg = "Expected exactly one node named '" ++ name ++ "', found "
            ++ str_nat (length (refs_where (named name) (w_scene w))) /\
    contains name msg /\
    contains (str_nat (length (refs_where (named name) (w_scene w)))) msg /\
    map ev_call (skipn (length (w_trace w)) (w_trace w'))
    = [ call_slicer_mrmlScene_GetNodesByName name;
        call_GetNumberOfItems (refs_where (named name) (w_scene w));
        call_GetNumberOfItems (refs_where (named name) (w_scene w)) ] /\
    w_scene w' = w_scene w.
Proof.
  intros Hq Hlen.
  set (found := refs_where (named name) (w_scene w)) in *.
  eexists. eexists. split; [|split; [reflexivity|split; [|split; [|split]]]].
  - unfold _get_segmentation_and_display_node.
    call Hq. fold found.
    call Hq.
    destruct (Nat.eqb_spec (length found) 1) as [E|_]; [contradiction|].
    cbn [negb].
    call Hq. reflexivity.
  - exists "Expected exactly one node named '".
    exists ("', found " ++ str_nat (length found)). reflexivity.
  - exists ("Expected exactly one node named '" ++ name ++ "', found ").
    exists "". now rewrite append_empty_r, !append_assoc.
  - cbn [w_trace after_call]. rewrite <- !app_assoc.
    rewrite skipn_app, skipn_all, Nat.sub_diag. reflexivity.
  - reflexivity.
Qed.

Lemma helper_cardinality_error_witness :
  exists (msg : string) (w' : World),
    _get_segmentation_and_display_node "Twin" sample_world
    = (Raise (mk_exn ValueError msg), w') /\
    msg = "Expected exactly one node named 'Twin', found 2" /\
    contains "Twin" msg /\
    contains "2" msg /\
    map ev_call (skipn 0 (w_trace w'))
    = [ call_slicer_mrmlScene_GetNodesByName "Twin";
        call_GetNumberOfItems [2; 3];
        call_GetNumberOfItems [2; 3] ] /\
    w_scene w' = w_scene sample_world.
Proof.
  apply (helper_cardinality_error "Twin" sample_world).
  - reflexivity.
  - vm_compute. discriminate.
Defined.

(** ** Writing to a segmentation node and its display node *)

Lemma nth_error_replace_nth {A} (l : list A) (i : nat) (x y : A) :
  nth_error l i = Some x -> nth_error (replace_nth i y l) i = Some y.
Proof.
  revert i; induction l as [|z l IH]; intros [|i] H; simpl in *;
    try discriminate; [reflexivity|now apply IH].
Qed.

Lemma replace_nth_twice {A} (l : list A) (i : nat) (x y : A) :
  replace_nth i y (replace_nth i x l) = replace_nth i y l.
Proof.
  revert i; induction l as [|z l IH]; intros [|i]; simpl;
    try reflexivity. now rewrite IH.
Qed.

Lemma replace_nth_same {A} (l : list A) (i : nat) (x : A) :
  nth_error l i = Some x -> replace_nth i x l = l.
Proof.
  revert i; induction l as [|z l IH]; intros [|i] H; simpl in *;
    try discriminate; try reflexivity.
  - now injection H as ->.
  - now rewrite IH.
Qed.

Lemma put_same (h : NodeRef) (segs : list Segment) (dn : DisplayNode)
      (n : Node) (sc : Scene) :
  nth_error (nodes sc) h = Some n ->
  node_segments n = Some segs ->
  node_display n = Some dn ->
  put h segs dn n sc = sc.
Proof.
  intros Hn Hs Hd. unfold put, set_node, set_display, set_segments.
  destruct n as [i nm cl sg dp]; simpl in *; subst.
  rewrite (replace_nth_same _ _ _ Hn). now destruct sc.
Qed.

Lemma put_node (h : NodeRef) (segs : list Segment) (dn : DisplayNode)
      (n : Node) (sc : Scene) :
  nth_error (nodes sc) h = Some n ->
  nth_error (nodes (put h segs dn n sc)) h
  = Some (set_display dn (set_segments segs n)).
Proof. intros Hn. unfold put, set_node. simpl. eapply nth_error_replace_nth, Hn. Qed.

Lemma put_put (h : NodeRef) (segs segs' : list Segment) (dn dn' : DisplayNode)
      (n : Node) (sc : Scene) :
  set_node h (set_display dn' (set_segments segs' (set_display dn (set_segments segs n))))
           (put h segs dn n sc)
  = put h segs' dn' n sc.
Proof.
  unfold put, set_node, set_display, set_segments. simpl.
  now rewrite replace_nth_twice.
Qed.

(** A display-node method on the scene [put h segs dn n sc]. *)
Lemma on_display_put {A} (attr_name : string) (h : NodeRef)
      (f : list Segment -> DisplayNode -> A * list Segment * DisplayNode)
      (segs : list Segment) (dn : DisplayNode) (n : Node) (sc : Scene) :
  nth_error (nodes sc) h = Some n ->
  on_display attr_name h f (put h segs dn n sc)
  = (Ok (fst (fst (f segs dn))),
     put h (snd (fst (f segs dn))) (snd (f segs dn)) n sc).
Proof.
  intros Hn. unfold on_display. rewrite (put_node _ _ _ _ _ Hn).
  cbn [node_display node_segments set_display set_segments].
  destruct (f segs dn) as [[a segs'] dn']. cbn [fst snd].
  now rewrite put_put.
Qed.

Lemma on_node_put {A} (h : NodeRef) (f : Node -> result A)
      (segs : list Segment) (dn : DisplayNode) (n : Node) (sc : Scene) :
  nth_error (nodes sc) h = Some n ->
  on_node h f (put h segs dn n sc)
  = (f (set_display dn (set_segments segs n)), put h segs dn n sc).
Proof. intros Hn. unfold on_node. now rewrite (put_node _ _ _ _ _ Hn). Qed.

(** Node names, identifiers and classes are not touched by [put]. *)
Lemma refs_from_replace (p : Node -> bool) (l : list Node) (base h : nat)
      (n n' : Node) :
  nth_error l h = Some n -> p n' = p n ->
  refs_from base p (replace_nth h n' l) = refs_from base p l.
Proof.
  revert base h; induction l as [|x l IH]; intros base [|h] Hn Hp; simpl in *;
    try discriminate.
  - injection Hn as ->. now rewrite Hp.
  - now rewrite (IH _ _ Hn Hp).
Qed.

Lemma refs_where_put (name : string) (h : NodeRef) (segs : list Segment)
      (dn : DisplayNode) (n : Node) (sc : Scene) :
  nth_error (nodes sc) h = Some n ->
  refs_where (named name) (put h segs dn n sc) = refs_where (named name) sc.
Proof.
  intros Hn. unfold refs_where, put, set_node. simpl.
  now apply refs_from_replace with (n := n).
Qed.

Lemma on_display_run {A} (attr_name : string) (h : NodeRef)
      (f : list Segment -> DisplayNode -> A * list Segment * DisplayNode)
      (segs : list Segment) (dn : DisplayNode) (n : Node) (sc : Scene) :
  nth_error (nodes sc) h = Some n ->
  node_segments n = Some segs ->
  node_display n = Some dn ->
  on_display attr_name h f sc
  = (Ok (fst (fst (f segs dn))),
     put h (snd (fst (f segs dn))) (snd (f segs dn)) n sc).
Proof.
  intros Hn Hs Hd.
  rewrite <- (put_same h segs dn n sc Hn Hs Hd) at 1.
  now apply on_display_put.
Qed.

(** ** Operation (d): [set_all_segments_visibility] *)

Lemma set_all_segments_visibility_run (name : string) (visible : bool)
      (h : NodeRef) (n : Node) (segs : list Segment) (dn : DisplayNode)
      (w : World) :
  refs_where (named name) (w_scene w) = [h] ->
  nth_error (nodes (w_scene w)) h = Some n ->
  is_a "vtkMRMLSegmentationNode" n = true ->
  node_segments n = Some segs ->
  node_display n = Some dn ->
  quiet 8 (w_faults w) = true ->
  set_all_segments_visibility name visible w
  = (Ok ("All segments in " ++ name ++ " are now " ++ visible_or_hidden visible),
     after_set_all name h visible segs dn n w).
Proof.
  intros Hrefs Hn Hisa Hs Hd Hq.
  unfold set_all_segments_visibility. rewrite bind_time.
  rewrite (bind_ok _ _ _ _ _
             (helper_resolves name h n dn (tick w) Hrefs Hn Hisa Hd
                (quiet_le 5 8 _ ltac:(lia) Hq))).
  do 5 (apply quiet_S in Hq; destruct Hq as [_ Hq]).
  unfold resolved.
  call Hq. rewrite (on_display_run _ _ _ segs dn n _ Hn Hs Hd). cbn [fst snd].
  call Hq. rewrite (on_display_put _ _ _ _ _ _ _ Hn). cbn [fst snd].
  call Hq. rewrite (on_display_put _ _ _ _ _ _ _ Hn). cbn [fst snd].
  rewrite bind_time, bind_log. reflexivity.
Qed.

Lemma quiet_tl (k : nat) (fs : list (option Fault)) :
  quiet (S k) fs = true -> quiet k (tl fs) = true.
Proof. intros H. now apply quiet_S in H. Qed.

Lemma visibility_set_all (v : bool) (segs : list Segment) :
  map (fun s => (seg_id s, seg_visible s)) (set_all_visibility v segs)
  = map (fun s => (seg_id s, v)) segs.
Proof. unfold set_all_visibility. rewrite map_map. reflexivity. Qed.

Lemma set_all_visibility_twice (u v : bool) (segs : list Segment) :
  set_all_visibility v (set_all_visibility u segs) = set_all_visibility v segs.
Proof. unfold set_all_visibility. rewrite map_map. reflexivity. Qed.

Lemma segments_after_set_all (name : string) (h : NodeRef) (visible : bool)
      (segs : list Segment) (dn : DisplayNode) (n : Node) (w : World) :
  nth_error (nodes (w_scene w)) h = Some n ->
  segments_of h (after_set_all name h visible segs dn n w)
  = Some (set_all_visibility visible segs).
Proof.
  intros Hn. unfold segments_of, after_set_all.
  cbn [w_scene logged tick after_call]. now rewrite (put_node _ _ _ _ _ Hn).
Qed.

(** C9. On a node that helper (c) resolves, hiding all segments and then
    showing all segments returns normally both times and leaves every
    segment visible, whatever the visibility of the segments was before; a
    single "show all" from the all-visible baseline leaves the same
    visibility state, and the second call answers
    "All segments in <name> are now visible". *)
Theorem hide_all_then_show_all
        (name : string) (h : NodeRef) (n : Node) (segs : list Segment)
        (dn : DisplayNode) (w : World) :
  refs_where (named name) (w_scene w) = [h] ->
  nth_error (nodes (w_scene w)) h = Some n ->
  is_a "vtkMRMLSegmentationNode" n = true ->
  node_segments n = Some segs ->
  node_display n = Some dn ->
  quiet 16 (w_faults w) = true ->
  exists (s1 : string) (w1 : World) (w2 : World) (wb : World),
    set_all_segments_visibility name false w = (Ok s1, w1) /\
    set_all_segments_visibility name true w1
    = (Ok ("All segments in " ++ name ++ " are now visible"), w2) /\
    visibility_state h w2 = Some (map (fun s => (seg_id s, true)) segs) /\
    set_all_segments_visibility name true (all_visible_baseline h w)
    = (Ok ("All segments in " ++ name ++ " are now visible"), wb) /\
    visibility_state h wb = visibility_state h w2 /\
    segments_of h wb = segments_of h w2.
Proof.
  intros Hrefs Hn Hisa Hs Hd Hq.
  pose proof (set_all_segments_visibility_run name false h n segs dn w
                Hrefs Hn Hisa Hs Hd (quiet_le 8 16 _ ltac:(lia) Hq)) as R1.
  set (w1 := after_set_all name h false segs dn n w) in *.
  set (segs1 := set_all_visibility false segs).
  set (dn1 := display_after_all false segs dn).
  set (n1 := set_display dn1 (set_segments segs1 n)).
  assert (Hsc1 : w_scene w1 = put h segs1 dn1 n (w_scene w)) by reflexivity.
  assert (Hn1 : nth_error (nodes (w_scene w1)) h = Some n1).
  { rewrite Hsc1. now apply put_node. }
  assert (Hrefs1 : refs_where (named name) (w_scene w1) = [h]).
  { rewrite Hsc1, refs_where_put; assumption. }
  assert (Hq1 : quiet 8 (w_faults w1) = true).
  { unfold w1, after_set_all, resolved.
    cbn [w_faults logged tick after_call]. do 8 apply quiet_tl. exact Hq. }
  pose proof (set_all_segments_visibility_run name true h n1 segs1 dn1 w1
                Hrefs1 Hn1 Hisa eq_refl eq_refl Hq1) as R2.
  set (w2 := after_set_all name h true segs1 dn1 n1 w1) in *.
  (* the baseline *)
  set (segsb := set_all_visibility true segs).
  set (nb := set_segments segsb n).
  assert (Hb : all_visible_baseline h w
               = mk_world (set_node h nb (w_scene w)) (w_faults w) (w_trace w)
                          (w_clock w) (w_ticks w) (w_log w)).
  { unfold all_visible_baseline. now rewrite Hn, Hs. }
  assert (Hnb : nth_error (nodes (w_scene (all_visible_baseline h w))) h
                = Some nb).
  { rewrite Hb. cbn. eapply nth_error_replace_nth, Hn. }
  assert (Hrefsb : refs_where (named name) (w_scene (all_visible_baseline h w))
                   = [h]).
  { rewrite Hb. cbn [w_scene]. unfold refs_where, set_node. cbn [nodes].
    rewrite (refs_from_replace (named name) _ _ _ n nb Hn eq_refl).
    exact Hrefs. }
  assert (Hqb : quiet 8 (w_faults (all_visible_baseline h w)) = true).
  { rewrite Hb. cbn. exact (quiet_le 8 16 _ ltac:(lia) Hq). }
  pose proof (set_all_segments_visibility_run name true h nb segsb dn
                (all_visible_baseline h w) Hrefsb Hnb Hisa eq_refl Hd Hqb) as Rb.
  set (wb := after_set_all name h true segsb dn nb (all_visible_baseline h w)) in *.
  assert (S2 : segments_of h w2 = Some (set_all_visibility true segs)).
  { unfold w2. rewrite (segments_after_set_all _ _ _ _ _ _ _ Hn1).
    unfold segs1. now rewrite set_all_visibility_twice. }
  assert (Sb : segments_of h wb = Some (set_all_visibility true segs)).
  { unfold wb. rewrite (segments_after_set_all _ _ _ _ _ _ _ Hnb).
    unfold segsb. now rewrite set_all_visibility_twice. }
  exists ("All segments in " ++ name ++ " are now hidden"), w1, w2, wb.
  repeat split.
  - exact R1.
  - exact R2.
  - unfold visibility_state. rewrite S2. cbn. now rewrite visibility_set_all.
  - exact Rb.
  - unfold visibility_state. now rewrite S2, Sb.
  - now rewrite S2, Sb.
Qed.

Lemma hide_all_then_show_all_witness :
  exists (s1 : string) (w1 : World) (w2 : World) (wb : World),
    set_all_segments_visibility "Segmentation" false sample_world = (Ok s1, w1) /\
    set_all_segments_visibility "Segmentation" true w1
    = (Ok "All segments in Segmentation are now visible", w2) /\
    visibility_state 1 w2
    = Some [("Segment_1", true); ("Segment_2", true); ("Segment_3", true)] /\
    set_all_segments_visibility "Segmentation" true
                                (all_visible_baseline 1 sample_world)
    = (Ok "All segments in Segmentation are now visible", wb) /\
    visibility_state 1 wb = visibility_state 1 w2 /\
    segments_of 1 wb = segments_of 1 w2.
Proof.
  apply (hide_all_then_show_all "Segmentation" 1
           (mk_node "vtkMRMLSegmentationNode1" "Segmentation"
                    segmentation_classes (Some sample_segments)
                    (Some (mk_display false 0 0)))
           sample_segments (mk_display false 0 0) sample_world);
    reflexivity.
Defined.

(** ** What a computation adds to the trace *)

Lemma emits_ret {A} (P : Call -> Prop) (a : A) : emits P (ret a).
Proof.
  intros w r w' H. injection H as <- <-. exists [].
  rewrite app_nil_r. repeat split; [constructor|intros e []].
Qed.

Lemma emits_raise {A} (P : Call -> Prop) (e : exn) : emits P (@raise A e).
Proof.
  intros w r w' H. injection H as <- <-. exists [].
  rewrite app_nil_r. repeat split; [constructor|intros e' []].
Qed.

Lemma emits_time (P : Call -> Prop) : emits P time_time.
Proof.
  intros w r w' H. injection H as <- <-. exists [].
  cbn. rewrite app_nil_r. repeat split; [constructor|intros e' []].
Qed.

Lemma emits_log (P : Call -> Prop) (msg : string) : emits P (logging_info msg).
Proof.
  intros w r w' H. injection H as <- <-. exists [].
  cbn. rewrite app_nil_r. repeat split; [constructor|intros e' []].
Qed.

Lemma emits_attr {A} (P : Call -> Prop) (name : string) (o : option A) :
  emits P (attr name o).
Proof. destruct o; [apply emits_ret|apply emits_raise]. Qed.

Lemma emits_remote {A} (P : Call -> Prop) (c : Call)
      (sem : Scene -> result A * Scene) :
  P c -> emits P (remote c sem).
Proof.
  intros Hc w r w' H. unfold remote in H.
  destruct (w_faults w) as [|[e|] fs];
    [destruct (sem (w_scene w)) as [r0 sc] | |
     destruct (sem (w_scene w)) as [r0 sc]];
    injection H as <- <-; cbn [w_trace after_call];
    eexists; (split; [reflexivity|]); (split; [now repeat constructor|]);
    intros e' [He|[]]; cbn in He; try destruct r0; cbn in He;
    now inversion He.
Qed.

Lemma emits_bind {A B} (P : Call -> Prop) (m : M A) (f : A -> M B) :
  emits P m -> (forall a, emits P (f a)) -> emits P (bind m f).
Proof.
  intros Hm Hf w r w' H. unfold bind in H.
  destruct (m w) as [[a|e] w1] eqn:E.
  - destruct (Hm _ _ _ E) as (evs1 & T1 & F1 & R1).
    destruct (Hf a _ _ _ H) as (evs2 & T2 & F2 & R2).
    exists (evs1 ++ evs2)%list. rewrite T2, T1, app_assoc.
    split; [reflexivity|]. split; [now apply Forall_app|].
    intros e He. rewrite map_app in He. apply in_app_or in He as [He|He].
    + now specialize (R1 e He).
    + now apply R2.
  - injection H as <- <-.
    destruct (Hm _ _ _ E) as (evs1 & T1 & F1 & R1).
    exists evs1. split; [assumption|]. split; [assumption|].
    intros e0 He. specialize (R1 e0 He). now injection R1 as ->.
Qed.

Lemma emits_for_each {A B} (P : Call -> Prop) (xs : list A) (acc : B)
      (body : B -> A -> M B) :
  (forall b a, emits P (body b a)) -> emits P (for_each xs acc body).
Proof.
  intros Hb. revert acc. induction xs as [|x xs IH]; intros acc; simpl.
  - apply emits_ret.
  - apply emits_bind; [apply Hb|intros b; apply IH].
Qed.

(** Decompose a computation into its calls. *)
Ltac emits_tac :=
  repeat first
    [ apply emits_ret | apply emits_raise | apply emits_time | apply emits_log
    | apply emits_attr
    | apply emits_remote
    | apply emits_bind
    | apply emits_for_each
    | progress intros
    | match goal with
      | |- emits _ (match ?x with _ => _ end) => destruct x
      | |- emits _ (if ?x then _ else _) => destruct x
      | |- emits _ (let '(_, _) := ?x in _) => destruct x
      end ].

Lemma remote_one_event {A} (c : Call) (sem : Scene -> result A * Scene)
      (w w' : World) (r : result A) :
  remote c sem w = (r, w') ->
  exists o, w_trace w' = (w_trace w ++ [mk_event c o])%list.
Proof.
  unfold remote. intros H.
  destruct (w_faults w) as [|[e|] fs];
    [destruct (sem (w_scene w)) as [r0 sc] | |
     destruct (sem (w_scene w)) as [r0 sc]];
    injection H as <- <-; eexists; reflexivity.
Qed.

(** ** Operation (f): [center_view] *)

Lemma on_layout_run {A} (f : LayoutManager -> A * LayoutManager)
      (lm : LayoutManager) (sc : Scene) :
  layout sc = Some lm ->
  on_layout f sc = (Ok (fst (f lm)), set_layout (snd (f lm)) sc).
Proof. intros H. unfold on_layout. rewrite H. now destruct (f lm). Qed.

Ltac projections :=
  cbn [w_scene w_faults w_trace w_clock w_ticks w_log after_call tick logged
       layout nodes set_layout].


Lemma reset_step (lm : LayoutManager) (k : nat) (w : World) :
  layout (w_scene w) = Some lm ->
  quiet (3 + k) (w_faults w) = true ->
  exists w',
    layout_step (reset_view lm) k w w' /\
    forall (B : Type) (rest : unit -> M B),
      (threeDWidget <- threeDWidget 0 ;;
       bind match threeDWidget with
            | Some _ => threeDView ;;; resetFocalPoint
            | None => ret tt
            end rest) w = rest tt w'.
Proof.
  intros Hl Hq. unfold reset_view.
  destruct (has_threeDWidget lm) eqn:E3.
  - eexists. split; cycle 1.
    + intros B rest.
      call Hq. rewrite (on_layout_run _ lm _ Hl). cbn [fst snd].
      rewrite E3. cbn [andb Nat.eqb]. rewrite bind_assoc.
      call Hq. rewrite on_layout_run with (lm := lm) by reflexivity.
      cbn [fst snd].
      call Hq. rewrite on_layout_run with (lm := lm) by reflexivity.
      cbn [fst snd]. reflexivity.
    + do 3 apply quiet_tl in Hq.
      repeat split; projections; try rewrite E3; try assumption; reflexivity.
  - eexists. split; cycle 1.
    + intros B rest.
      call Hq. rewrite (on_layout_run _ lm _ Hl). cbn [fst snd].
      rewrite E3. cbn [andb]. rewrite bind_ret. reflexivity.
    + apply quiet_tl in Hq.
      repeat split; projections; try assumption; try reflexivity.
      now apply (quiet_le k (2 + k)); [lia|].
Qed.

Lemma fit_step (name : string) (lm : LayoutManager) (k : nat) (w : World) :
  layout (w_scene w) = Some lm ->
  quiet (3 + k) (w_faults w) = true ->
  exists w',
    layout_step (fit_slice name lm) k w w' /\
    forall (B : Type) (rest : unit -> M B),
      (sliceWidget <- sliceWidget name ;;
       bind match sliceWidget with
            | Some s => c <- sliceController s ;; fitSliceToBackground c
            | None => ret tt
            end rest) w = rest tt w'.
Proof.
  intros Hl Hq. unfold fit_slice.
  destruct (existsb (String.eqb name) (slice_widgets lm)) eqn:E.
  - eexists. split; cycle 1.
    + intros B rest.
      call Hq. rewrite (on_layout_run _ lm _ Hl). cbn [fst snd].
      rewrite E. rewrite bind_assoc.
      call Hq. rewrite on_layout_run with (lm := lm) by reflexivity.
      cbn [fst snd].
      call Hq. rewrite on_layout_run with (lm := lm) by reflexivity.
      cbn [fst snd]. reflexivity.
    + do 3 apply quiet_tl in Hq.
      repeat split; projections; try assumption; reflexivity.
  - eexists. split; cycle 1.
    + intros B rest.
      call Hq. rewrite (on_layout_run _ lm _ Hl). cbn [fst snd].
      rewrite E. rewrite bind_ret. reflexivity.
    + apply quiet_tl in Hq.
      repeat split; projections; try assumption; try reflexivity.
      now apply (quiet_le k (2 + k)); [lia|].
Qed.

Lemma center_view_succeeds (lm : LayoutManager) (w : World) :
  layout (w_scene w) = Some lm ->
  quiet 13 (w_faults w) = true ->
  exists w',
    center_view w = (Ok success, w') /\
    layout (w_scene w') = Some (centered lm) /\
    nodes (w_scene w') = nodes (w_scene w) /\
    w_ticks w' = S (S (w_ticks w)) /\
    w_log w'
    = (w_log w ++
       [mk_log INFO (executed_in "center_view" (w_clock w (w_ticks w))
                                 (w_clock w (S (w_ticks w))))])%list.
Proof.
  intros Hl Hq. unfold center_view. rewrite bind_time.
  unfold try_except, center_view_try.
  apply quiet_S in Hq as [Hh Hq].
  unfold slicer_app_layoutManager. rewrite bind_remote by exact Hh.
  projections. rewrite Hl. cbn [attr for_each]. rewrite bind_ret, ?bind_assoc.
  match goal with
  | |- context [bind (threeDWidget 0) _ ?w1] =>
      destruct (reset_step lm 9 w1 Hl Hq)
        as (w2 & (L2 & N2 & Q2 & C2 & T2 & G2) & K2)
  end.
  rewrite K2, ?bind_assoc.
  destruct (fit_step "Red" _ 6 w2 L2 Q2)
    as (w3 & (L3 & N3 & Q3 & C3 & T3 & G3) & K3).
  rewrite K3, ?bind_assoc.
  destruct (fit_step "Yellow" _ 3 w3 L3 Q3)
    as (w4 & (L4 & N4 & Q4 & C4 & T4 & G4) & K4).
  rewrite K4, ?bind_assoc.
  destruct (fit_step "Green" _ 0 w4 L4 Q4)
    as (w5 & (L5 & N5 & Q5 & C5 & T5 & G5) & K5).
  rewrite K5.
  rewrite bind_ret, bind_time, bind_log.
  eexists. split; [reflexivity|].
  projections. rewrite C5, C4, C3, C2, T5, T4, T3, T2, G5, G4, G3, G2.
  rewrite N5, N4, N3, N2. projections.
  repeat split; try reflexivity. exact L5.
Qed.

Lemma yields_ret {A} (Q : A -> Prop) (a : A) : Q a -> yields Q (ret a).
Proof. intros H w a' w' E. now injection E as <- _. Qed.

Lemma yields_bind {A B} (Q : B -> Prop) (m : M A) (f : A -> M B) :
  (forall a, yields Q (f a)) -> yields Q (bind m f).
Proof.
  intros Hf w b w' E. unfold bind in E.
  destruct (m w) as [[a|e] w1]; [eapply Hf, E|discriminate].
Qed.

Lemma center_view_try_yields (tic : float) :
  yields (fun s => s = success) (center_view_try tic).
Proof.
  unfold center_view_try.
  repeat (apply yields_bind; intros). now apply yields_ret.
Qed.

Lemma center_view_try_emits (tic : float) :
  emits (fun _ => True) (center_view_try tic).
Proof. unfold center_view_try. methods. emits_tac; exact I. Qed.

(** C1, as the code has it.  [center_view] never raises an exception that
    is an [Exception].  It returns "Successfully centered all views" when
    its [try] block runs to the end, which it does when the layout manager
    exists and no remote call fails; when a step of the block raises an
    [Exception], it returns "Error centering views: " followed by the text
    of that exception, as it does for a missing layout manager.  An
    exception that is no [Exception] ([KeyboardInterrupt], [SystemExit],
    [GeneratorExit]) and that a step raises is not caught: it propagates to
    the caller. *)
Theorem center_view_catches_every_Exception (w : World) :
  exists (r : result string) (w' : World) (evs : list Event),
    center_view w = (r, w') /\
    w_trace w' = (w_trace w ++ evs)%list /\
    match center_view_try (w_clock w (w_ticks w)) (tick w) with
    | (Ok _, _) => r = Ok success
    | (Raise e, _) =>
        r = if is_Exception e
            then Ok ("Error centering views: " ++ str_exn e)
            else Raise e
    end /\
    (forall e, r = Raise e -> is_Exception e = false) /\
    (forall e, In (Some e) (map ev_raised evs) ->
               r = if is_Exception e
                   then Ok ("Error centering views: " ++ str_exn e)
                   else Raise e) /\
    (layout (w_scene w) <> None -> quiet 13 (w_faults w) = true ->
     r = Ok success) /\
    (layout (w_scene w) = None -> quiet 1 (w_faults w) = true ->
     r = Ok "Error centering views: 'NoneType' object has no attribute 'threeDWidget'").
Proof.
  destruct (center_view_try (w_clock w (w_ticks w)) (tick w))
    as [r0 w1] eqn:E.
  destruct (center_view_try_emits _ _ _ _ E) as (evs & T & _ & R).
  assert (Hrun : center_view w
                 = (match r0 with
                    | Ok s => Ok s
                    | Raise e =>
                        if is_Exception e
                        then Ok ("Error centering views: " ++ str_exn e)
                        else Raise e
                    end, w1)).
  { unfold center_view. rewrite bind_time. unfold try_except.
    rewrite E. destruct r0 as [s|e]; [reflexivity|].
    now destruct (is_Exception e). }
  eexists. exists w1, evs. split; [exact Hrun|].
  split; [exact T|]. split; [|split; [|split; [|split]]].
  - destruct r0 as [s|e]; [|reflexivity].
    now rewrite (center_view_try_yields _ _ _ _ E).
  - intros e He. destruct r0 as [s|e0]; [discriminate|].
    destruct (is_Exception e0) eqn:X; [discriminate|].
    now injection He as <-.
  - intros e He. specialize (R e He). now subst r0.
  - intros Hl Hq. destruct (layout (w_scene w)) as [lm|] eqn:L; [|easy].
    destruct (center_view_succeeds lm w L Hq) as (w' & Hs & _).
    rewrite Hs in Hrun. injection Hrun as Hr _. now symmetry.
  - intros Hl Hq. apply quiet_S in Hq as [Hh _].
    unfold center_view_try, slicer_app_layoutManager in E.
    rewrite bind_remote in E by exact Hh. cbn [w_scene tick] in E.
    rewrite Hl in E. cbn in E. now injection E as <- _.
Qed.

(** C1 as stated fails when a step raises an exception that is no
    [Exception]: the user interrupts the client while it waits for the
    answer of [resetFocalPoint], and the [KeyboardInterrupt] leaves
    [center_view]; the session has reset the focal point, no slice view is
    fitted. *)
Lemma center_view_interrupt_propagates :
  exists (w' : World),
    center_view interrupted_world = (Raise keyboard_interrupt, w') /\
    layout (w_scene w')
    = Some (mk_layout true ["Red"; "Yellow"; "Green"] 1 []) /\
    w_log w' = [].
Proof. eexists. split; [reflexivity|]. split; reflexivity. Qed.

(** ** The clock and the log *)

Lemma silent_ret {A} (a : A) : silent (ret a).
Proof. intros w r w' H. now injection H as <- <-. Qed.

Lemma silent_raise {A} (e : exn) : silent (@raise A e).
Proof. intros w r w' H. now injection H as <- <-. Qed.

Lemma silent_attr {A} (name : string) (o : option A) : silent (attr name o).
Proof. destruct o; [apply silent_ret|apply silent_raise]. Qed.

Lemma silent_remote {A} (c : Call) (sem : Scene -> result A * Scene) :
  silent (remote c sem).
Proof.
  intros w r w' H. unfold remote in H.
  destruct (w_faults w) as [|[e|] fs];
    [destruct (sem (w_scene w)) as [r0 sc] | |
     destruct (sem (w_scene w)) as [r0 sc]];
    now injection H as <- <-.
Qed.

Lemma silent_bind {A B} (m : M A) (f : A -> M B) :
  silent m -> (forall a, silent (f a)) -> silent (bind m f).
Proof.
  intros Hm Hf w r w' H. unfold bind in H.
  destruct (m w) as [[a|e] w1] eqn:E.
  - destruct (Hm _ _ _ E) as (L1 & T1 & C1).
    destruct (Hf a _ _ _ H) as (L2 & T2 & C2).
    repeat split; congruence.
  - injection H as <- <-. exact (Hm _ _ _ E).
Qed.

Lemma silent_for_each {A B} (xs : list A) (acc : B) (body : B -> A -> M B) :
  (forall b a, silent (body b a)) -> silent (for_each xs acc body).
Proof.
  intros Hb. revert acc. induction xs as [|x xs IH]; intros acc; simpl.
  - apply silent_ret.
  - apply silent_bind; [apply Hb|intros b; apply IH].
Qed.

Ltac silent_tac :=
  repeat first
    [ apply silent_ret | apply silent_raise | apply silent_attr
    | apply silent_remote
    | apply silent_bind
    | apply silent_for_each
    | progress intros
    | match goal with
      | |- silent (match ?x with _ => _ end) => destruct x
      | |- silent (if ?x then _ else _) => destruct x
      end ].

Lemma silent_helper (name : string) :
  silent (_get_segmentation_and_display_node name).
Proof. unfold _get_segmentation_and_display_node. methods. silent_tac. Qed.






(** ** The shape of [format(x, '.Nf')] *)

Lemma digit_is_digit (d : Z) : (0 <= d < 10)%Z -> is_digit (digit d) = true.
Proof.
  intros H. unfold digit.
  assert (Hn : Z.to_nat d < 10) by lia.
  destruct (Z.to_nat d) as [|[|[|[|[|[|[|[|[|[|n]]]]]]]]]];
    try reflexivity; lia.
Qed.

Lemma fraction_digits_spec (p : nat) (n : Z) (acc : string) :
  all_digits acc = true ->
  all_digits (fraction_digits p n acc) = true /\
  String.length (fraction_digits p n acc) = p + String.length acc.
Proof.
  revert n acc; induction p as [|p IH]; intros n acc Hacc;
    cbn [fraction_digits].
  - now split.
  - destruct (IH (n / 10)%Z (String (digit (n mod 10)) acc)) as [D L].
    + cbn [all_digits]. rewrite Hacc, digit_is_digit; [reflexivity|].
      apply Z.mod_pos_bound. lia.
    + split; [exact D|]. rewrite L. cbn [String.length]. lia.
Qed.

Lemma string_of_uint_digits (d : uint) :
  all_digits (NilEmpty.string_of_uint d) = true.
Proof. induction d; simpl; try reflexivity; assumption. Qed.

Lemma decimal_digits (n : Z) :
  all_digits (decimal n) = true /\ decimal n <> "".
Proof.
  unfold decimal, NilZero.string_of_uint.
  destruct (N.to_uint (Z.to_N n)) as [|d|d|d|d|d|d|d|d|d|d] eqn:E;
    (split; [|discriminate]); try reflexivity;
    cbn [NilEmpty.string_of_uint all_digits]; apply string_of_uint_digits.
Qed.

Lemma fixed_point_places (p : nat) (n : Z) :
  0 < p ->
  exists ip fp,
    fixed_point p n = ip ++ "." ++ fp /\
    ip <> "" /\ all_digits ip = true /\ all_digits fp = true /\
    String.length fp = p.
Proof.
  intros Hp. unfold fixed_point. destruct p as [|p]; [lia|].
  destruct (decimal_digits (n / 10 ^ Z.of_nat (S p))) as [D N].
  destruct (fraction_digits_spec (S p) (n mod 10 ^ Z.of_nat (S p)) ""
              eq_refl) as [F L].
  eexists. eexists. split; [reflexivity|].
  repeat split; try assumption. rewrite L. cbn [String.length]. lia.
Qed.

(** A finite float printed with [:.Nf], N > 0, has exactly N decimals. *)
Lemma format_f_places (p : nat) (x : float) :
  0 < p -> is_finite x = true -> decimal_places p (format_f p x).
Proof.
  intros Hp Hx. destruct x as [s|s| |s m e]; try discriminate;
    cbn [format_f].
  - destruct (fixed_point_places p 0 Hp) as (ip & fp & E & H).
    exists s, ip, fp. now rewrite E.
  - destruct (fixed_point_places p (scaled p m e) Hp) as (ip & fp & E & H).
    exists s, ip, fp. now rewrite E.
Qed.

(** ** The completion log line *)












(** ** Operation (e): [set_segments_visibility] *)

Lemma skipn_tl {A} (k : nat) (l : list A) : skipn (S k) l = skipn k (tl l).
Proof. destruct l; simpl; [now destruct k|reflexivity]. Qed.

Lemma world_eta (w : World) :
  mk_world (w_scene w) (w_faults w) (w_trace w) (w_clock w) (w_ticks w) (w_log w)
  = w.
Proof. now destruct w. Qed.

(** The loop of operation (e) on a quiet stretch: every name is looked up
    and written, whether or not it names a segment. *)
Lemma visibility_loop (h : NodeRef) (n : Node) (sc : Scene) (visible : bool)
      (names : list string) :
  nth_error (nodes sc) h = Some n ->
  forall (segs : list Segment) (dn : DisplayNode) (w : World),
    w_scene w = put h segs dn n sc ->
    quiet (2 * length names) (w_faults w) = true ->
    for_each names tt (visibility_body h visible) w
    = (Ok tt, after_loop h n sc visible names segs dn w).
Proof.
  intros Hn. induction names as [|name names IH]; intros segs dn w Hsc Hq.
  - unfold after_loop, show_steps. cbn. rewrite app_nil_r, <- Hsc.
    now rewrite world_eta.
  - cbn [for_each]. unfold visibility_body at 1.
    replace (2 * length (name :: names)) with (S (S (2 * length names))) in Hq
      by (cbn [length]; lia).
    rewrite bind_assoc.
    call Hq. rewrite Hsc, (on_node_put _ _ _ _ _ _ Hn).
    cbn [node_segments set_display set_segments].
    fold (segment_id_of segs name).
    call Hq. rewrite (on_display_put _ _ _ _ _ _ _ Hn). cbn [fst snd].
    erewrite IH; [|reflexivity|exact Hq].
    f_equal. unfold after_loop. projections.
    replace (2 * length (name :: names)) with (S (S (2 * length names)))
      by (cbn [length]; lia).
    rewrite !skipn_tl, <- !app_assoc. reflexivity.
Qed.

Lemma for_each_app {A B} (xs ys : list A) (acc : B) (body : B -> A -> M B)
      (w : World) :
  for_each (xs ++ ys) acc body w
  = bind (for_each xs acc body) (fun acc' => for_each ys acc' body) w.
Proof.
  revert acc w; induction xs as [|x xs IH]; intros acc w; simpl.
  - reflexivity.
  - rewrite bind_assoc.
    destruct (body acc x w) as [[b|e] w1] eqn:E.
    + rewrite !(bind_ok _ _ _ _ _ E). apply IH.
    + now rewrite !(bind_raise _ _ _ _ _ E).
Qed.

Lemma set_segments_visibility_opens (name : string) (names : list string)
      (visible : bool) (h : NodeRef) (n : Node) (segs : list Segment)
      (dn : DisplayNode) (w : World) :
  refs_where (named name) (w_scene w) = [h] ->
  nth_error (nodes (w_scene w)) h = Some n ->
  is_a "vtkMRMLSegmentationNode" n = true ->
  node_segments n = Some segs ->
  node_display n = Some dn ->
  quiet 7 (w_faults w) = true ->
  set_segments_visibility name names visible w
  = (for_each names tt (visibility_body h visible) ;;;
     EndModify h (DisableModifiedEvent dn) ;;;
     center_view ;;;
     toc <- time_time ;;
     logging_info (executed_in "set_segments_visibility"
                               (w_clock w (w_ticks w)) toc) ;;;
     ret (segments_sentence name names visible))
      (bracket_opened name h segs dn n w).
Proof.
  intros Hrefs Hn Hisa Hs Hd Hq.
  unfold set_segments_visibility. rewrite bind_time.
  rewrite (bind_ok _ _ _ _ _
             (helper_resolves name h n dn (tick w) Hrefs Hn Hisa Hd
                (quiet_le 5 7 _ ltac:(lia) Hq))).
  do 5 (apply quiet_S in Hq; destruct Hq as [_ Hq]).
  unfold resolved.
  call Hq. unfold on_node. rewrite Hn, Hs.
  call Hq. rewrite (on_display_run _ _ _ segs dn n _ Hn Hs Hd). cbn [fst snd].
  reflexivity.
Qed.

Lemma set_segments_visibility_run (name : string) (names : list string)
      (visible : bool) (h : NodeRef) (n : Node) (segs : list Segment)
      (dn : DisplayNode) (w : World) :
  refs_where (named name) (w_scene w) = [h] ->
  nth_error (nodes (w_scene w)) h = Some n ->
  is_a "vtkMRMLSegmentationNode" n = true ->
  node_segments n = Some segs ->
  node_display n = Some dn ->
  quiet (8 + 2 * length names) (w_faults w) = true ->
  set_segments_visibility name names visible w
  = (center_view ;;;
     toc <- time_time ;;
     logging_info (executed_in "set_segments_visibility"
                               (w_clock w (w_ticks w)) toc) ;;;
     ret (segments_sentence name names visible))
      (before_center_view name names visible h segs dn n w).
Proof.
  intros Hrefs Hn Hisa Hs Hd Hq.
  rewrite (set_segments_visibility_opens name names visible h n segs dn w
             Hrefs Hn Hisa Hs Hd
             (quiet_le 7 (8 + 2 * length names) _ ltac:(lia) Hq)).
  assert (Hq' : quiet (S (2 * length names))
                      (w_faults (bracket_opened name h segs dn n w)) = true).
  { unfold bracket_opened, resolved. projections.
    do 7 apply quiet_tl. exact Hq. }
  rewrite (bind_ok _ _ _ _ _
             (visibility_loop h n (w_scene w) visible names Hn segs (started dn)
                (bracket_opened name h segs dn n w) eq_refl
                (quiet_le (2 * length names) (S (2 * length names)) _
                          ltac:(lia) Hq'))).
  assert (Hh : hd None (w_faults (after_loop h n (w_scene w) visible names segs
                                   (started dn)
                                   (bracket_opened name h segs dn n w)))
               = None).
  { unfold after_loop. cbn [w_faults].
    generalize dependent (w_faults (bracket_opened name h segs dn n w)).
    generalize (2 * length names) as k. clear.
    induction k as [|k IH]; intros fs H.
    - now apply quiet_S in H.
    - rewrite skipn_tl. apply IH. now apply quiet_tl. }
  unfold EndModify. rewrite bind_remote by exact Hh.
  unfold after_loop at 1. cbn [w_scene].
  rewrite (on_display_put _ _ _ _ _ _ _ Hn). cbn [fst snd].
  reflexivity.
Qed.

(** What leaves [center_view] as an exception is no [Exception]. *)
Lemma center_view_outcome (w w' : World) (e : exn) :
  center_view w = (Raise e, w') -> is_Exception e = false.
Proof.
  unfold center_view. rewrite bind_time. unfold try_except.
  destruct (center_view_try (w_clock w (w_ticks w)) (tick w)) as [[s|e0] w0];
    [discriminate|].
  destruct (is_Exception e0) eqn:X; [discriminate|].
  intros H. now injection H as <- _.
Qed.

Lemma center_view_trace (w w' : World) (r : result string) :
  center_view w = (r, w') ->
  exists o evs,
    w_trace w'
    = (w_trace w ++ mk_event call_slicer_app_layoutManager o :: evs)%list /\
    center_view_starts evs = 0.
Proof.
  unfold center_view. rewrite bind_time. unfold try_except.
  destruct (center_view_try (w_clock w (w_ticks w)) (tick w))
    as [r0 w0] eqn:E.
  intros H.
  assert (Hw : w' = w0).
  { destruct r0 as [s0|e0]; [now injection H as _ <-|].
    destruct (is_Exception e0); now injection H as _ <-. }
  subst w'. clear H. unfold center_view_try in E.
  destruct (slicer_app_layoutManager (tick w)) as [[lm|e] w1] eqn:E1.
  - rewrite (bind_ok _ _ _ _ _ E1) in E.
    destruct (remote_one_event _ _ _ _ _ E1) as (o & T1).
    match type of E with
    | ?m _ = _ =>
        assert (Hm : emits (fun c => is_layoutManager_call c = false) m)
          by (methods; emits_tac; reflexivity)
    end.
    destruct (Hm _ _ _ E) as (evs & T & F & _).
    exists o, evs. rewrite T, T1, <- app_assoc. split; [reflexivity|].
    unfold center_view_starts. clear - F.
    induction F as [|ev evs Hev _ IH]; [reflexivity|].
    cbn [filter]. now rewrite Hev.
  - rewrite (bind_raise _ _ _ _ _ E1) in E. injection E as _ <-.
    destruct (remote_one_event _ _ _ _ _ E1) as (o & T1).
    exists o, []. now rewrite T1.
Qed.

Lemma loop_events_start_nothing (h : NodeRef) (visible : bool)
      (names : list string) (segs : list Segment) :
  center_view_starts (loop_events h visible segs names) = 0.
Proof.
  revert segs; induction names as [|name names IH]; intros segs;
    [reflexivity|apply IH].
Qed.

Lemma center_view_starts_app (a b : list Event) :
  center_view_starts (a ++ b) = center_view_starts a + center_view_starts b.
Proof. unfold center_view_starts. now rewrite filter_app, length_app. Qed.

Lemma skipn_own_app {A} (a b : list A) : skipn (length a) (a ++ b) = b.
Proof. now rewrite skipn_app, skipn_all, Nat.sub_diag. Qed.

Lemma end_modify_restores (previous : bool) (dn : DisplayNode) :
  DisableModifiedEvent (end_modify previous dn) = previous.
Proof.
  unfold end_modify. destruct previous; [reflexivity|].
  now destruct (ModifiedEventPending dn).
Qed.

Lemma before_center_view_trace (name : string) (names : list string)
      (visible : bool) (h : NodeRef) (segs : list Segment) (dn : DisplayNode)
      (n : Node) (w : World) :
  w_trace (before_center_view name names visible h segs dn n w)
  = (w_trace w ++ opening_events name h
       ++ loop_events h visible segs names
       ++ [mk_event (call_EndModify h (DisableModifiedEvent dn)) None])%list.
Proof.
  unfold before_center_view, after_loop, bracket_opened, resolved.
  projections. now rewrite <- !app_assoc.
Qed.

(** C3, as the code has it.  When helper (c) resolves the node and the
    remote calls up to [EndModify] are answered, operation (e) starts
    [center_view] exactly once: in the world where every requested name has
    been written (whether or not it names a segment) and the bracket is
    closed.  When [center_view] returns, whatever string it returns,
    operation (e) logs its line and returns its own sentence; an exception
    that is no [Exception] and leaves [center_view] leaves operation (e)
    too. *)
Theorem set_segments_visibility_centers_once
        (name : string) (names : list string) (visible : bool) (h : NodeRef)
        (n : Node) (segs : list Segment) (dn : DisplayNode) (w : World) :
  refs_where (named name) (w_scene w) = [h] ->
  nth_error (nodes (w_scene w)) h = Some n ->
  is_a "vtkMRMLSegmentationNode" n = true ->
  node_segments n = Some segs ->
  node_display n = Some dn ->
  quiet (8 + 2 * length names) (w_faults w) = true ->
  exists (r : result string) (wb wc w' : World),
    center_view wb = (r, wc) /\
    set_segments_visibility name names visible w
    = (match r with
       | Ok _ => Ok (segments_sentence name names visible)
       | Raise e => Raise e
       end, w') /\
    w' = match r with
         | Ok _ =>
             logged (executed_in "set_segments_visibility"
                                 (w_clock w (w_ticks w))
                                 (w_clock wc (w_ticks wc)))
                    (tick wc)
         | Raise _ => wc
         end /\
    (forall e, r = Raise e -> is_Exception e = false) /\
    w_trace wb
    = (w_trace w ++ opening_events name h
         ++ loop_events h visible segs names
         ++ [mk_event (call_EndModify h (DisableModifiedEvent dn)) None])%list /\
    segments_of h wb = Some (fst (show_steps visible names (segs, started dn))) /\
    option_map DisableModifiedEvent (display_of h wb)
    = Some (DisableModifiedEvent dn) /\
    center_view_starts (skipn (length (w_trace w)) (w_trace wb)) = 0 /\
    center_view_starts (skipn (length (w_trace w)) (w_trace w')) = 1.
Proof.
  intros Hrefs Hn Hisa Hs Hd Hq.
  set (wb := before_center_view name names visible h segs dn n w).
  destruct (center_view wb) as [r wc] eqn:Hc.
  destruct (center_view_trace _ _ _ Hc) as (o & evs & Tc & Sc).
  pose proof (before_center_view_trace name names visible h segs dn n w) as Tb.
  fold wb in Tb.
  exists r, wb, wc. eexists.
  split; [exact Hc|].
  split; [|split; [reflexivity|split; [|split; [exact Tb|]]]].
  - rewrite (set_segments_visibility_run name names visible h n segs dn w
               Hrefs Hn Hisa Hs Hd Hq).
    fold wb. destruct r as [s|e].
    + rewrite (bind_ok _ _ _ _ _ Hc), bind_time, bind_log. reflexivity.
    + rewrite (bind_raise _ _ _ _ _ Hc). reflexivity.
  - intros e ->. exact (center_view_outcome _ _ _ Hc).
  - split; [|split; [|split]].
    + unfold segments_of, wb, before_center_view. projections.
      now rewrite (put_node _ _ _ _ _ Hn).
    + unfold display_of, wb, before_center_view. projections.
      rewrite (put_node _ _ _ _ _ Hn). cbn [node_display set_display option_map].
      now rewrite end_modify_restores.
    + rewrite Tb, skipn_own_app, !center_view_starts_app.
      now rewrite loop_events_start_nothing.
    + assert (Tw : forall w0, w_trace w0 = w_trace wc ->
                center_view_starts (skipn (length (w_trace w)) (w_trace w0)) = 1).
      { intros w0 ->. rewrite Tc, Tb, <- !app_assoc, skipn_own_app.
        rewrite !center_view_starts_app, loop_events_start_nothing.
        unfold center_view_starts in *. cbn [filter ev_call is_layoutManager_call
          opening_events length app Nat.add]. cbn [length] in Sc.
        now rewrite Sc. }
      destruct r; apply Tw; reflexivity.
Qed.

Lemma set_segments_visibility_centers_once_witness :
  exists (r : result string) (wb wc w' : World),
    center_view wb = (r, wc) /\
    set_segments_visibility "Segmentation" ["spleen"; "kidney"] true sample_world
    = (match r with
       | Ok _ => Ok "Segments spleen, kidney in Segmentation are now visible"
       | Raise e => Raise e
       end, w') /\
    w' = match r with
         | Ok _ =>
             logged (executed_in "set_segments_visibility" (seconds 0)
                                 (w_clock wc (w_ticks wc)))
                    (tick wc)
         | Raise _ => wc
         end /\
    (forall e, r = Raise e -> is_Exception e = false) /\
    w_trace wb
    = ([] ++ opening_events "Segmentation" 1
         ++ loop_events 1 true sample_segments ["spleen"; "kidney"]
         ++ [mk_event (call_EndModify 1 false) None])%list /\
    segments_of 1 wb
    = Some (fst (show_steps true ["spleen"; "kidney"]
                            (sample_segments, mk_display true 0 0))) /\
    option_map DisableModifiedEvent (display_of 1 wb) = Some false /\
    center_view_starts (skipn 0 (w_trace wb)) = 0 /\
    center_view_starts (skipn 0 (w_trace w')) = 1.
Proof.
  apply (set_segments_visibility_centers_once "Segmentation"
           ["spleen"; "kidney"] true 1
           (mk_node "vtkMRMLSegmentationNode1" "Segmentation"
                    segmentation_classes (Some sample_segments)
                    (Some (mk_display false 0 0)))
           sample_segments (mk_display false 0 0) sample_world);
    reflexivity.
Defined.

(** C3 as stated fails for a node name that helper (c) does not resolve:
    the operation raises and [center_view] is never started. *)
Lemma set_segments_visibility_unresolved_never_centers :
  exists (w' : World),
    set_segments_visibility "Missing" ["liver"] true sample_world
    = (Raise (mk_exn ValueError
                     "Expected exactly one node named 'Missing', found 0"),
       w') /\
    center_view_starts (w_trace w') = 0 /\
    w_log w' = [].
Proof. eexists. split; [reflexivity|]. split; reflexivity. Qed.

Lemma quiet_repeat (k : nat) (l : list (option Fault)) :
  quiet k (repeat None k ++ l) = true.
Proof. induction k as [|k IH]; [reflexivity|exact IH]. Qed.

Lemma skipn_repeat_app {A} (a : A) (k : nat) (l : list A) :
  skipn k (repeat a k ++ l) = l.
Proof. induction k as [|k IH]; [reflexivity|exact IH]. Qed.

Lemma loop_events_no_EndModify (h : NodeRef) (visible : bool)
      (names : list string) (segs : list Segment) :
  Forall (fun ev => is_EndModify_call (ev_call ev) = false)
         (loop_events h visible segs names).
Proof.
  revert segs; induction names as [|name names IH]; intros segs;
    [constructor|]. cbn [loop_events]. repeat constructor. apply IH.
Qed.

Lemma show_steps_keep_bracket (visible : bool) (names : list string)
      (segs : list Segment) (dn : DisplayNode) :
  DisableModifiedEvent dn = true ->
  DisableModifiedEvent (snd (show_steps visible names (segs, dn))) = true.
Proof.
  unfold show_steps. revert segs dn.
  induction names as [|x names IH]; intros s d Hdm; [exact Hdm|].
  cbn [fold_left]. unfold show_step at 2. apply IH. cbn [snd fst].
  unfold modified_if, Modified.
  destruct (changes _ visible s); [|exact Hdm]. now rewrite Hdm.
Qed.

(** C10. When the node is resolved, the bracket opened, the names [pre]
    written, and the [SetSegmentVisibility] call for the next name raises,
    operation (e) raises that exception: [EndModify] is never called,
    [center_view] is never started, nothing is logged, the display node is
    left with its modified events disabled, and the segments named in [pre]
    keep their new visibility; the segment of the failing name has it too
    exactly when the session had carried the call out before the exception
    was raised. *)
Theorem set_segments_visibility_fault_leaves_bracket_open
        (name : string) (pre : list string) (segment_name : string)
        (post : list string) (visible : bool) (h : NodeRef) (n : Node)
        (segs : list Segment) (dn : DisplayNode) (w : World) (ft : Fault)
        (rest : list (option Fault)) :
  refs_where (named name) (w_scene w) = [h] ->
  nth_error (nodes (w_scene w)) h = Some n ->
  is_a "vtkMRMLSegmentationNode" n = true ->
  node_segments n = Some segs ->
  node_display n = Some dn ->
  w_faults w = (repeat None (7 + 2 * length pre) ++ None :: Some ft :: rest)%list ->
  exists (w' : World) (new : list Event),
    set_segments_visibility name (pre ++ segment_name :: post) visible w
    = (Raise (fault_exn ft), w') /\
    w_trace w' = (w_trace w ++ new)%list /\
    new
    = (opening_events name h ++ loop_events h visible segs pre
         ++ [ mk_event (call_GetSegmentIdBySegmentName h segment_name) None;
              mk_event (call_SetSegmentVisibility h
                          (segment_id_of
                             (fst (show_steps visible pre (segs, started dn)))
                             segment_name)
                          visible)
                       (Some (fault_exn ft)) ])%list /\
    Forall (fun ev => is_EndModify_call (ev_call ev) = false) new /\
    center_view_starts new = 0 /\
    w_log w' = w_log w /\
    option_map DisableModifiedEvent (display_of h w') = Some true /\
    segments_of h w'
    = Some (fst (show_steps visible
                   (pre ++ if fault_applied ft then [segment_name] else [])
                   (segs, started dn))) /\
    w_faults w' = rest.
Proof.
  intros Hrefs Hn Hisa Hs Hd Hf.
  assert (Hq7 : quiet 7 (w_faults w) = true).
  { rewrite Hf. apply (quiet_le 7 (7 + 2 * length pre)); [lia|].
    apply quiet_repeat. }
  set (wo := bracket_opened name h segs dn n w).
  assert (Hfo : w_faults wo
                = (repeat None (2 * length pre) ++ None :: Some ft :: rest)%list).
  { unfold wo, bracket_opened, resolved. projections. rewrite Hf.
    reflexivity. }
  set (st := show_steps visible pre (segs, started dn)).
  set (st' := show_steps visible
                (pre ++ if fault_applied ft then [segment_name] else [])
                (segs, started dn)).
  set (wl := after_loop h n (w_scene w) visible pre segs (started dn) wo).
  assert (Hloop : for_each pre tt (visibility_body h visible) wo = (Ok tt, wl)).
  { apply (visibility_loop h n (w_scene w) visible pre Hn); [reflexivity|].
    rewrite Hfo. apply quiet_repeat. }
  assert (Hfl : w_faults wl = None :: Some ft :: rest).
  { unfold wl, after_loop. cbn [w_faults]. rewrite Hfo.
    apply skipn_repeat_app. }
  assert (Hscl : w_scene wl = put h (fst st) (snd st) n (w_scene w))
    by reflexivity.
  assert (Hfin : forall sem,
             sem = on_display "SetSegmentVisibility" h
                     (fun segs0 dn0 =>
                        (tt,
                         set_visibility (segment_id_of (fst st) segment_name)
                                        visible segs0,
                         modified_if
                           (changes (fun s =>
                                       String.eqb (seg_id s)
                                         (segment_id_of (fst st) segment_name))
                                    visible segs0) dn0)) ->
             (if fault_applied ft
              then snd (sem (put h (fst st) (snd st) n (w_scene w)))
              else put h (fst st) (snd st) n (w_scene w))
             = put h (fst st') (snd st') n (w_scene w)).
  { intros sem ->. unfold st'. destruct (fault_applied ft).
    - rewrite (on_display_put _ _ _ _ _ _ _ Hn). cbn [fst snd].
      unfold show_steps. rewrite fold_left_app. reflexivity.
    - now rewrite app_nil_r. }
  eexists. eexists. split; [|split; [|split; [reflexivity|]]].
  - rewrite (set_segments_visibility_opens name _ visible h n segs dn w
               Hrefs Hn Hisa Hs Hd Hq7).
    fold wo. apply bind_raise.
    rewrite for_each_app, (bind_ok _ _ _ _ _ Hloop).
    cbn [for_each]. unfold visibility_body at 1. rewrite bind_assoc.
    unfold GetSegmentIdBySegmentName.
    rewrite bind_remote by (rewrite Hfl; reflexivity).
    rewrite Hscl, (on_node_put _ _ _ _ _ _ Hn).
    cbn [node_segments set_display set_segments].
    fold (segment_id_of (fst st) segment_name).
    unfold SetSegmentVisibility.
    etransitivity.
    { apply bind_remote_fault. cbn [w_faults after_call]. rewrite Hfl.
      reflexivity. }
    cbn [w_scene after_call]. rewrite (Hfin _ eq_refl). reflexivity.
  - unfold wl, after_loop, wo, bracket_opened, resolved. projections.
    rewrite <- !app_assoc. reflexivity.
  - split; [|split; [|split; [|split; [|split]]]].
    + apply Forall_app. split; [repeat constructor|].
      apply Forall_app. split; [apply loop_events_no_EndModify|].
      repeat constructor.
    + rewrite !center_view_starts_app, loop_events_start_nothing.
      reflexivity.
    + reflexivity.
    + unfold display_of. cbn [w_scene after_call].
      rewrite (put_node _ _ _ _ _ Hn).
      cbn [node_display set_display option_map]. f_equal.
      now apply show_steps_keep_bracket.
    + unfold segments_of. cbn [w_scene after_call].
      now rewrite (put_node _ _ _ _ _ Hn).
    + cbn [w_faults after_call]. now rewrite Hfl.
Qed.

Lemma set_segments_visibility_fault_leaves_bracket_open_witness :
  exists (w' : World) (new : list Event),
    set_segments_visibility "Segmentation" (["tumor"] ++ "liver" :: ["spleen"])
                            false faulty_world
    = (Raise connection_lost, w') /\
    w_trace w' = (w_trace faulty_world ++ new)%list /\
    new
    = (opening_events "Segmentation" 1
         ++ loop_events 1 false sample_segments ["tumor"]
         ++ [ mk_event (call_GetSegmentIdBySegmentName 1 "liver") None;
              mk_event (call_SetSegmentVisibility 1 "Segment_1" false)
                       (Some connection_lost) ])%list /\
    Forall (fun ev => is_EndModify_call (ev_call ev) = false) new /\
    center_view_starts new = 0 /\
    w_log w' = w_log faulty_world /\
    option_map DisableModifiedEvent (display_of 1 w') = Some true /\
    segments_of 1 w'
    = Some (map (with_visible false) sample_segments) /\
    w_faults w' = [].
Proof.
  apply (set_segments_visibility_fault_leaves_bracket_open "Segmentation"
           ["tumor"] "liver" ["spleen"] false 1
           (mk_node "vtkMRMLSegmentationNode1" "Segmentation"
                    segmentation_classes (Some sample_segments)
                    (Some (mk_display false 0 0)))
           sample_segments (mk_display false 0 0) faulty_world
           (reply_lost connection_lost) []);
    reflexivity.
Defined.

(** ** Operation (b): [get_visible_segments] *)

Lemma find_segment_unique (segs : list Segment) (s : Segment) :
  NoDup (map seg_id segs) -> In s segs ->
  find_segment (seg_id s) segs = Some s.
Proof.
  unfold find_segment.
  induction segs as [|x segs IH]; intros Hnd Hin; [contradiction|].
  cbn [find]. inversion Hnd as [|? ? Hx Hnd']; subst.
  destruct Hin as [->|Hin].
  - now rewrite String.eqb_refl.
  - destruct (String.eqb_spec (seg_id x) (seg_id s)) as [E|_].
    + exfalso. apply Hx. rewrite E. now apply in_map.
    + now apply IH.
Qed.

Lemma segment_entry_rgb (s : Segment) :
  segment_entry (seg_name s) (seg_color s) = rgb_entry s.
Proof.
  unfold segment_entry, rgb_entry, red, green, blue.
  now destruct (seg_color s) as [[r g] b].
Qed.

Lemma entries_loop (h : NodeRef) (n : Node) (segs : list Segment)
      (dn : DisplayNode) (vis : list Segment) :
  node_segments n = Some segs ->
  node_display n = Some dn ->
  (forall s, In s vis -> find_segment (seg_id s) segs = Some s) ->
  forall (info : list string) (w : World),
    nth_error (nodes (w_scene w)) h = Some n ->
    quiet (4 * length vis) (w_faults w) = true ->
    exists w',
      for_each (map seg_id vis) info (entry_body h) w
      = (Ok (info ++ map rgb_entry vis)%list, w').
Proof.
  intros Hs Hd. induction vis as [|s vis IH]; intros Hfind info w Hn Hq.
  - eexists. cbn. now rewrite app_nil_r.
  - cbn [map for_each]. unfold entry_body at 1.
    replace (4 * length (s :: vis)) with (S (S (S (S (4 * length vis))))) in Hq
      by (cbn [length]; lia).
    assert (Hf : find_segment (seg_id s) segs = Some s)
      by (apply Hfind; now left).
    rewrite !bind_assoc.
    call Hq. unfold on_node at 1. rewrite Hn, Hs.
    call Hq. unfold on_node at 1. rewrite Hn, Hs, Hf.
    call Hq. rewrite (on_display_run _ _ _ segs dn n _ Hn Hs Hd).
    cbn [fst snd]. rewrite (put_same _ _ _ _ _ Hn Hs Hd), Hf.
    cbn [attr]. rewrite ?bind_assoc, bind_ret.
    call Hq. unfold on_node at 1. cbn [fst snd]. rewrite Hn, Hs, Hf.
    rewrite ?bind_assoc, bind_ret, segment_entry_rgb.
    destruct (IH (fun x Hx => Hfind x (or_intror Hx))
                 (append info (rgb_entry s))
                 (after_call (call_GetName (h, seg_id s)) None (w_scene w)
                    (after_call (call_GetSegmentColor h (seg_id s)) None
                       (w_scene w)
                       (after_call (call_GetSegment h (seg_id s)) None
                          (w_scene w)
                          (after_call (call_GetSegmentation h) None
                             (w_scene w) w))))
                 Hn Hq) as (w' & R).
    exists w'. etransitivity; [exact R|].
    unfold append. now rewrite <- app_assoc.
Qed.

Lemma get_visible_segments_run (pattern : string) (h : NodeRef)
      (others : list NodeRef) (n : Node) (segs : list Segment)
      (dn : DisplayNode) (w : World) :
  refs_where (matches pattern) (w_scene w) = h :: others ->
  nth_error (nodes (w_scene w)) h = Some n ->
  node_segments n = Some segs ->
  node_display n = Some dn ->
  (forall s, In s (filter seg_visible segs) ->
             find_segment (seg_id s) segs = Some s) ->
  quiet (3 + 4 * length (filter seg_visible segs)) (w_faults w) = true ->
  fst (get_visible_segments pattern w)
  = Ok (visible_sentence pattern (map rgb_entry (filter seg_visible segs))).
Proof.
  intros Hrefs Hn Hs Hd Hfind Hq.
  unfold get_visible_segments. rewrite bind_time.
  call Hq. rewrite Hrefs.
  call Hq. unfold on_node at 1. rewrite Hn, Hd. cbn [attr]. rewrite bind_ret.
  call Hq. rewrite (on_display_run _ _ _ segs dn n _ Hn Hs Hd).
  cbn [fst snd]. rewrite (put_same _ _ _ _ _ Hn Hs Hd).
  match goal with
  | |- context [bind (for_each _ _ _) _ ?w1] =>
      destruct (entries_loop h n segs dn (filter seg_visible segs) Hs Hd Hfind
                  [] w1 Hn Hq) as (w' & R)
  end.
  erewrite bind_ok; [|exact R].
  rewrite bind_time, bind_log. reflexivity.
Qed.

(** C7. Operation (b) builds, for every visible segment, the entry
    [Name (Color: RGB(r, g, b)] in which the red, green and blue channel of
    the segment's color appear in that order, each printed by [:.2f]; for a
    finite channel value that is a decimal with exactly two digits after the
    point. *)
Theorem get_visible_segments_entries (pattern : string) (h : NodeRef)
        (others : list NodeRef) (n : Node) (segs : list Segment)
        (dn : DisplayNode) (w : World) :
  refs_where (matches pattern) (w_scene w) = h :: others ->
  nth_error (nodes (w_scene w)) h = Some n ->
  node_segments n = Some segs ->
  node_display n = Some dn ->
  NoDup (map seg_id segs) ->
  quiet (3 + 4 * length (filter seg_visible segs)) (w_faults w) = true ->
  exists entries : list string,
    fst (get_visible_segments pattern w)
    = Ok ("The segmentation node " ++ pattern
            ++ " contains the following visible segments: "
            ++ join "," entries) /\
    entries
    = map (fun s =>
             seg_name s ++ " (Color: RGB(" ++ format_f 2 (red s) ++ ", "
               ++ format_f 2 (green s) ++ ", " ++ format_f 2 (blue s) ++ ")")
          (filter seg_visible segs) /\
    forall s c,
      In s (filter seg_visible segs) ->
      In c [red s; green s; blue s] ->
      is_finite c = true ->
      decimal_places 2 (format_f 2 c).
Proof.
  intros Hrefs Hn Hs Hd Hnd Hq.
  exists (map rgb_entry (filter seg_visible segs)).
  split; [|split; [reflexivity|]].
  - apply (get_visible_segments_run pattern h others n segs dn w);
      try assumption.
    intros s Hin. apply find_segment_unique; [assumption|].
    now apply filter_In in Hin as [Hin _].
  - intros s c _ _ Hc. apply format_f_places; [lia|exact Hc].
Qed.

Lemma get_visible_segments_entries_witness :
  exists entries : list string,
    fst (get_visible_segments "vtkMRMLSegmentationNode1" sample_world)
    = Ok ("The segmentation node vtkMRMLSegmentationNode1"
            ++ " contains the following visible segments: "
            ++ join "," entries) /\
    entries = ["liver (Color: RGB(1.00, 0.00, 0.00)";
               "tumor (Color: RGB(0.50, 0.50, 1.00)"] /\
    forall s c,
      In s (filter seg_visible sample_segments) ->
      In c [red s; green s; blue s] ->
      is_finite c = true ->
      decimal_places 2 (format_f 2 c).
Proof.
  apply (get_visible_segments_entries "vtkMRMLSegmentationNode1" 1 []
           (mk_node "vtkMRMLSegmentationNode1" "Segmentation"
                    segmentation_classes (Some sample_segments)
                    (Some (mk_display false 0 0)))
           sample_segments (mk_display false 0 0) sample_world);
    try reflexivity.
  repeat constructor; cbn; intuition discriminate.
Defined.

(** C8. For a node none of whose segments is visible, operation (b) returns
    the wrapping sentence with nothing after the colon and its space. *)
Theorem get_visible_segments_none_visible (pattern : string) (h : NodeRef)
        (others : list NodeRef) (n : Node) (segs : list Segment)
        (dn : DisplayNode) (w : World) :
  refs_where (matches pattern) (w_scene w) = h :: others ->
  nth_error (nodes (w_scene w)) h = Some n ->
  node_segments n = Some segs ->
  node_display n = Some dn ->
  filter seg_visible segs = [] ->
  quiet 3 (w_faults w) = true ->
  fst (get_visible_segments pattern w)
  = Ok ("The segmentation node " ++ pattern
          ++ " contains the following visible segments: ").
Proof.
  intros Hrefs Hn Hs Hd Hnone Hq.
  rewrite (get_visible_segments_run pattern h others n segs dn w
             Hrefs Hn Hs Hd).
  - now rewrite Hnone.
  - rewrite Hnone. intros s [].
  - now rewrite Hnone.
Qed.

Lemma get_visible_segments_none_visible_witness :
  fst (get_visible_segments "Twin" sample_world)
  = Ok "The segmentation node Twin contains the following visible segments: ".
Proof.
  apply (get_visible_segments_none_visible "Twin" 2 [3]
           (mk_node "vtkMRMLSegmentationNode2" "Twin" segmentation_classes
                    (Some []) (Some (mk_display false 0 0)))
           [] (mk_display false 0 0) sample_world);
    reflexivity.
Defined.

(** * Further properties *)

(** ** What a computation leaves alone *)

Lemma keeps_ret {A X} (f : Scene -> X) (a : A) : keeps f (ret a).
Proof. intros w r w' H. now injection H as _ <-. Qed.

Lemma keeps_raise {A X} (f : Scene -> X) (e : exn) : keeps f (@raise A e).
Proof. intros w r w' H. now injection H as _ <-. Qed.

Lemma keeps_attr {A X} (f : Scene -> X) (name : string) (o : option A) :
  keeps f (attr name o).
Proof. destruct o; [apply keeps_ret|apply keeps_raise]. Qed.

Lemma keeps_time {X} (f : Scene -> X) : keeps f time_time.
Proof. intros w r w' H. now injection H as _ <-. Qed.

Lemma keeps_log {X} (f : Scene -> X) (msg : string) : keeps f (logging_info msg).
Proof. intros w r w' H. now injection H as _ <-. Qed.

Lemma keeps_remote {A X} (f : Scene -> X) (c : Call)
      (sem : Scene -> result A * Scene) :
  (forall sc, f (snd (sem sc)) = f sc) -> keeps f (remote c sem).
Proof.
  intros Hsem w r w' H. unfold remote in H. specialize (Hsem (w_scene w)).
  destruct (w_faults w) as [|[ft|] fs];
    [destruct (sem (w_scene w)) as [r0 sc]
    | destruct (fault_applied ft)
    | destruct (sem (w_scene w)) as [r0 sc]];
    injection H as <- <-; cbn [w_scene after_call]; easy.
Qed.

Lemma keeps_bind {A B X} (f : Scene -> X) (m : M A) (k : A -> M B) :
  keeps f m -> (forall a, keeps f (k a)) -> keeps f (bind m k).
Proof.
  intros Hm Hk w r w' H. unfold bind in H.
  destruct (m w) as [[a|e] w1] eqn:E.
  - rewrite (Hk a _ _ _ H). exact (Hm _ _ _ E).
  - injection H as <- <-. exact (Hm _ _ _ E).
Qed.

Lemma keeps_for_each {A B X} (f : Scene -> X) (xs : list A) (acc : B)
      (body : B -> A -> M B) :
  (forall b a, keeps f (body b a)) -> keeps f (for_each xs acc body).
Proof.
  intros Hb. revert acc. induction xs as [|x xs IH]; intros acc; simpl.
  - apply keeps_ret.
  - apply keeps_bind; [apply Hb|intros b; apply IH].
Qed.

Lemma keeps_try_except {A X} (f : Scene -> X) (body : M A)
      (handler : exn -> M A) :
  keeps f body -> (forall e, keeps f (handler e)) ->
  keeps f (try_except body handler).
Proof.
  intros Hb Hh w r w' H. unfold try_except in H.
  destruct (body w) as [[a|e] w1] eqn:E.
  - injection H as <- <-. exact (Hb _ _ _ E).
  - destruct (is_Exception e).
    + rewrite (Hh e _ _ _ H). exact (Hb _ _ _ E).
    + injection H as <- <-. exact (Hb _ _ _ E).
Qed.

Lemma on_node_reads {A} (h : NodeRef) (g : Node -> result A) (sc : Scene) :
  snd (on_node h g sc) = sc.
Proof. unfold on_node. now destruct (nth_error (nodes sc) h). Qed.

(** A display-node method that writes back what it read. *)
Lemma on_display_reads {A} (attr_name : string) (d : DisplayRef)
      (g : list Segment -> DisplayNode -> A) (sc : Scene) :
  snd (on_display attr_name d (fun segs dn => (g segs dn, segs, dn)) sc) = sc.
Proof.
  unfold on_display.
  destruct (nth_error (nodes sc) d) as [n|] eqn:Hn; [|reflexivity].
  destruct (node_display n) as [dn|] eqn:Hd; [|reflexivity].
  destruct (node_segments n) as [segs|] eqn:Hs; [|reflexivity].
  cbn [snd]. exact (put_same d segs dn n sc Hn Hs Hd).
Qed.

Lemma on_layout_keeps_nodes {A} (g : LayoutManager -> A * LayoutManager)
      (sc : Scene) :
  nodes (snd (on_layout g sc)) = nodes sc.
Proof.
  unfold on_layout. destruct (layout sc) as [lm|]; [|reflexivity].
  now destruct (g lm).
Qed.

Lemma on_display_keeps_layout {A} (attr_name : string) (d : DisplayRef)
      (g : list Segment -> DisplayNode -> A * list Segment * DisplayNode)
      (sc : Scene) :
  layout (snd (on_display attr_name d g sc)) = layout sc.
Proof.
  unfold on_display.
  destruct (nth_error (nodes sc) d) as [n|]; [|reflexivity].
  destruct (node_display n) as [dn|]; [|reflexivity].
  destruct (node_segments n) as [segs|]; [|reflexivity].
  now destruct (g segs dn) as [[a s] d'].
Qed.

(** Decompose a computation; what is left are the remote calls. *)
Ltac keeps_tac :=
  repeat first
    [ apply keeps_ret | apply keeps_raise | apply keeps_attr
    | apply keeps_time | apply keeps_log
    | apply keeps_bind
    | apply keeps_for_each
    | apply keeps_try_except
    | progress intros
    | match goal with
      | |- keeps _ (match ?x with _ => _ end) => destruct x
      | |- keeps _ (if ?x then _ else _) => destruct x
      | |- keeps _ (remote _ _) => apply keeps_remote; intros ?sc
      end ].

(** ** Helper (c): the type check and the display-node check *)

(** X1. When the name matches exactly one node and that node is not a
    segmentation node, helper (c) raises a [TypeError] that names the node
    and the class found; the display node is never asked for. *)
Theorem helper_rejects_other_class (name : string) (h : NodeRef) (n : Node)
        (w : World) :
  refs_where (named name) (w_scene w) = [h] ->
  nth_error (nodes (w_scene w)) h = Some n ->
  is_a "vtkMRMLSegmentationNode" n = false ->
  quiet 5 (w_faults w) = true ->
  exists w' : World,
    _get_segmentation_and_display_node name w
    = (Raise (mk_exn TypeError
                ("Node '" ++ name ++ "' is not a segmentation node. Found: "
                   ++ hd "" (node_classes n))), w') /\
    calls_since w w'
    = [ call_slicer_mrmlScene_GetNodesByName name;
        call_GetNumberOfItems [h];
        call_GetItemAsObject [h] 0;
        call_IsA h "vtkMRMLSegmentationNode";
        call_GetClassName h ] /\
    w_scene w' = w_scene w.
Proof.
  intros Hrefs Hn Hisa Hq.
  eexists. split; [|split].
  - unfold _get_segmentation_and_display_node.
    call Hq. rewrite Hrefs.
    call Hq. cbn [length Nat.eqb negb].
    call Hq. cbn [nth_error attr]. rewrite bind_ret.
    call Hq. unfold on_node at 1. rewrite Hn, Hisa. cbn [negb].
    call Hq. unfold on_node at 1. rewrite Hn. reflexivity.
  - unfold calls_since. cbn [w_trace after_call]. rewrite <- !app_assoc.
    now rewrite skipn_own_app.
  - reflexivity.
Qed.

Lemma helper_rejects_other_class_witness :
  exists w' : World,
    _get_segmentation_and_display_node "CT" sample_world
    = (Raise (mk_exn TypeError
                "Node 'CT' is not a segmentation node. Found: vtkMRMLScalarVolumeNode"),
       w') /\
    calls_since sample_world w'
    = [ call_slicer_mrmlScene_GetNodesByName "CT";
        call_GetNumberOfItems [0];
        call_GetItemAsObject [0] 0;
        call_IsA 0 "vtkMRMLSegmentationNode";
        call_GetClassName 0 ] /\
    w_scene w' = w_scene sample_world.
Proof.
  apply (helper_rejects_other_class "CT" 0
           (mk_node "vtkMRMLScalarVolumeNode1" "CT" volume_classes None
                    (Some (mk_display false 0 0)))
           sample_world); reflexivity.
Defined.

(** X2. When the name matches exactly one node, a segmentation node without
    a display node, helper (c) raises the [ValueError]
    "Segmentation node '<name>' has no display node". *)
Theorem helper_requires_display_node (name : string) (h : NodeRef) (n : Node)
        (w : World) :
  refs_where (named name) (w_scene w) = [h] ->
  nth_error (nodes (w_scene w)) h = Some n ->
  is_a "vtkMRMLSegmentationNode" n = true ->
  node_display n = None ->
  quiet 5 (w_faults w) = true ->
  exists w' : World,
    _get_segmentation_and_display_node name w
    = (Raise (mk_exn ValueError
                ("Segmentation node '" ++ name ++ "' has no display node")),
       w') /\
    calls_since w w'
    = [ call_slicer_mrmlScene_GetNodesByName name;
        call_GetNumberOfItems [h];
        call_GetItemAsObject [h] 0;
        call_IsA h "vtkMRMLSegmentationNode";
        call_GetDisplayNode h ] /\
    w_scene w' = w_scene w.
Proof.
  intros Hrefs Hn Hisa Hd Hq.
  eexists. split; [|split].
  - unfold _get_segmentation_and_display_node.
    call Hq. rewrite Hrefs.
    call Hq. cbn [length Nat.eqb negb].
    call Hq. cbn [nth_error attr]. rewrite bind_ret.
    call Hq. unfold on_node at 1. rewrite Hn, Hisa. cbn [negb].
    call Hq. unfold on_node at 1. rewrite Hn, Hd. reflexivity.
  - unfold calls_since. cbn [w_trace after_call]. rewrite <- !app_assoc.
    now rewrite skipn_own_app.
  - reflexivity.
Qed.

Lemma helper_requires_display_node_witness :
  exists w' : World,
    _get_segmentation_and_display_node "Orphan" orphan_world
    = (Raise (mk_exn ValueError
                "Segmentation node 'Orphan' has no display node"), w') /\
    calls_since orphan_world w'
    = [ call_slicer_mrmlScene_GetNodesByName "Orphan";
        call_GetNumberOfItems [0];
        call_GetItemAsObject [0] 0;
        call_IsA 0 "vtkMRMLSegmentationNode";
        call_GetDisplayNode 0 ] /\
    w_scene w' = w_scene orphan_world.
Proof.
  apply (helper_requires_display_node "Orphan" 0
           (mk_node "vtkMRMLSegmentationNode9" "Orphan" segmentation_classes
                    (Some sample_segments) None)
           orphan_world); reflexivity.
Defined.

Ltac reads_tac :=
  keeps_tac; cbn beta;
  first [ reflexivity
        | apply on_node_reads
        | apply on_display_reads
        | match goal with
          | |- context [match ?x with _ => _ end] => now destruct x
          end ].

Lemma helper_only_reads_lemma (name : string) (w : World) :
  w_scene (snd (_get_segmentation_and_display_node name w)) = w_scene w.
Proof.
  destruct (_get_segmentation_and_display_node name w) as [r w'] eqn:E.
  cbn [snd].
  assert (K : keeps (fun sc => sc) (_get_segmentation_and_display_node name)).
  { unfold _get_segmentation_and_display_node. methods. reads_tac. }
  exact (K _ _ _ E).
Qed.

(** X3. Helper (c) only reads: whatever it returns or raises, and whichever
    remote call fails, the scene, the log and the clock are as before. *)
Theorem helper_only_reads (name : string) (w : World) :
  w_scene (snd (_get_segmentation_and_display_node name w)) = w_scene w /\
  w_log (snd (_get_segmentation_and_display_node name w)) = w_log w /\
  w_ticks (snd (_get_segmentation_and_display_node name w)) = w_ticks w.
Proof.
  split; [apply helper_only_reads_lemma|].
  destruct (_get_segmentation_and_display_node name w) as [r w'] eqn:E.
  cbn [snd]. destruct (silent_helper _ _ _ _ E) as (L & T & _). now split.
Qed.

(** ** The context tools (a) and (b) only read *)

(** X4. [get_node_by_class] and [get_visible_segments] leave the scene as it
    was, whatever they return or raise; the color buffer that
    [GetSegmentColor] fills is the caller's, not the scene's. *)
Theorem context_tools_only_read (w : World) :
  (forall class_name,
      w_scene (snd (get_node_by_class class_name w)) = w_scene w) /\
  (forall segmentation_node,
      w_scene (snd (get_visible_segments segmentation_node w)) = w_scene w).
Proof.
  split.
  - intros c. destruct (get_node_by_class c w) as [r w'] eqn:E. cbn [snd].
    assert (K : keeps (fun sc => sc) (get_node_by_class c)).
    { unfold get_node_by_class. methods. reads_tac. }
    exact (K _ _ _ E).
  - intros p. destruct (get_visible_segments p w) as [r w'] eqn:E. cbn [snd].
    assert (K : keeps (fun sc => sc) (get_visible_segments p)).
    { unfold get_visible_segments. methods. reads_tac. }
    exact (K _ _ _ E).
Qed.

(** ** [center_view] and the scene nodes *)

Lemma center_view_keeps_nodes_lemma : keeps nodes center_view.
Proof.
  unfold center_view, center_view_try. methods. keeps_tac;
    first [ reflexivity | apply on_layout_keeps_nodes ].
Qed.

(** X5. [center_view] never touches a scene node: on the success path and on
    the path through the handler alike, the nodes, their segments and their
    display nodes are as before. *)
Theorem center_view_keeps_nodes (w : World) :
  nodes (w_scene (snd (center_view w))) = nodes (w_scene w).
Proof.
  destruct (center_view w) as [r w'] eqn:E.
  exact (center_view_keeps_nodes_lemma _ _ _ E).
Qed.

(** ** What no operation changes *)

Lemma map_replace_nth {A B} (g : A -> B) (l : list A) (i : nat) (x y : A) :
  nth_error l i = Some y -> g x = g y ->
  map g (replace_nth i x l) = map g l.
Proof.
  revert i; induction l as [|z l IH]; intros [|i] Hn Hg; simpl in *;
    try discriminate.
  - injection Hn as ->. now rewrite Hg.
  - now rewrite (IH _ Hn Hg).
Qed.

Lemma identity_set_visibility (id : string) (v : bool) (segs : list Segment) :
  map segment_identity (set_visibility id v segs) = map segment_identity segs.
Proof.
  unfold set_visibility. rewrite map_map. apply map_ext. intros s.
  now destruct (String.eqb (seg_id s) id).
Qed.

Lemma identity_set_all_visibility (v : bool) (segs : list Segment) :
  map segment_identity (set_all_visibility v segs) = map segment_identity segs.
Proof. unfold set_all_visibility. now rewrite map_map. Qed.

Lemma on_display_keeps_skeleton {A} (attr_name : string) (d : DisplayRef)
      (g : list Segment -> DisplayNode -> A * list Segment * DisplayNode)
      (sc : Scene) :
  (forall segs dn,
      map segment_identity (snd (fst (g segs dn))) = map segment_identity segs) ->
  skeleton (snd (on_display attr_name d g sc)) = skeleton sc.
Proof.
  intros Hg. unfold on_display.
  destruct (nth_error (nodes sc) d) as [n|] eqn:Hn; [|reflexivity].
  destruct (node_display n) as [dn|] eqn:Hd; [|reflexivity].
  destruct (node_segments n) as [segs|] eqn:Hs; [|reflexivity].
  specialize (Hg segs dn). destruct (g segs dn) as [[a segs'] dn'].
  cbn [fst snd] in *. unfold skeleton, set_node. cbn [nodes].
  apply map_replace_nth with (y := n); [exact Hn|].
  unfold node_identity. cbn. now rewrite Hs, Hd, Hg.
Qed.

Lemma on_layout_keeps_skeleton {A} (g : LayoutManager -> A * LayoutManager)
      (sc : Scene) :
  skeleton (snd (on_layout g sc)) = skeleton sc.
Proof. unfold skeleton. now rewrite on_layout_keeps_nodes. Qed.

Ltac skeleton_tac :=
  keeps_tac;
  first [ reflexivity
        | rewrite on_node_reads; reflexivity
        | apply on_layout_keeps_skeleton
        | apply on_display_keeps_skeleton; intros; cbn [fst snd];
          first [ reflexivity
                | apply identity_set_visibility
                | apply identity_set_all_visibility ]
        | match goal with
          | |- context [match ?x with _ => _ end] => now destruct x
          end ].

Lemma invoke_keeps_skeleton (op : Operation) : keeps skeleton (invoke op).
Proof.
  destruct op; cbn [invoke];
    unfold get_node_by_class, get_visible_segments,
      set_all_segments_visibility, set_segments_visibility, center_view,
      center_view_try, _get_segmentation_and_display_node;
    methods; skeleton_tac.
Qed.

(** X6. No operation adds, removes, renames or retypes a scene node, gives
    or takes a display node, or changes the identifier, name or color of a
    segment, whatever it returns or raises and whichever remote call fails:
    the only thing of a node an operation writes is segment visibility (and
    the modification bracket of the display node). *)
Theorem operations_keep_skeleton (op : Operation) (w : World) :
  skeleton (w_scene (snd (invoke op w))) = skeleton (w_scene w).
Proof.
  destruct (invoke op w) as [r w'] eqn:E.
  exact (invoke_keeps_skeleton op _ _ _ E).
Qed.

(** ** Operation (d): what one call does *)

Lemma nth_error_replace_nth_other {A} (l : list A) (i j : nat) (x : A) :
  j <> i -> nth_error (replace_nth i x l) j = nth_error l j.
Proof.
  revert i j; induction l as [|z l IH]; intros [|i] [|j] H; simpl;
    try reflexivity; try contradiction.
  apply IH. congruence.
Qed.

Lemma put_other (h h' : NodeRef) (segs : list Segment) (dn : DisplayNode)
      (n : Node) (sc : Scene) :
  h' <> h ->
  nth_error (nodes (put h segs dn n sc)) h' = nth_error (nodes sc) h'.
Proof. intros H. unfold put, set_node. cbn [nodes]. now apply nth_error_replace_nth_other. Qed.

(** X7. On a node that helper (c) resolves, with its eight remote calls
    answered, operation (d) returns "All segments in <name> are now visible"
    (or "hidden"), gives every segment of that node the requested
    visibility, leaves every other node and the layout manager alone, and
    leaves the display node's DisableModifiedEvent flag as it found it. *)
Theorem set_all_segments_visibility_effect
        (name : string) (visible : bool) (h : NodeRef) (n : Node)
        (segs : list Segment) (dn : DisplayNode) (w : World) :
  refs_where (named name) (w_scene w) = [h] ->
  nth_error (nodes (w_scene w)) h = Some n ->
  is_a "vtkMRMLSegmentationNode" n = true ->
  node_segments n = Some segs ->
  node_display n = Some dn ->
  quiet 8 (w_faults w) = true ->
  exists w' : World,
    set_all_segments_visibility name visible w
    = (Ok ("All segments in " ++ name ++ " are now "
             ++ (if visible then "visible" else "hidden")), w') /\
    visibility_state h w' = Some (map (fun s => (seg_id s, visible)) segs) /\
    (forall h', h' <> h ->
                nth_error (nodes (w_scene w')) h' = nth_error (nodes (w_scene w)) h') /\
    layout (w_scene w') = layout (w_scene w) /\
    option_map DisableModifiedEvent (display_of h w')
    = Some (DisableModifiedEvent dn).
Proof.
  intros Hrefs Hn Hisa Hs Hd Hq.
  exists (after_set_all name h visible segs dn n w).
  split; [|split; [|split; [|split]]].
  - exact (set_all_segments_visibility_run name visible h n segs dn w
             Hrefs Hn Hisa Hs Hd Hq).
  - unfold visibility_state.
    rewrite (segments_after_set_all _ _ _ _ _ _ _ Hn). cbn [option_map].
    now rewrite visibility_set_all.
  - intros h' Hh. unfold after_set_all. projections. now apply put_other.
  - reflexivity.
  - unfold display_of, after_set_all. projections.
    rewrite (put_node _ _ _ _ _ Hn). cbn [node_display set_display option_map].
    unfold display_after_all. now rewrite end_modify_restores.
Qed.

Lemma set_all_segments_visibility_effect_witness :
  exists w' : World,
    set_all_segments_visibility "Segmentation" false sample_world
    = (Ok "All segments in Segmentation are now hidden", w') /\
    visibility_state 1 w'
    = Some [("Segment_1", false); ("Segment_2", false); ("Segment_3", false)] /\
    (forall h', h' <> 1 ->
                nth_error (nodes (w_scene w')) h'
                = nth_error (nodes (w_scene sample_world)) h') /\
    layout (w_scene w') = layout (w_scene sample_world) /\
    option_map DisableModifiedEvent (display_of 1 w') = Some false.
Proof.
  apply (set_all_segments_visibility_effect "Segmentation" false 1
           (mk_node "vtkMRMLSegmentationNode1" "Segmentation"
                    segmentation_classes (Some sample_segments)
                    (Some (mk_display false 0 0)))
           sample_segments (mk_display false 0 0) sample_world);
    reflexivity.
Defined.

Lemma changes_all (v : bool) (segs : list Segment) :
  changes (fun _ => true) v segs
  = existsb (fun s => negb (Bool.eqb (seg_visible s) v)) segs.
Proof.
  unfold changes. induction segs as [|s segs IH]; [reflexivity|].
  cbn [existsb]. now rewrite IH.
Qed.

(** X8. The bracket of operation (d) coalesces the notifications: on a
    display node whose modified events are enabled and none pending,
    observers receive exactly one Modified event when the visibility of some
    segment changed, and none when every segment already had the requested
    visibility; no event stays pending. *)
Theorem set_all_segments_visibility_notifies_once
        (name : string) (visible : bool) (h : NodeRef) (n : Node)
        (segs : list Segment) (dn : DisplayNode) (w : World) :
  refs_where (named name) (w_scene w) = [h] ->
  nth_error (nodes (w_scene w)) h = Some n ->
  is_a "vtkMRMLSegmentationNode" n = true ->
  node_segments n = Some segs ->
  node_display n = Some dn ->
  DisableModifiedEvent dn = false ->
  ModifiedEventPending dn = 0 ->
  quiet 8 (w_faults w) = true ->
  display_of h (snd (set_all_segments_visibility name visible w))
  = Some (mk_display false 0
            (if existsb (fun s => negb (Bool.eqb (seg_visible s) visible)) segs
             then S (ModifiedEvents dn) else ModifiedEvents dn)).
Proof.
  intros Hrefs Hn Hisa Hs Hd Hoff Hpend Hq.
  rewrite (set_all_segments_visibility_run name visible h n segs dn w
             Hrefs Hn Hisa Hs Hd Hq). cbn [snd].
  unfold display_of, after_set_all. projections.
  rewrite (put_node _ _ _ _ _ Hn). cbn [node_display set_display]. f_equal.
  unfold display_after_all, started. rewrite changes_all, Hoff, Hpend.
  now destruct (existsb _ segs).
Qed.

Lemma set_all_segments_visibility_notifies_once_witness :
  display_of 1 (snd (set_all_segments_visibility "Segmentation" true sample_world))
  = Some (mk_display false 0 1).
Proof.
  apply (set_all_segments_visibility_notifies_once "Segmentation" true 1
           (mk_node "vtkMRMLSegmentationNode1" "Segmentation"
                    segmentation_classes (Some sample_segments)
                    (Some (mk_display false 0 0)))
           sample_segments (mk_display false 0 0) sample_world);
    reflexivity.
Defined.

Lemma changes_nothing_after_set_all (v : bool) (segs : list Segment) :
  changes (fun _ => true) v (set_all_visibility v segs) = false.
Proof.
  unfold changes, set_all_visibility.
  induction segs as [|s segs IH]; [reflexivity|].
  cbn [map existsb seg_visible with_visible]. rewrite IH.
  now destruct v.
Qed.

Lemma end_modify_started (previous : bool) (dn : DisplayNode) :
  end_modify (DisableModifiedEvent (end_modify previous dn))
             (started (end_modify previous dn))
  = end_modify previous dn.
Proof.
  unfold end_modify, started. destruct previous; [reflexivity|].
  now destruct (ModifiedEventPending dn).
Qed.

(** X9. Operation (d) is idempotent: a second call with the same flag
    returns normally and leaves the whole scene exactly as the first call
    left it, so it notifies no observer. *)
Theorem set_all_segments_visibility_idempotent
        (name : string) (visible : bool) (h : NodeRef) (n : Node)
        (segs : list Segment) (dn : DisplayNode) (w : World) :
  refs_where (named name) (w_scene w) = [h] ->
  nth_error (nodes (w_scene w)) h = Some n ->
  is_a "vtkMRMLSegmentationNode" n = true ->
  node_segments n = Some segs ->
  node_display n = Some dn ->
  quiet 16 (w_faults w) = true ->
  exists (s1 s2 : string) (w1 w2 : World),
    set_all_segments_visibility name visible w = (Ok s1, w1) /\
    set_all_segments_visibility name visible w1 = (Ok s2, w2) /\
    w_scene w2 = w_scene w1.
Proof.
  intros Hrefs Hn Hisa Hs Hd Hq.
  pose proof (set_all_segments_visibility_run name visible h n segs dn w
                Hrefs Hn Hisa Hs Hd (quiet_le 8 16 _ ltac:(lia) Hq)) as R1.
  set (w1 := after_set_all name h visible segs dn n w) in *.
  set (segs1 := set_all_visibility visible segs).
  set (dn1 := display_after_all visible segs dn).
  set (n1 := set_display dn1 (set_segments segs1 n)).
  assert (Hsc1 : w_scene w1 = put h segs1 dn1 n (w_scene w)) by reflexivity.
  assert (Hn1 : nth_error (nodes (w_scene w1)) h = Some n1).
  { rewrite Hsc1. now apply put_node. }
  assert (Hrefs1 : refs_where (named name) (w_scene w1) = [h]).
  { rewrite Hsc1, refs_where_put; assumption. }
  assert (Hq1 : quiet 8 (w_faults w1) = true).
  { unfold w1, after_set_all, resolved.
    cbn [w_faults logged tick after_call]. do 8 apply quiet_tl. exact Hq. }
  pose proof (set_all_segments_visibility_run name visible h n1 segs1 dn1 w1
                Hrefs1 Hn1 Hisa eq_refl eq_refl Hq1) as R2.
  eexists. eexists. exists w1. eexists.
  split; [exact R1|]. split; [exact R2|].
  unfold after_set_all at 1. projections. rewrite Hsc1.
  unfold n1. unfold put at 1. rewrite put_put.
  unfold segs1 at 1. rewrite set_all_visibility_twice. fold segs1.
  f_equal. unfold display_after_all at 1.
  unfold segs1 at 1. rewrite changes_nothing_after_set_all.
  cbn [modified_if]. unfold dn1, display_after_all.
  apply end_modify_started.
Qed.

Lemma set_all_segments_visibility_idempotent_witness :
  exists (s1 s2 : string) (w1 w2 : World),
    set_all_segments_visibility "Segmentation" true sample_world = (Ok s1, w1) /\
    set_all_segments_visibility "Segmentation" true w1 = (Ok s2, w2) /\
    w_scene w2 = w_scene w1.
Proof.
  apply (set_all_segments_visibility_idempotent "Segmentation" true 1
           (mk_node "vtkMRMLSegmentationNode1" "Segmentation"
                    segmentation_classes (Some sample_segments)
                    (Some (mk_display false 0 0)))
           sample_segments (mk_display false 0 0) sample_world);
    reflexivity.
Defined.

(** ** Failures propagate and leave no line in the log *)

Lemma helper_emits_reads (name : string) :
  emits (fun c => is_write_call c = false /\ is_layoutManager_call c = false)
        (_get_segmentation_and_display_node name).
Proof.
  unfold _get_segmentation_and_display_node. methods. emits_tac; now split.
Qed.

(** X10. Operations (d) and (e) are fail-fast on the resolution: when helper
    (c) raises, each of them raises the same exception from the same world,
    in which the scene and the log are untouched, no modification bracket
    was opened, no visibility written and [center_view] not started. *)
Theorem resolution_failure_propagates
        (name : string) (names : list string) (visible : bool)
        (w w1 : World) (e : exn) :
  _get_segmentation_and_display_node name (tick w) = (Raise e, w1) ->
  set_all_segments_visibility name visible w = (Raise e, w1) /\
  set_segments_visibility name names visible w = (Raise e, w1) /\
  w_scene w1 = w_scene w /\
  w_log w1 = w_log w /\
  Forall (fun c => is_write_call c = false /\ is_layoutManager_call c = false)
         (calls_since w w1).
Proof.
  intros H.
  split; [|split; [|split; [|split]]].
  - unfold set_all_segments_visibility. rewrite bind_time.
    now apply bind_raise.
  - unfold set_segments_visibility. rewrite bind_time.
    now apply bind_raise.
  - pose proof (helper_only_reads_lemma name (tick w)) as K.
    rewrite H in K. exact K.
  - now destruct (silent_helper _ _ _ _ H) as (L & _).
  - destruct (helper_emits_reads name _ _ _ H) as (evs & T & F & _).
    unfold calls_since. cbn [w_trace tick] in T.
    rewrite T, skipn_own_app. now apply Forall_map.
Qed.

Lemma resolution_failure_propagates_witness :
  set_all_segments_visibility "Missing" true sample_world
  = (Raise (mk_exn ValueError "Expected exactly one node named 'Missing', found 0"),
     snd (_get_segmentation_and_display_node "Missing" (tick sample_world))) /\
  set_segments_visibility "Missing" ["liver"] true sample_world
  = (Raise (mk_exn ValueError "Expected exactly one node named 'Missing', found 0"),
     snd (_get_segmentation_and_display_node "Missing" (tick sample_world))) /\
  w_scene (snd (_get_segmentation_and_display_node "Missing" (tick sample_world)))
  = w_scene sample_world /\
  w_log (snd (_get_segmentation_and_display_node "Missing" (tick sample_world)))
  = w_log sample_world /\
  Forall (fun c => is_write_call c = false /\ is_layoutManager_call c = false)
         (calls_since sample_world
            (snd (_get_segmentation_and_display_node "Missing"
                    (tick sample_world)))).
Proof.
  apply (resolution_failure_propagates "Missing" ["liver"] true sample_world
           (snd (_get_segmentation_and_display_node "Missing" (tick sample_world)))
           (mk_exn ValueError "Expected exactly one node named 'Missing', found 0")).
  reflexivity.
Defined.





(** ** Operation (e): which segments it writes *)

Lemma find_map {A B} (p : B -> bool) (g : A -> B) (l : list A) :
  find p (map g l) = option_map g (find (fun x => p (g x)) l).
Proof.
  induction l as [|x l IH]; [reflexivity|]. cbn [map find].
  now destruct (p (g x)).
Qed.

Lemma existsb_ext_in {A} (f g : A -> bool) (l : list A) :
  (forall x, In x l -> f x = g x) -> existsb f l = existsb g l.
Proof.
  induction l as [|x l IH]; intros H; [reflexivity|]. cbn [existsb].
  rewrite (H x (or_introl eq_refl)), IH; [reflexivity|].
  intros y Hy. apply H. now right.
Qed.

Lemma find_pointwise {A} (f g : A -> bool) (l : list A) :
  (forall x, f x = g x) -> find f l = find g l.
Proof.
  intros H. induction l as [|x l IH]; [reflexivity|]. cbn [find].
  now rewrite H, IH.
Qed.

(** Writing visibility keeps the name-to-identifier resolution. *)
Lemma segment_id_of_map (g : Segment -> Segment) (segs : list Segment)
      (name : string) :
  (forall s, seg_name (g s) = seg_name s /\ seg_id (g s) = seg_id s) ->
  segment_id_of (map g segs) name = segment_id_of segs name.
Proof.
  intros Hg. unfold segment_id_of. rewrite find_map.
  rewrite (find_pointwise (fun x => String.eqb (seg_name (g x)) name)
                          (fun x => String.eqb (seg_name x) name)).
  - destruct (find _ segs) as [s|]; [|reflexivity]. cbn. apply Hg.
  - intros s. now destruct (Hg s) as [-> _].
Qed.

Lemma segment_id_of_set_visibility (id : string) (v : bool)
      (segs : list Segment) (name : string) :
  segment_id_of (set_visibility id v segs) name = segment_id_of segs name.
Proof.
  unfold set_visibility. apply segment_id_of_map.
  intros s. now destruct (String.eqb (seg_id s) id).
Qed.

Lemma requested_set_visibility (id : string) (v : bool) (segs : list Segment)
      (names : list string) (s : Segment) :
  requested (set_visibility id v segs) names s = requested segs names s.
Proof.
  unfold requested. apply existsb_ext_in. intros name _.
  now rewrite segment_id_of_set_visibility.
Qed.

Lemma shown_nil (v : bool) (segs : list Segment) : shown v segs [] = segs.
Proof. unfold shown. cbn. apply map_id. Qed.

(** The loop of operation (e), one name after the other, gives [shown]. *)
Lemma show_steps_shown (v : bool) (names : list string) :
  forall (segs : list Segment) (d : DisplayNode),
    fst (show_steps v names (segs, d)) = shown v segs names.
Proof.
  unfold show_steps.
  induction names as [|name names IH]; intros segs d.
  - cbn. now rewrite shown_nil.
  - cbn [fold_left]. unfold show_step at 2. cbn [fst snd]. rewrite IH.
    unfold shown, set_visibility. rewrite map_map. apply map_ext.
    intros s. fold (set_visibility (segment_id_of segs name) v segs).
    rewrite requested_set_visibility.
    unfold requested at 2. cbn [existsb].
    destruct (String.eqb (seg_id s) (segment_id_of segs name)) eqn:E.
    + cbn [orb].
      replace (requested segs names (with_visible v s))
        with (requested segs names s) by reflexivity.
      now destruct (requested segs names s).
    + reflexivity.
Qed.

(** Where operation (e) ends when the remote calls up to [EndModify] are
    answered: [center_view] has run from [before_center_view] and kept the
    nodes, whether it returned or let an exception through. *)
Lemma set_segments_visibility_final
      (name : string) (names : list string) (visible : bool) (h : NodeRef)
      (n : Node) (segs : list Segment) (dn : DisplayNode) (w : World) :
  refs_where (named name) (w_scene w) = [h] ->
  nth_error (nodes (w_scene w)) h = Some n ->
  is_a "vtkMRMLSegmentationNode" n = true ->
  node_segments n = Some segs ->
  node_display n = Some dn ->
  quiet (8 + 2 * length names) (w_faults w) = true ->
  exists (r : result string) (w' : World),
    set_segments_visibility name names visible w = (r, w') /\
    returns_unless_interrupted (segments_sentence name names visible) r /\
    nodes (w_scene w')
    = nodes (w_scene (before_center_view name names visible h segs dn n w)).
Proof.
  intros Hrefs Hn Hisa Hs Hd Hq.
  set (wb := before_center_view name names visible h segs dn n w).
  rewrite (set_segments_visibility_run name names visible h n segs dn w
             Hrefs Hn Hisa Hs Hd Hq).
  fold wb. destruct (center_view wb) as [[s|e] wc] eqn:Hc.
  - rewrite (bind_ok _ _ _ _ _ Hc), bind_time, bind_log.
    eexists. eexists. split; [reflexivity|]. split; [now left|].
    projections. exact (center_view_keeps_nodes_lemma _ _ _ Hc).
  - rewrite (bind_raise _ _ _ _ _ Hc).
    eexists. eexists. split; [reflexivity|]. split.
    + right. exists e. split; [reflexivity|].
      exact (center_view_outcome _ _ _ Hc).
    + exact (center_view_keeps_nodes_lemma _ _ _ Hc).
Qed.

Lemma before_center_view_node
      (name : string) (names : list string) (visible : bool) (h : NodeRef)
      (n : Node) (segs : list Segment) (dn : DisplayNode) (w : World) :
  nth_error (nodes (w_scene w)) h = Some n ->
  nth_error (nodes (w_scene (before_center_view name names visible h segs dn n w))) h
  = Some (set_display
            (end_modify (DisableModifiedEvent dn)
                        (snd (show_steps visible names (segs, started dn))))
            (set_segments (shown visible segs names) n)).
Proof.
  intros Hn. unfold before_center_view. projections.
  rewrite (put_node _ _ _ _ _ Hn). now rewrite show_steps_shown.
Qed.

(** X12. On a node that helper (c) resolves, with the remote calls up to
    [EndModify] answered, operation (e) gives the requested visibility to
    exactly the segments that a requested name resolves to (for a name that
    several segments share, the first of them only) and leaves every other
    segment, and every other node, as it was, whatever [center_view] does
    afterwards; it returns its sentence unless an exception that is no
    [Exception] leaves [center_view]. *)
Theorem set_segments_visibility_writes_requested
        (name : string) (names : list string) (visible : bool) (h : NodeRef)
        (n : Node) (segs : list Segment) (dn : DisplayNode) (w : World) :
  refs_where (named name) (w_scene w) = [h] ->
  nth_error (nodes (w_scene w)) h = Some n ->
  is_a "vtkMRMLSegmentationNode" n = true ->
  node_segments n = Some segs ->
  node_display n = Some dn ->
  quiet (8 + 2 * length names) (w_faults w) = true ->
  exists (r : result string) (w' : World),
    set_segments_visibility name names visible w = (r, w') /\
    returns_unless_interrupted (segments_sentence name names visible) r /\
    segments_of h w'
    = Some (map (fun s =>
                   if requested segs names s then with_visible visible s else s)
                segs) /\
    (forall h', h' <> h ->
                nth_error (nodes (w_scene w')) h' = nth_error (nodes (w_scene w)) h').
Proof.
  intros Hrefs Hn Hisa Hs Hd Hq.
  destruct (set_segments_visibility_final name names visible h n segs dn w
              Hrefs Hn Hisa Hs Hd Hq) as (r & w' & R & U & N).
  exists r, w'. split; [exact R|]. split; [exact U|]. split.
  - unfold segments_of. rewrite N, (before_center_view_node _ _ _ _ _ _ _ _ Hn).
    reflexivity.
  - intros h' Hh. rewrite N. unfold before_center_view. projections.
    now apply put_other.
Qed.

Lemma set_segments_visibility_writes_requested_witness :
  exists (r : result string) (w' : World),
    set_segments_visibility "Dup" ["lesion"] false duplicate_world = (r, w') /\
    returns_unless_interrupted "Segments lesion in Dup are now hidden" r /\
    segments_of 0 w'
    = Some [ mk_segment "Segment_1" "lesion" (one, zero, zero) false;
             mk_segment "Segment_2" "lesion" (zero, one, zero) true;
             mk_segment "Segment_3" "organ" (zero, zero, one) true ] /\
    (forall h', h' <> 0 ->
                nth_error (nodes (w_scene w')) h'
                = nth_error (nodes (w_scene duplicate_world)) h').
Proof.
  apply (set_segments_visibility_writes_requested "Dup" ["lesion"] false 0
           (mk_node "vtkMRMLSegmentationNode5" "Dup" segmentation_classes
                    (Some duplicate_segments) (Some (mk_display false 0 0)))
           duplicate_segments (mk_display false 0 0) duplicate_world);
    reflexivity.
Defined.

Lemma segment_id_of_unknown (segs : list Segment) (name : string) :
  (forall s, In s segs -> seg_name s <> name) -> segment_id_of segs name = "".
Proof.
  intros H. unfold segment_id_of.
  destruct (find (fun s => String.eqb (seg_name s) name) segs) as [s|] eqn:F;
    [|reflexivity].
  apply find_some in F as [Hin E]. apply String.eqb_eq in E.
  now elim (H s Hin).
Qed.

(** X13. Names that no segment carries are silently accepted: when no
    requested name is the name of a segment (and no segment has the empty
    identifier that such a name resolves to), operation (e) raises no error
    of its own and still returns the confirmation for those names (unless
    an exception that is no [Exception] leaves [center_view]), and every
    segment of the node is exactly as it was. *)
Theorem set_segments_visibility_unknown_names
        (name : string) (names : list string) (visible : bool) (h : NodeRef)
        (n : Node) (segs : list Segment) (dn : DisplayNode) (w : World) :
  refs_where (named name) (w_scene w) = [h] ->
  nth_error (nodes (w_scene w)) h = Some n ->
  is_a "vtkMRMLSegmentationNode" n = true ->
  node_segments n = Some segs ->
  node_display n = Some dn ->
  (forall s requested_name,
      In s segs -> In requested_name names -> seg_name s <> requested_name) ->
  (forall s, In s segs -> seg_id s <> "") ->
  quiet (8 + 2 * length names) (w_faults w) = true ->
  exists (r : result string) (w' : World),
    set_segments_visibility name names visible w = (r, w') /\
    returns_unless_interrupted
      ("Segments " ++ join ", " names ++ " in " ++ name ++ " are now "
         ++ (if visible then "visible" else "hidden")) r /\
    segments_of h w' = Some segs.
Proof.
  intros Hrefs Hn Hisa Hs Hd Hunknown Hid Hq.
  destruct (set_segments_visibility_final name names visible h n segs dn w
              Hrefs Hn Hisa Hs Hd Hq) as (r & w' & R & U & N).
  exists r, w'. split; [exact R|]. split; [exact U|].
  unfold segments_of. rewrite N, (before_center_view_node _ _ _ _ _ _ _ _ Hn).
  cbn [node_segments set_display set_segments]. f_equal.
  unfold shown. rewrite <- (map_id segs) at 2. apply map_ext_in.
  intros s Hin.
  assert (Hreq : requested segs names s = false).
  { unfold requested. apply not_true_is_false. intros E.
    apply existsb_exists in E as (nm & Hnm & E).
    apply String.eqb_eq in E.
    rewrite segment_id_of_unknown in E.
    - exact (Hid s Hin E).
    - intros s' Hs'. exact (Hunknown s' nm Hs' Hnm). }
  now rewrite Hreq.
Qed.

Lemma set_segments_visibility_unknown_names_witness :
  exists (r : result string) (w' : World),
    set_segments_visibility "Segmentation" ["kidney"; "Liver"] false sample_world
    = (r, w') /\
    returns_unless_interrupted
      "Segments kidney, Liver in Segmentation are now hidden" r /\
    segments_of 1 w' = Some sample_segments.
Proof.
  apply (set_segments_visibility_unknown_names "Segmentation"
           ["kidney"; "Liver"] false 1
           (mk_node "vtkMRMLSegmentationNode1" "Segmentation"
                    segmentation_classes (Some sample_segments)
                    (Some (mk_display false 0 0)))
           sample_segments (mk_display false 0 0) sample_world);
    try reflexivity.
  - intros s nm Hs Hnm.
    repeat (destruct Hs as [<-|Hs]; [repeat (destruct Hnm as [<-|Hnm];
              [discriminate|]); contradiction|]).
    contradiction.
  - intros s Hs.
    repeat (destruct Hs as [<-|Hs]; [discriminate|]). contradiction.
Defined.

(** ** Operation (e): one notification for the whole list *)

Lemma existsb_over_map {A B} (p : B -> bool) (g : A -> B) (l : list A) :
  existsb p (map g l) = existsb (fun x => p (g x)) l.
Proof.
  induction l as [|x l IH]; [reflexivity|]. cbn [map existsb]. now rewrite IH.
Qed.

Lemma requested_cons (segs : list Segment) (name : string)
      (names : list string) (s : Segment) :
  requested segs (name :: names) s
  = String.eqb (seg_id s) (segment_id_of segs name) || requested segs names s.
Proof. reflexivity. Qed.

(** In the bracket the loop only counts: the flag stays set, nothing is
    delivered, and an event is pending exactly when some requested segment
    did not have the visibility yet. *)
Lemma show_steps_pending (v : bool) (names : list string) :
  forall (segs : list Segment) (d : DisplayNode),
    DisableModifiedEvent d = true ->
    DisableModifiedEvent (snd (show_steps v names (segs, d))) = true /\
    ModifiedEvents (snd (show_steps v names (segs, d))) = ModifiedEvents d /\
    ModifiedEventPending d
    <= ModifiedEventPending (snd (show_steps v names (segs, d))) /\
    (ModifiedEventPending (snd (show_steps v names (segs, d)))
     = ModifiedEventPending d <-> any_change v segs names = false).
Proof.
  unfold show_steps.
  induction names as [|name names IH]; intros segs d Hd.
  - cbn [fold_left snd]. repeat split; try easy.
    intros _. unfold any_change, requested. cbn [existsb andb].
    now induction segs.
  - cbn [fold_left]. unfold show_step at 2 4 6 8. cbn [fst snd].
    set (id := segment_id_of segs name).
    set (ch := changes (fun s => String.eqb (seg_id s) id) v segs).
    set (segs1 := set_visibility id v segs).
    assert (Hd1 : DisableModifiedEvent (modified_if ch d) = true).
    { unfold modified_if, Modified. destruct ch; [|exact Hd]. now rewrite Hd. }
    destruct (IH segs1 (modified_if ch d) Hd1) as (F & E & P & Q).
    assert (Hrel : any_change v segs1 names
                   = existsb (fun s => requested segs names s
                                       && (if String.eqb (seg_id s) id then false
                                           else negb (Bool.eqb (seg_visible s) v)))
                             segs).
    { unfold any_change, segs1 at 2, set_visibility. rewrite existsb_over_map.
      apply existsb_ext_in. intros s _.
      fold (set_visibility id v segs). fold segs1. unfold segs1 at 1.
      rewrite requested_set_visibility.
      destruct (String.eqb (seg_id s) id) eqn:Es.
      - replace (requested segs names (with_visible v s))
          with (requested segs names s) by reflexivity.
        cbn [seg_visible with_visible]. rewrite Bool.eqb_reflx. reflexivity.
      - reflexivity. }
    split; [exact F|]. split.
    { rewrite E. unfold modified_if, Modified. destruct ch; [|reflexivity].
      now rewrite Hd. }
    destruct ch eqn:Hch.
    + assert (Hp : ModifiedEventPending (modified_if true d)
                   = S (ModifiedEventPending d)).
      { unfold modified_if, Modified. now rewrite Hd. }
      rewrite Hp in P, Q. split; [lia|]. split; [lia|].
      intros Hnone. exfalso.
      unfold ch, changes in Hch. apply existsb_exists in Hch as (s & Hin & Hs).
      apply andb_true_iff in Hs as [Hs1 Hs2].
      assert (Hany : any_change v segs (name :: names) = true).
      { unfold any_change. apply existsb_exists. exists s. split; [exact Hin|].
        rewrite requested_cons. fold id. now rewrite Hs1, Hs2. }
      congruence.
    + cbn [modified_if] in *. split; [exact P|].
      rewrite Q, Hrel. unfold any_change.
      assert (Hsame : existsb
                        (fun s => requested segs names s
                                  && (if String.eqb (seg_id s) id then false
                                      else negb (Bool.eqb (seg_visible s) v)))
                        segs
                      = existsb
                          (fun s => requested segs (name :: names) s
                                    && negb (Bool.eqb (seg_visible s) v))
                          segs).
      { apply existsb_ext_in. intros s Hin. rewrite requested_cons. fold id.
        destruct (String.eqb (seg_id s) id) eqn:Es; [|reflexivity].
        cbn [orb].
        assert (Hno : negb (Bool.eqb (seg_visible s) v) = false).
        { unfold ch, changes in Hch.
          destruct (negb (Bool.eqb (seg_visible s) v)) eqn:Ev; [|reflexivity].
          exfalso.
          assert (T : existsb
                        (fun s0 => String.eqb (seg_id s0) id
                                   && negb (Bool.eqb (seg_visible s0) v)) segs
                      = true).
          { apply existsb_exists. exists s. split; [exact Hin|].
            now rewrite Es, Ev. }
          congruence. }
        rewrite Hno. now rewrite !andb_false_r. }
      now rewrite Hsame.
Qed.

(** X14. However many names are given, the bracket of operation (e)
    coalesces the notifications: on a display node whose modified events are
    enabled and none pending, observers receive exactly one Modified event
    when some requested segment changed visibility and none otherwise, the
    flag is restored and nothing stays pending. *)
Theorem set_segments_visibility_notifies_once
        (name : string) (names : list string) (visible : bool) (h : NodeRef)
        (n : Node) (segs : list Segment) (dn : DisplayNode) (w : World) :
  refs_where (named name) (w_scene w) = [h] ->
  nth_error (nodes (w_scene w)) h = Some n ->
  is_a "vtkMRMLSegmentationNode" n = true ->
  node_segments n = Some segs ->
  node_display n = Some dn ->
  DisableModifiedEvent dn = false ->
  ModifiedEventPending dn = 0 ->
  quiet (8 + 2 * length names) (w_faults w) = true ->
  display_of h (snd (set_segments_visibility name names visible w))
  = Some (mk_display false 0
            (if any_change visible segs names
             then S (ModifiedEvents dn) else ModifiedEvents dn)).
Proof.
  intros Hrefs Hn Hisa Hs Hd Hoff Hpend Hq.
  destruct (set_segments_visibility_final name names visible h n segs dn w
              Hrefs Hn Hisa Hs Hd Hq) as (r & w' & R & _ & N).
  rewrite R. cbn [snd]. unfold display_of.
  rewrite N, (before_center_view_node _ _ _ _ _ _ _ _ Hn).
  cbn [node_display set_display]. f_equal.
  destruct (show_steps_pending visible names segs (started dn) eq_refl)
    as (_ & E & _ & Q).
  cbn [ModifiedEvents ModifiedEventPending started] in E, Q.
  rewrite Hpend in Q. rewrite Hoff. unfold end_modify. rewrite E.
  destruct (ModifiedEventPending
              (snd (show_steps visible names (segs, started dn)))) as [|p] eqn:P.
  - now rewrite (proj1 Q eq_refl).
  - destruct (any_change visible segs names); [reflexivity|].
    now specialize (proj2 Q eq_refl).
Qed.

Lemma set_segments_visibility_notifies_once_witness :
  display_of 1
    (snd (set_segments_visibility "Segmentation" ["liver"; "tumor"; "spleen"]
                                  false sample_world))
  = Some (mk_display false 0 1).
Proof.
  apply (set_segments_visibility_notifies_once "Segmentation"
           ["liver"; "tumor"; "spleen"] false 1
           (mk_node "vtkMRMLSegmentationNode1" "Segmentation"
                    segmentation_classes (Some sample_segments)
                    (Some (mk_display false 0 0)))
           sample_segments (mk_display false 0 0) sample_world);
    reflexivity.
Defined.

(** ** Operation (f): what a successful run does to the views *)

Lemma centered_views (lm : LayoutManager) :
  centered lm
  = mk_layout (has_threeDWidget lm) (slice_widgets lm)
              (if has_threeDWidget lm then S (focal_resets lm)
               else focal_resets lm)
              (fitted lm ++ filter (fun name =>
                                      existsb (String.eqb name) (slice_widgets lm))
                                   ["Red"; "Yellow"; "Green"]).
Proof.
  destruct lm as [has slices resets fit].
  unfold centered, fit_slice, reset_view. cbn [has_threeDWidget].
  destruct has; cbn [slice_widgets has_threeDWidget focal_resets fitted filter];
    destruct (existsb (String.eqb "Red") slices);
    cbn [slice_widgets has_threeDWidget focal_resets fitted];
    destruct (existsb (String.eqb "Yellow") slices);
    cbn [slice_widgets has_threeDWidget focal_resets fitted];
    destruct (existsb (String.eqb "Green") slices);
    cbn [slice_widgets has_threeDWidget focal_resets fitted];
    rewrite <- ?app_assoc, ?app_nil_r; reflexivity.
Qed.

(** X15. With a layout manager and every remote call answered,
    [center_view] resets the focal point of the 3D view once when there is a
    3D widget (and not at all when there is none), fits the Red, Yellow and
    Green slice views that exist, in that order, and no other slice view;
    missing widgets are skipped without an error. *)
Theorem center_view_centers_existing_views (lm : LayoutManager) (w : World) :
  layout (w_scene w) = Some lm ->
  quiet 13 (w_faults w) = true ->
  exists w' : World,
    center_view w = (Ok "Successfully centered all views", w') /\
    layout (w_scene w')
    = Some (mk_layout (has_threeDWidget lm) (slice_widgets lm)
                      (if has_threeDWidget lm then S (focal_resets lm)
                       else focal_resets lm)
                      (fitted lm
                         ++ filter (fun name =>
                                      existsb (String.eqb name) (slice_widgets lm))
                                   ["Red"; "Yellow"; "Green"])).
Proof.
  intros Hl Hq.
  destruct (center_view_succeeds lm w Hl Hq) as (w' & R & L & _).
  exists w'. split; [exact R|]. now rewrite L, centered_views.
Qed.

Lemma center_view_centers_existing_views_witness :
  exists w' : World,
    center_view partial_layout_world
    = (Ok "Successfully centered all views", w') /\
    layout (w_scene w')
    = Some (mk_layout false ["Green"; "Slice4"; "Red"] 0 ["Red"; "Green"]).
Proof.
  apply (center_view_centers_existing_views
           (mk_layout false ["Green"; "Slice4"; "Red"] 0 [])
           partial_layout_world); reflexivity.
Defined.

(** ** Operation (b): a node without display node *)

(** X16. [get_visible_segments] does not check the display node as helper
    (c) does: for a node without display node it raises the [AttributeError]
    of the method call on [None], after two remote calls and without a line
    in the log. *)
Theorem get_visible_segments_without_display
        (pattern : string) (h : NodeRef) (others : list NodeRef) (n : Node)
        (w : World) :
  refs_where (matches pattern) (w_scene w) = h :: others ->
  nth_error (nodes (w_scene w)) h = Some n ->
  node_display n = None ->
  quiet 2 (w_faults w) = true ->
  exists w' : World,
    get_visible_segments pattern w
    = (Raise (mk_exn AttributeError
                "'NoneType' object has no attribute 'GetVisibleSegmentIDs'"),
       w') /\
    calls_since w w'
    = [call_slicer_util_getNode pattern; call_GetDisplayNode h] /\
    w_log w' = w_log w.
Proof.
  intros Hrefs Hn Hd Hq.
  eexists. split; [|split].
  - unfold get_visible_segments. rewrite bind_time.
    call Hq. rewrite Hrefs.
    call Hq. unfold on_node at 1. rewrite Hn, Hd. reflexivity.
  - unfold calls_since. cbn [w_trace after_call tick].
    rewrite <- !app_assoc. now rewrite skipn_own_app.
  - reflexivity.
Qed.

Lemma get_visible_segments_without_display_witness :
  exists w' : World,
    get_visible_segments "Orphan" orphan_world
    = (Raise (mk_exn AttributeError
                "'NoneType' object has no attribute 'GetVisibleSegmentIDs'"),
       w') /\
    calls_since orphan_world w'
    = [call_slicer_util_getNode "Orphan"; call_GetDisplayNode 0] /\
    w_log w' = w_log orphan_world.
Proof.
  apply (get_visible_segments_without_display "Orphan" 0 []
           (mk_node "vtkMRMLSegmentationNode9" "Orphan" segmentation_classes
                    (Some sample_segments) None)
           orphan_world); reflexivity.
Defined.

(** ** Operations (d) and (b) together *)

Lemma filter_visible_set_all (v : bool) (segs : list Segment) :
  filter seg_visible (set_all_visibility v segs)
  = if v then set_all_visibility true segs else [].
Proof.
  unfold set_all_visibility.
  induction segs as [|s segs IH]; [now destruct v|].
  cbn [map filter seg_visible with_visible]. rewrite IH. now destruct v.
Qed.

Lemma rgb_entry_set_all (v : bool) (segs : list Segment) :
  map rgb_entry (set_all_visibility v segs) = map rgb_entry segs.
Proof. unfold set_all_visibility. now rewrite map_map. Qed.

Lemma length_filter_le {A} (p : A -> bool) (l : list A) :
  length (filter p l) <= length l.
Proof.
  induction l as [|x l IH]; [reflexivity|]. cbn [filter].
  destruct (p x); cbn [length]; lia.
Qed.

(** X17. What operation (d) writes is what operation (b) reads: after
    "show all" on a resolved node, [get_visible_segments] lists the entry of
    every segment of the node, in segmentation order; after "hide all" it
    returns the sentence with the empty list. *)
Theorem get_visible_segments_after_set_all
        (name : string) (visible : bool) (h : NodeRef) (others : list NodeRef)
        (n : Node) (segs : list Segment) (dn : DisplayNode) (w : World) :
  refs_where (named name) (w_scene w) = [h] ->
  refs_where (matches name) (w_scene w) = h :: others ->
  nth_error (nodes (w_scene w)) h = Some n ->
  is_a "vtkMRMLSegmentationNode" n = true ->
  node_segments n = Some segs ->
  node_display n = Some dn ->
  NoDup (map seg_id segs) ->
  quiet (11 + 4 * length segs) (w_faults w) = true ->
  exists (s1 : string) (w1 : World),
    set_all_segments_visibility name visible w = (Ok s1, w1) /\
    fst (get_visible_segments name w1)
    = Ok ("The segmentation node " ++ name
            ++ " contains the following visible segments: "
            ++ join "," (if visible then map rgb_entry segs else [])).
Proof.
  intros Hrefs Hmatch Hn Hisa Hs Hd Hnd Hq.
  pose proof (set_all_segments_visibility_run name visible h n segs dn w
                Hrefs Hn Hisa Hs Hd
                (quiet_le 8 (11 + 4 * length segs) _ ltac:(lia) Hq)) as R1.
  set (w1 := after_set_all name h visible segs dn n w) in *.
  set (segs1 := set_all_visibility visible segs).
  set (dn1 := display_after_all visible segs dn).
  set (n1 := set_display dn1 (set_segments segs1 n)).
  assert (Hsc1 : w_scene w1 = put h segs1 dn1 n (w_scene w)) by reflexivity.
  assert (Hn1 : nth_error (nodes (w_scene w1)) h = Some n1).
  { rewrite Hsc1. now apply put_node. }
  assert (Hmatch1 : refs_where (matches name) (w_scene w1) = h :: others).
  { rewrite Hsc1. unfold refs_where, put, set_node. cbn [nodes].
    rewrite (refs_from_replace (matches name) _ _ _ n
               (set_display dn1 (set_segments segs1 n)) Hn eq_refl).
    exact Hmatch. }
  assert (Hlen : length segs1 = length segs).
  { unfold segs1, set_all_visibility. apply length_map. }
  assert (Hq1 : quiet (3 + 4 * length (filter seg_visible segs1)) (w_faults w1)
                = true).
  { apply (quiet_le _ (3 + 4 * length segs)).
    - pose proof (length_filter_le seg_visible segs1). lia.
    - unfold w1, after_set_all, resolved.
      cbn [w_faults logged tick after_call]. do 8 apply quiet_tl. exact Hq. }
  assert (Hfind : forall s, In s (filter seg_visible segs1) ->
                            find_segment (seg_id s) segs1 = Some s).
  { intros s Hin. apply find_segment_unique.
    - unfold segs1, set_all_visibility. now rewrite map_map.
    - now apply filter_In in Hin as [Hin _]. }
  eexists. exists w1. split; [exact R1|].
  rewrite (get_visible_segments_run name h others n1 segs1 dn1 w1
             Hmatch1 Hn1 eq_refl eq_refl Hfind Hq1).
  unfold visible_sentence, segs1. rewrite filter_visible_set_all.
  destruct visible; [|reflexivity]. now rewrite rgb_entry_set_all.
Qed.

Lemma get_visible_segments_after_set_all_witness :
  exists (s1 : string) (w1 : World),
    set_all_segments_visibility "Segmentation" true sample_world = (Ok s1, w1) /\
    fst (get_visible_segments "Segmentation" w1)
    = Ok ("The segmentation node Segmentation"
            ++ " contains the following visible segments: "
            ++ join "," [ "liver (Color: RGB(1.00, 0.00, 0.00)";
                          "spleen (Color: RGB(0.00, 0.50, 0.00)";
                          "tumor (Color: RGB(0.50, 0.50, 1.00)" ]).
Proof.
  apply (get_visible_segments_after_set_all "Segmentation" true 1 []
           (mk_node "vtkMRMLSegmentationNode1" "Segmentation"
                    segmentation_classes (Some sample_segments)
                    (Some (mk_display false 0 0)))
           sample_segments (mk_display false 0 0) sample_world);
    try reflexivity.
  repeat constructor; cbn; intuition discriminate.
Defined.

(** ** What [:.Nf] prints *)

Lemma round_half_even_nearest (num den : Z) :
  (0 < den)%Z ->
  (2 * Z.abs (round_half_even num den * den - num) <= den)%Z /\
  ((2 * Z.abs (round_half_even num den * den - num) = den)%Z ->
   Z.even (round_half_even num den) = true).
Proof.
  intros Hden. unfold round_half_even.
  pose proof (Z.div_mod num den ltac:(lia)) as Hdm.
  pose proof (Z.mod_pos_bound num den Hden) as Hr.
  set (q := (num / den)%Z) in *. set (r := (num mod den)%Z) in *.
  assert (E1 : (q * den - num = - r)%Z) by lia.
  assert (E2 : ((q + 1) * den - num = den - r)%Z) by lia.
  destruct (Z.compare_spec (2 * r) den) as [Heq|Hlt|Hgt].
  - destruct (Z.even q) eqn:Hev.
    + rewrite E1. split; [lia|]. intros _. exact Hev.
    + rewrite E2. split; [lia|]. intros _.
      replace (q + 1)%Z with (Z.succ q) by lia.
      rewrite Z.even_succ, <- Z.negb_even, Hev. reflexivity.
  - rewrite E1. split; lia.
  - rewrite E2. split; lia.
Qed.

Lemma round_half_even_nonneg (num den : Z) :
  (0 <= num)%Z -> (0 < den)%Z -> (0 <= round_half_even num den)%Z.
Proof.
  intros Hn Hd. unfold round_half_even.
  pose proof (Z.div_pos num den Hn Hd).
  destruct (2 * (num mod den) ?= den)%Z; [destruct (Z.even _)| |]; lia.
Qed.

Lemma scaled_nonneg (p : nat) (m : positive) (e : Z) : (0 <= scaled p m e)%Z.
Proof.
  unfold scaled. destruct (0 <=? e)%Z eqn:E.
  - apply Z.leb_le in E.
    pose proof (Z.pow_nonneg 2 e ltac:(lia)).
    pose proof (Z.pow_nonneg 10 (Z.of_nat p) ltac:(lia)). nia.
  - apply round_half_even_nonneg.
    + pose proof (Z.pow_nonneg 10 (Z.of_nat p) ltac:(lia)). nia.
    + apply Z.pow_pos_nonneg; lia.
Qed.

Lemma digit_value (d : Z) :
  (0 <= d < 10)%Z -> Z.of_nat (nat_of_ascii (digit d) - 48) = d.
Proof.
  intros H. unfold digit.
  assert (Hd : d = Z.of_nat (Z.to_nat d)) by lia.
  assert (Hn : Z.to_nat d < 10) by lia.
  rewrite Hd at 2.
  destruct (Z.to_nat d) as [|[|[|[|[|[|[|[|[|[|k]]]]]]]]]];
    try reflexivity; lia.
Qed.

Lemma fraction_digits_value (p : nat) (k acc0 : Z) (acc : string) :
  digits_value acc0 (fraction_digits p k acc)
  = digits_value (acc0 * 10 ^ Z.of_nat p + k mod 10 ^ Z.of_nat p)%Z acc.
Proof.
  revert k acc; induction p as [|p IH]; intros k acc.
  - cbn [fraction_digits]. f_equal. change (10 ^ Z.of_nat 0)%Z with 1%Z.
    rewrite Z.mod_1_r. lia.
  - cbn [fraction_digits]. rewrite IH. cbn [digits_value].
    rewrite digit_value by (apply Z.mod_pos_bound; lia).
    f_equal. rewrite Nat2Z.inj_succ, Z.pow_succ_r by lia.
    rewrite (Z.rem_mul_r k 10 (10 ^ Z.of_nat p)) by
        (try lia; apply Z.pow_pos_nonneg; lia).
    lia.
Qed.

Lemma string_of_uint_value (d : uint) (acc : Z) :
  digits_value acc (NilEmpty.string_of_uint d)
  = (acc * 10 ^ Z.of_N (DecimalPos.Unsigned.usize d)
     + Z.of_N (DecimalPos.Unsigned.of_lu (rev d)))%Z.
Proof.
  revert acc; induction d; intros acc;
    [cbn; lia | ..];
    cbn [NilEmpty.string_of_uint digits_value]; rewrite IHd;
    match goal with
    | |- context [DecimalPos.Unsigned.of_lu (rev (?c d))] =>
        change (rev (c d)) with (revapp d (c Nil))
    end;
    rewrite (DecimalPos.Unsigned.of_lu_revapp d);
    cbn [DecimalPos.Unsigned.usize DecimalPos.Unsigned.of_lu];
    rewrite N2Z.inj_succ, Z.pow_succ_r by lia;
    rewrite N2Z.inj_add, N2Z.inj_mul, N2Z.inj_pow;
    change (nat_of_ascii "0" - 48) with 0;
    change (nat_of_ascii "1" - 48) with 1;
    change (nat_of_ascii "2" - 48) with 2;
    change (nat_of_ascii "3" - 48) with 3;
    change (nat_of_ascii "4" - 48) with 4;
    change (nat_of_ascii "5" - 48) with 5;
    change (nat_of_ascii "6" - 48) with 6;
    change (nat_of_ascii "7" - 48) with 7;
    change (nat_of_ascii "8" - 48) with 8;
    change (nat_of_ascii "9" - 48) with 9;
    lia.
Qed.

Lemma decimal_value (z : Z) : (0 <= z)%Z -> digits_value 0 (decimal z) = z.
Proof.
  intros Hz. unfold decimal, NilZero.string_of_uint.
  pose proof (DecimalN.Unsigned.of_to (Z.to_N z)) as Hof.
  destruct (N.to_uint (Z.to_N z)) as [|d|d|d|d|d|d|d|d|d|d] eqn:E;
    [cbn in Hof; cbn; lia | ..];
    rewrite string_of_uint_value, <- DecimalPos.Unsigned.of_uint_alt;
    change (Pos.of_uint ?u) with (N.of_uint u); rewrite Hof; lia.
Qed.

Lemma fixed_point_units (p : nat) (n : Z) :
  0 < p -> (0 <= n)%Z ->
  exists ip fp : string,
    fixed_point p n = ip ++ "." ++ fp /\
    String.length fp = p /\
    units p ip fp = n.
Proof.
  intros Hp Hn. unfold fixed_point. destruct p as [|p]; [lia|].
  set (P := (10 ^ Z.of_nat (S p))%Z).
  assert (HP : (0 < P)%Z) by (apply Z.pow_pos_nonneg; lia).
  exists (decimal (n / P)), (fraction_digits (S p) (n mod P) "").
  split; [reflexivity|]. split.
  - destruct (fraction_digits_spec (S p) (n mod P) "" eq_refl) as [_ L].
    rewrite L. cbn [String.length]. lia.
  - unfold units. fold P.
    rewrite decimal_value by (apply Z.div_pos; lia).
    rewrite fraction_digits_value. cbn [digits_value]. fold P.
    rewrite Z.mod_mod by lia.
    pose proof (Z.div_mod n P ltac:(lia)). lia.
Qed.

(** X18. For a finite non-zero float [m * 2^e], [:.Nf] (N > 0) prints the
    sign, an integer part, a point and exactly N fraction digits; read as a
    number of units of 10^-N, these digits are the value rounded to the
    nearest unit: exact when [e >= 0], otherwise at most half a unit away,
    and even when exactly half a unit away. *)
Theorem format_f_rounds_to_nearest
        (p : nat) (s : bool) (m : positive) (e : Z) :
  0 < p ->
  exists ip fp : string,
    format_f p (S754_finite s m e) = sign_prefix s ++ ip ++ "." ++ fp /\
    String.length fp = p /\
    ((0 <= e)%Z ->
     units p ip fp = (Zpos m * 2 ^ e * 10 ^ Z.of_nat p)%Z) /\
    ((e < 0)%Z ->
     (2 * Z.abs (units p ip fp * 2 ^ (- e) - Zpos m * 10 ^ Z.of_nat p)
      <= 2 ^ (- e))%Z /\
     ((2 * Z.abs (units p ip fp * 2 ^ (- e) - Zpos m * 10 ^ Z.of_nat p)
       = 2 ^ (- e))%Z ->
      Z.even (units p ip fp) = true)).
Proof.
  intros Hp.
  destruct (fixed_point_units p (scaled p m e) Hp (scaled_nonneg p m e))
    as (ip & fp & F & L & U).
  exists ip, fp. cbn [format_f]. rewrite F, U.
  split; [reflexivity|]. split; [exact L|]. unfold scaled. split.
  - intros He. apply Z.leb_le in He. now rewrite He.
  - intros He. apply Z.leb_gt in He. rewrite He.
    apply round_half_even_nearest. apply Z.pow_pos_nonneg; lia.
Qed.

Lemma format_f_rounds_to_nearest_witness :
  exists ip fp : string,
    format_f 2 (S754_finite false 3 (-3)) = sign_prefix false ++ ip ++ "." ++ fp /\
    String.length fp = 2 /\
    ((0 <= -3)%Z -> units 2 ip fp = (3 * 2 ^ (-3) * 10 ^ Z.of_nat 2)%Z) /\
    ((-3 < 0)%Z ->
     (2 * Z.abs (units 2 ip fp * 2 ^ (- -3) - 3 * 10 ^ Z.of_nat 2)
      <= 2 ^ (- -3))%Z /\
     ((2 * Z.abs (units 2 ip fp * 2 ^ (- -3) - 3 * 10 ^ Z.of_nat 2)
       = 2 ^ (- -3))%Z ->
      Z.even (units 2 ip fp) = true)).
Proof.
  apply (format_f_rounds_to_nearest 2 false 3 (-3)). lia.
Defined.

(** ** Operation (a): the answer can be read back *)

(** X19. The listing of [get_node_by_class] loses nothing: when the remote
    service answers with at least one node and neither the class name nor a
    node name holds a newline, splitting the returned text into lines,
    dropping the header and the "- " of each line gives back the node names
    in the order of the answer. *)
Theorem get_node_by_class_reads_back
        (class_name : string) (found : list string) (w w1 : World) :
  slicer_util_getNodesByClass class_name (tick w) = (Ok found, w1) ->
  found <> [] ->
  Forall (fun s => has_newline s = false) (class_name :: found) ->
  exists text,
    fst (get_node_by_class class_name w) = Ok text /\
    listed_nodes text = found.
Proof.
  intros H Hne Hnl.
  exists (join LF ((class_name ++ " nodes:")
                     :: map (fun node => "- " ++ node) found)).
  split.
  - unfold get_node_by_class.
    rewrite bind_time, (bind_ok _ _ _ _ _ H), bind_time, bind_log.
    destruct found as [|n0 found]; [contradiction|].
    rewrite fold_left_append. reflexivity.
  - unfold listed_nodes. rewrite split_lines_join.
    + cbn [tl]. rewrite map_map. cbn [drop_dash append]. apply map_id.
    + inversion Hnl as [|? ? Hc Hf]; subst. constructor.
      * rewrite has_newline_app, Hc. reflexivity.
      * apply Forall_map. eapply Forall_impl; [|exact Hf].
        intros a Ha. rewrite has_newline_app, Ha. reflexivity.
Qed.

Lemma get_node_by_class_reads_back_witness :
  exists text,
    fst (get_node_by_class "vtkMRMLSegmentationNode" sample_world) = Ok text /\
    listed_nodes text = ["Segmentation"; "Twin"; "Twin"].
Proof.
  apply (get_node_by_class_reads_back "vtkMRMLSegmentationNode"
           ["Segmentation"; "Twin"; "Twin"] sample_world
           (snd (slicer_util_getNodesByClass "vtkMRMLSegmentationNode"
                   (tick sample_world)))).
  - reflexivity.
  - discriminate.
  - repeat constructor.
Defined.

(** ** Operation (d): a failure inside the bracket *)

(** X20. Operation (d) has no [finally]: when the node is resolved, the
    bracket opened and the [SetAllSegmentsVisibility] call raises, the
    exception propagates, [EndModify] is never called, the display node is
    left with its modified events disabled, observers receive no event and
    nothing is logged.  What the segments are then is decided by the fault
    alone: they are as before when the call did not reach the session; when
    the session had carried the call out, every segment has the requested
    visibility and the notification of the change stays pending. *)
Theorem set_all_segments_visibility_fault_leaves_bracket_open
        (name : string) (visible : bool) (h : NodeRef) (n : Node)
        (segs : list Segment) (dn : DisplayNode) (w : World) (ft : Fault)
        (rest : list (option Fault)) :
  refs_where (named name) (w_scene w) = [h] ->
  nth_error (nodes (w_scene w)) h = Some n ->
  is_a "vtkMRMLSegmentationNode" n = true ->
  node_segments n = Some segs ->
  node_display n = Some dn ->
  w_faults w = (repeat None 6 ++ Some ft :: rest)%list ->
  exists w' : World,
    set_all_segments_visibility name visible w = (Raise (fault_exn ft), w') /\
    Forall (fun c => is_EndModify_call c = false) (calls_since w w') /\
    last (calls_since w w') call_slicer_app_layoutManager
    = call_SetAllSegmentsVisibility h visible /\
    segments_of h w'
    = Some (if fault_applied ft then map (with_visible visible) segs else segs) /\
    display_of h w'
    = Some (mk_display true
              (if fault_applied ft
                  && existsb (fun s => negb (Bool.eqb (seg_visible s) visible))
                             segs
               then S (ModifiedEventPending dn) else ModifiedEventPending dn)
              (ModifiedEvents dn)) /\
    w_log w' = w_log w.
Proof.
  intros Hrefs Hn Hisa Hs Hd Hf.
  assert (Hq : quiet 6 (w_faults w) = true).
  { rewrite Hf. apply quiet_repeat. }
  assert (Hfin : forall sem,
             sem = on_display "SetAllSegmentsVisibility" h
                     (fun segs0 dn0 =>
                        (tt, set_all_visibility visible segs0,
                         modified_if (changes (fun _ => true) visible segs0) dn0)) ->
             (if fault_applied ft
              then snd (sem (put h segs (started dn) n (w_scene w)))
              else put h segs (started dn) n (w_scene w))
             = put h (if fault_applied ft
                      then map (with_visible visible) segs else segs)
                     (mk_display true
                        (if fault_applied ft
                            && existsb (fun s =>
                                          negb (Bool.eqb (seg_visible s) visible))
                                       segs
                         then S (ModifiedEventPending dn)
                         else ModifiedEventPending dn)
                        (ModifiedEvents dn))
                     n (w_scene w)).
  { intros sem ->. destruct (fault_applied ft); [|reflexivity].
    rewrite (on_display_put _ _ _ _ _ _ _ Hn). cbn [fst snd andb].
    rewrite changes_all. unfold set_all_visibility, modified_if, Modified.
    now destruct (existsb _ segs). }
  eexists. split; [|split; [|split; [|split; [|split]]]].
  - unfold set_all_segments_visibility. rewrite bind_time.
    rewrite (bind_ok _ _ _ _ _
               (helper_resolves name h n dn (tick w) Hrefs Hn Hisa Hd
                  (quiet_le 5 6 _ ltac:(lia) Hq))).
    do 5 (apply quiet_S in Hq; destruct Hq as [_ Hq]).
    unfold resolved.
    call Hq. rewrite (on_display_run _ _ _ segs dn n _ Hn Hs Hd).
    cbn [fst snd]. unfold SetAllSegmentsVisibility.
    etransitivity.
    { apply bind_remote_fault. cbn [w_faults after_call tick]. rewrite Hf.
      reflexivity. }
    cbn [w_scene after_call]. fold (started dn). rewrite (Hfin _ eq_refl).
    reflexivity.
  - unfold calls_since. cbn [w_trace after_call tick].
    rewrite <- !app_assoc, skipn_own_app. repeat constructor.
  - unfold calls_since. cbn [w_trace after_call tick].
    rewrite <- !app_assoc, skipn_own_app. reflexivity.
  - unfold segments_of. cbn [w_scene after_call].
    now rewrite (put_node _ _ _ _ _ Hn).
  - unfold display_of. cbn [w_scene after_call].
    now rewrite (put_node _ _ _ _ _ Hn).
  - reflexivity.
Qed.

Lemma set_all_segments_visibility_fault_leaves_bracket_open_witness :
  exists w' : World,
    set_all_segments_visibility "Segmentation" false dropping_world
    = (Raise connection_lost, w') /\
    Forall (fun c => is_EndModify_call c = false)
           (calls_since dropping_world w') /\
    last (calls_since dropping_world w') call_slicer_app_layoutManager
    = call_SetAllSegmentsVisibility 1 false /\
    segments_of 1 w' = Some (map (with_visible false) sample_segments) /\
    display_of 1 w' = Some (mk_display true 1 0) /\
    w_log w' = w_log dropping_world.
Proof.
  apply (set_all_segments_visibility_fault_leaves_bracket_open
           "Segmentation" false 1
           (mk_node "vtkMRMLSegmentationNode1" "Segmentation"
                    segmentation_classes (Some sample_segments)
                    (Some (mk_display false 0 0)))
           sample_segments (mk_display false 0 0) dropping_world
           (reply_lost connection_lost) []);
    reflexivity.
Defined.

(** ** [center_view]: a failure in the 3D part *)

(** X21. The three slice views share the [try] statement of the 3D view:
    when there is a 3D widget and one of the first four remote calls
    ([layoutManager], [threeDWidget], [threeDView], [resetFocalPoint])
    raises, [center_view] makes no further remote call, so no slice view is
    fitted, and it logs nothing.  It returns the error sentence with the
    text of the exception when that is an [Exception], and lets it through
    otherwise.  The scene is as it was, except that the focal point is reset
    when it is the [resetFocalPoint] call that raised after the session had
    carried it out. *)
Theorem center_view_3d_failure_skips_slices
        (lm : LayoutManager) (w : World) (k : nat) (ft : Fault)
        (rest : list (option Fault)) :
  layout (w_scene w) = Some lm ->
  has_threeDWidget lm = true ->
  w_faults w = (repeat None k ++ Some ft :: rest)%list ->
  k <= 3 ->
  exists w' : World,
    center_view w
    = (if is_Exception (fault_exn ft)
       then Ok ("Error centering views: " ++ str_exn (fault_exn ft))
       else Raise (fault_exn ft), w') /\
    nodes (w_scene w') = nodes (w_scene w) /\
    layout (w_scene w')
    = Some (mk_layout true (slice_widgets lm)
              (if fault_applied ft && Nat.eqb k 3
               then S (focal_resets lm) else focal_resets lm)
              (fitted lm)) /\
    length (calls_since w w') = S k /\
    w_faults w' = rest /\
    w_log w' = w_log w.
Proof.
  intros Hl H3 Hf Hk.
  destruct w as [[nds lay] fs tr ck tk lg].
  cbn [w_scene layout w_faults] in Hl, Hf. subst lay fs.
  destruct lm as [has3 slices resets fit].
  cbn [has_threeDWidget] in H3. subst has3.
  destruct ft as [[kind msg] applied].
  assert (Hc : k = 0 \/ k = 1 \/ k = 2 \/ k = 3) by lia.
  destruct Hc as [-> | [-> | [-> | ->]]]; destruct applied; destruct kind;
    (eexists; split; [reflexivity|]);
    unfold calls_since; cbn;
    rewrite <- ?app_assoc, skipn_own_app; repeat split.
Qed.

Lemma center_view_3d_failure_skips_slices_witness :
  exists w' : World,
    center_view (session (mk_scene sample_nodes (Some sample_layout))
                         [None; None; None; Some (reply_lost connection_lost)])
    = (Ok "Error centering views: connection closed by peer", w') /\
    nodes (w_scene w') = sample_nodes /\
    layout (w_scene w')
    = Some (mk_layout true ["Red"; "Yellow"; "Green"] 1 []) /\
    length (calls_since
              (session (mk_scene sample_nodes (Some sample_layout))
                       [None; None; None; Some (reply_lost connection_lost)])
              w')
    = 4 /\
    w_faults w' = [] /\
    w_log w' = [].
Proof.
  apply (center_view_3d_failure_skips_slices sample_layout
           (session (mk_scene sample_nodes (Some sample_layout))
                    [None; None; None; Some (reply_lost connection_lost)])
           3 (reply_lost connection_lost) []);
    [reflexivity | reflexivity | reflexivity | lia].
Defined.
